(** * pdfbourso: the Boursorama PDF statement importer

    A shallow embedding of [pdfbourso/pdfbourso.py] and the properties of
    its statement-parsing engine.

    Conventions of the embedding.
    - A Python [str] is a [string] whose characters are code points; the
      model covers texts in the Latin-1 range (code points 0..255), where
      [\d] is exactly [0-9] and [\s] is the twelve white-space code points
      listed in [is_space].  Non-ASCII characters are written by their code
      point (code 233 is e-acute).
    - [re] is embedded as a backtracking matcher over a small regular
      expression syntax; the patterns of the importer are written with the
      combinators of section 'Patterns', each next to the source pattern.
    - [decimal.Decimal] is embedded as sign, coefficient and exponent;
      [Decimal] is the constructor from a string.
    - The importer's methods live in a state-and-exception monad over the
      importer instance ([self]). *)

From Stdlib Require Import Ascii String List ZArith NArith Lia Bool.
From stdpp Require Import gmap strings.

Open Scope string_scope.

(** ** Python strings *)

(** Code points used by the source that are not ASCII. *)
Definition e_acute : ascii := "233"%char.       (* U+00E9 *)
Definition E_acute : ascii := "201"%char.       (* U+00C9 *)
Definition degree_sign : ascii := "176"%char.   (* U+00B0 *)
Definition masc_ordinal : ascii := "186"%char.  (* U+00BA *)
Definition nbsp : ascii := "160"%char.          (* U+00A0, \xa0 *)
Definition newline : ascii := "010"%char.       (* \n *)
Definition backslash : ascii := "092"%char.

Definition chr (c : ascii) : string := String c EmptyString.

(** [str.isdigit] restricted to decimal digits, as [\d] uses it. *)
Definition is_digit (c : ascii) : bool :=
  let n := nat_of_ascii c in (48 <=? n)%nat && (n <=? 57)%nat.

(** [str.isspace] on Latin-1: TAB LF VT FF CR, FS GS RS US, SPACE, NEL, NBSP. *)
Definition is_space (c : ascii) : bool :=
  let n := nat_of_ascii c in
  ((9 <=? n)%nat && (n <=? 13)%nat) || ((28 <=? n)%nat && (n <=? 32)%nat)
  || (n =? 133)%nat || (n =? 160)%nat.

Definition in_range (lo hi c : ascii) : bool :=
  (nat_of_ascii lo <=? nat_of_ascii c)%nat && (nat_of_ascii c <=? nat_of_ascii hi)%nat.

Fixpoint str_drop (n : nat) (s : string) : string :=
  match n, s with
  | S n', String _ s' => str_drop n' s'
  | _, _ => s
  end.

Fixpoint str_take (n : nat) (s : string) : string :=
  match n, s with
  | S n', String c s' => String c (str_take n' s')
  | _, _ => EmptyString
  end.

(** The part of [s] in front of its suffix [rest]. *)
Definition str_before (s rest : string) : string :=
  str_take (String.length s - String.length rest) s.

Fixpoint starts_with (p s : string) : bool :=
  match p, s with
  | EmptyString, _ => true
  | String a p', String b s' => Ascii.eqb a b && starts_with p' s'
  | String _ _, EmptyString => false
  end.

(** [s.replace(old, new)] for a non-empty [old]: left to right, occurrences
    do not overlap.  [skip] counts the characters of a replaced occurrence
    that are still to be dropped. *)
Fixpoint replace_from (old new : string) (skip : nat) (s : string) : string :=
  match s with
  | EmptyString => EmptyString
  | String c s' =>
      match skip with
      | S k => replace_from old new k s'
      | O =>
          if starts_with old s
          then new +:+ replace_from old new (String.length old - 1) s'
          else String c (replace_from old new 0 s')
      end
  end.

Definition replace (old new s : string) : string := replace_from old new 0 s.

(** [s.split(sep)] for a one-character separator: never empty. *)
Fixpoint split_on (sep : ascii) (s : string) : list string :=
  match s with
  | EmptyString => [EmptyString]
  | String c s' =>
      if Ascii.eqb c sep then EmptyString :: split_on sep s'
      else match split_on sep s' with
           | w :: ws => String c w :: ws
           | [] => [chr c]
           end
  end.

(** [l[-1]] on a list of strings that is never empty. *)
Definition last_str (l : list string) : string := List.last l EmptyString.

Fixpoint lstrip (s : string) : string :=
  match s with
  | String c s' => if is_space c then lstrip s' else s
  | EmptyString => EmptyString
  end.

Fixpoint rstrip (s : string) : string :=
  match s with
  | EmptyString => EmptyString
  | String c s' =>
      match rstrip s' with
      | EmptyString => if is_space c then EmptyString else chr c
      | r => String c r
      end
  end.

(** [s.strip()] *)
Definition strip (s : string) : string := rstrip (lstrip s).

(** Truth value of a string: empty is false. *)
Definition truthy (s : string) : bool :=
  match s with EmptyString => false | _ => true end.

(** ** Regular expressions: the part of [re] the importer uses *)

Inductive regex : Type :=
| Eps : regex
| Cls : (ascii -> bool) -> regex               (* one character of a class *)
| Seq : regex -> regex -> regex
| Alt : regex -> regex -> regex
| Rep : regex -> nat -> option nat -> bool -> regex  (* body, min, max, greedy *)
| Grp : nat -> regex -> regex.                  (* capturing group, numbered from 1 *)

(** Captured groups by number; index 0 is the whole match. [None] is a group
    that did not take part in the match. *)
Abbreviation captures := (list (option string)).

Definition set_group (i : nat) (g : string) (caps : captures) : captures :=
  <[i := Some g]> caps.

Section Matcher.
Context {R : Type}.

(** Backtracking match of [r] at the head of [s], in continuation-passing
    style: [k] receives the rest of the input and the groups, and a [None]
    from it makes the matcher try its next alternative, in the priority
    order of [re] (greedy repeats try one more iteration first, lazy ones
    try to stop first).  An unbounded repeat gives up an iteration past
    its minimum that consumed nothing. *)
Fixpoint rmatch (r : regex) (s : string) (caps : captures)
    (k : string -> captures -> option R) {struct r} : option R :=
  match r with
  | Eps => k s caps
  | Cls p =>
      match s with
      | String c s' => if p c then k s' caps else None
      | EmptyString => None
      end
  | Seq r1 r2 => rmatch r1 s caps (fun s1 c1 => rmatch r2 s1 c1 k)
  | Alt r1 r2 =>
      match rmatch r1 s caps k with
      | Some x => Some x
      | None => rmatch r2 s caps k
      end
  | Grp i r1 =>
      rmatch r1 s caps (fun s1 c1 => k s1 (set_group i (str_before s s1) c1))
  | Rep r1 lo hi greedy =>
      (fix loop (fuel n : nat) (s : string) (caps : captures) {struct fuel}
         : option R :=
         let stop := if (lo <=? n)%nat then k s caps else None in
         let more :=
           match fuel with
           | O => None
           | S fuel' =>
               rmatch r1 s caps (fun s1 c1 =>
                 if (n <? lo)%nat || bool_decide (is_Some hi)
                    || (String.length s1 <? String.length s)%nat
                 then loop fuel' (S n) s1 c1
                 else None)
           end in
         if greedy
         then match more with Some x => Some x | None => stop end
         else match stop with Some x => Some x | None => more end)
        (match hi with Some h => h | None => lo + String.length s end)%nat
        O s caps
  end.
End Matcher.

(** A match object: where the match starts, the input after it, and the
    groups (index 0 holds the matched text). *)
Record match_obj := MatchObj {
  m_start : nat;
  m_rest : string;
  m_groups : captures
}.

(** [m.group(i)] *)
Definition group (m : match_obj) (i : nat) : option string :=
  mjoin (m_groups m !! i).

(** One attempt at the head of [s]. [must_advance] refuses an empty match
    (the scanning functions set it right after an empty match). *)
Definition match_here (r : regex) (ngroups : nat) (must_advance : bool)
    (start : nat) (s : string) : option match_obj :=
  rmatch r s (replicate (S ngroups) None)
    (fun rest caps =>
       if must_advance && (String.length rest =? String.length s)%nat then None
       else Some (MatchObj start rest (set_group 0 (str_before s rest) caps))).

(** Leftmost match: the attempts go through the start positions in order. *)
Fixpoint search_from (r : regex) (ngroups : nat) (must_advance : bool)
    (start : nat) (s : string) : option match_obj :=
  match match_here r ngroups must_advance start s with
  | Some m => Some m
  | None =>
      match s with
      | EmptyString => None
      | String _ s' => search_from r ngroups false (S start) s'
      end
  end.

(** A compiled pattern: the expression and its number of groups. *)
Record pattern := Pattern { p_regex : regex; p_groups : nat }.

(** [re.search(p, text)] *)
Definition re_search (p : pattern) (text : string) : option match_obj :=
  search_from (p_regex p) (p_groups p) false 0 text.

(** The successive non-overlapping matches, as [finditer] scans them: after
    a match the scan resumes at its end, and an empty match may not be
    followed by another empty match at the same place.  A match is paired
    with the unmatched text in front of it; the last component is the text
    after the last match. *)
Fixpoint scan (fuel : nat) (p : pattern) (must_advance : bool) (s : string)
    : list (string * match_obj) * string :=
  match fuel with
  | O => ([], s)
  | S fuel' =>
      match search_from (p_regex p) (p_groups p) must_advance 0 s with
      | None => ([], s)
      | Some m =>
          let empty := (String.length (m_rest m) =? String.length s - m_start m)%nat in
          let '(ms, tail) := scan fuel' p empty (m_rest m) in
          ((str_take (m_start m) s, m) :: ms, tail)
      end
  end.

Definition finditer (p : pattern) (text : string) : list match_obj :=
  map snd (fst (scan (2 * String.length text + 2) p false text)).

(** The tuple [re.findall] builds for a match of a pattern with several
    groups: the groups 1..n, a group that did not take part giving the empty string. *)
Definition groups_tuple (m : match_obj) : list string :=
  map (fun g => default EmptyString g) (tail (m_groups m)).

(** [re.findall(p, text)] for a pattern with two groups or more. *)
Definition re_findall (p : pattern) (text : string) : list (list string) :=
  map groups_tuple (finditer p text).

(** [chunk[i]] on such a tuple. *)
Definition item (chunk : list string) (i : nat) : string :=
  nth i chunk EmptyString.

(** [re.sub(p, repl, text)] for a replacement without group references. *)
Definition re_sub (p : pattern) (repl text : string) : string :=
  let '(ms, tail) := scan (2 * String.length text + 2) p false text in
  fold_right (fun '(pre, _) acc => pre +:+ repl +:+ acc) tail ms.

(** ** Patterns *)

Definition lit_char (c : ascii) : regex := Cls (Ascii.eqb c).

Fixpoint lit (s : string) : regex :=
  match s with
  | EmptyString => Eps
  | String c s' => Seq (lit_char c) (lit s')
  end.

Definition seq (rs : list regex) : regex := fold_right Seq Eps rs.

Definition d : regex := Cls is_digit.                              (* \d *)
Definition sp : regex := Cls is_space.                             (* \s *)
Definition any : regex := Cls (fun c => negb (Ascii.eqb c newline)). (* . *)
Definition any_nl : regex := Cls (fun _ => true).                  (* [\s\S] *)
Definition upper : regex := Cls (in_range "A" "Z").                (* [A-Z] *)
Definition comma_or_dot : regex :=                                 (* [,.] *)
  Cls (fun c => Ascii.eqb c "," || Ascii.eqb c ".").
Definition isin_char : regex :=                                    (* [A-Z,0-9] *)
  Cls (fun c => in_range "A" "Z" c || Ascii.eqb c "," || in_range "0" "9" c).

Definition star (r : regex) : regex := Rep r 0 None true.          (* r* *)
Definition plus (r : regex) : regex := Rep r 1 None true.          (* r+ *)
Definition plus_lazy (r : regex) : regex := Rep r 1 None false.    (* r+? *)
Definition opt (r : regex) : regex := Rep r 0 (Some 1) true.       (* r? *)
Definition times (lo hi : nat) (r : regex) : regex := Rep r lo (Some hi) true. (* r{lo,hi} *)
Definition exactly (n : nat) (r : regex) : regex := Rep r n (Some n) true.     (* r{n} *)

(** [\d{1,2}\/\d{2}\/\d{4}] and [\d{2}\/\d{2}\/\d{4}] and [\d*/\d*/\d*] *)
Definition date_dmy : regex :=
  seq [times 1 2 d; lit "/"; exactly 2 d; lit "/"; exactly 4 d].
Definition date_ddmy : regex :=
  seq [exactly 2 d; lit "/"; exactly 2 d; lit "/"; exactly 4 d].
Definition date_loose : regex :=
  seq [star d; lit "/"; star d; lit "/"; star d].

(** [\d{0,3}\s\d{1,3}[,.]\d{2}] *)
Definition amount_2 : regex :=
  seq [times 0 3 d; sp; times 1 3 d; comma_or_dot; exactly 2 d].
(** [\d{0,3}\s*\d{1,3}[,.]\d{1,3}] *)
Definition amount_13 : regex :=
  seq [times 0 3 d; star sp; times 1 3 d; comma_or_dot; times 1 3 d].
(** [(?:\d{1,3}\.)?\d{1,3},\d{2}] *)
Definition amount_fr : regex :=
  seq [opt (seq [times 1 3 d; lit "."]); times 1 3 d; lit ","; exactly 2 d].
(** [(?:\d{1,3}\.)?(?:\d{1,3}\.)?\d{1,3},\d{2}] *)
Definition amount_fr2 : regex :=
  seq [opt (seq [times 1 3 d; lit "."]); opt (seq [times 1 3 d; lit "."]);
       times 1 3 d; lit ","; exactly 2 d].
(** [\d+.\d{2}] *)
Definition column : regex := seq [plus d; any; exactly 2 d].

(** The seven markers of [identify], in the order of the source. *)
(* COUPONS REMBOURSEMENTS : *)
Definition marker_dividende : pattern := Pattern (lit "COUPONS REMBOURSEMENTS :") 0.
(* RELEVE COMPTE ESPECES : *)
Definition marker_espece : pattern := Pattern (lit "RELEVE COMPTE ESPECES :") 0.
(* OPERATION DE BOURSE *)
Definition marker_bourse : pattern := Pattern (lit "OPERATION DE BOURSE") 0.
(* OPERATION SUR OPC *)
Definition marker_opcvm : pattern := Pattern (lit "OPERATION SUR OPC") 0.
(* Relev\u00e9 de Carte *)
Definition marker_cb : pattern :=
  Pattern (lit ("Relev" +:+ chr e_acute +:+ " de Carte")) 0.
(* BOURSORAMA BANQUE|BOUSFRPPXXX|RCS\sNanterre\s351\s?058\s?151 *)
Definition marker_compte : pattern :=
  Pattern (Alt (lit "BOURSORAMA BANQUE")
          (Alt (lit "BOUSFRPPXXX")
               (seq [lit "RCS"; sp; lit "Nanterre"; sp; lit "351"; opt sp;
                     lit "058"; opt sp; lit "151"]))) 0.
(* tableau d'amortissement|Ech\u00e9ancier Pr\u00e9visionnel|\u00c9ch\u00e9ancier D\u00e9finitif *)
Definition marker_amortissement : pattern :=
  Pattern (Alt (lit "tableau d'amortissement")
          (Alt (lit ("Ech" +:+ chr e_acute +:+ "ancier Pr" +:+ chr e_acute +:+ "visionnel"))
               (lit (chr E_acute +:+ "ch" +:+ chr e_acute +:+ "ancier D"
                     +:+ chr e_acute +:+ "finitif")))) 0.

(** The account-number patterns of [file_account]. *)
(* \s*(\d{11}) *)
Definition account_compte : pattern :=
  Pattern (seq [star sp; Grp 1 (exactly 11 d)]) 1.
(* \s*((4979|4810)\*{8}\d{4}) *)
Definition account_cb : pattern :=
  Pattern (seq [star sp;
                Grp 1 (seq [Grp 2 (Alt (lit "4979") (lit "4810"));
                            exactly 8 (lit_char "*"); exactly 4 d])]) 2.
(* N(?:\u00b0|\u00ba) du cr\u00e9dit\s*:\s?(\d{5}\s?-\s?\d{11}) *)
Definition account_amortissement : pattern :=
  Pattern (seq [lit "N"; Alt (lit_char degree_sign) (lit_char masc_ordinal);
                lit (" du cr" +:+ chr e_acute +:+ "dit"); star sp; lit ":"; opt sp;
                Grp 1 (seq [exactly 5 d; opt sp; lit "-"; opt sp; exactly 11 d])]) 1.
(* 40618\s\d{5}\s(\d{11})\s *)
Definition account_cash : pattern :=
  Pattern (seq [lit "40618"; sp; exactly 5 d; sp; Grp 1 (exactly 11 d); sp]) 1.
(* \d{5}\s\d{5}\s(\d{11})\s *)
Definition account_bourse : pattern :=
  Pattern (seq [exactly 5 d; sp; exactly 5 d; sp; Grp 1 (exactly 11 d); sp]) 1.
(* Code ISIN\s:\s*([A-Z,0-9]{12}) *)
Definition code_isin : pattern :=
  Pattern (seq [lit "Code ISIN"; sp; lit ":"; star sp; Grp 1 (exactly 12 isin_char)]) 1.

(* (?:le\s|au\s*|Date d\u00e9part\s*:\s)(\d*/\d*/\d* ) *)
Definition reference_date : pattern :=
  Pattern (seq [Alt (seq [lit "le"; sp])
               (Alt (seq [lit "au"; star sp])
                    (seq [lit ("Date d" +:+ chr e_acute +:+ "part"); star sp; lit ":"; sp]));
                Grp 1 date_loose]) 1.

(** DividendeBourse.
    (\d{2}\/\d{2}\/\d{4})\s*(\d{1,5})\s*(.* )\s\(([A-Z]{2}[A-Z,0-9]{10})\)\s*(\d{0,3}\s\d{1,3}[,.]\d{2})\s*(\d{0,3}\s\d{1,3}[,.]\d{2})?\s*(\d{0,3}\s\d{1,3}[,.]\d{2})\s*(\d{0,3}\s\d{1,3}[,.]\d{2})\s*(\d{0,3}\s\d{1,3}[,.]\d{2}) *)
Definition dividende_line : pattern :=
  Pattern (seq [Grp 1 date_ddmy; star sp; Grp 2 (times 1 5 d); star sp;
                Grp 3 (star any); sp; lit "(";
                Grp 4 (seq [exactly 2 upper; exactly 10 isin_char]); lit ")"; star sp;
                Grp 5 amount_2; star sp; opt (Grp 6 amount_2); star sp;
                Grp 7 amount_2; star sp; Grp 8 amount_2; star sp; Grp 9 amount_2]) 9.

(** EspeceBourse.
    (\d*/\d*/\d* ).*SOLDE\s*(\d{0,3}\s\d{1,3}[,.]\d{1,3}) *)
Definition espece_line : pattern :=
  Pattern (seq [Grp 1 date_loose; star any; lit "SOLDE"; star sp;
                Grp 2 (seq [times 0 3 d; sp; times 1 3 d; comma_or_dot; times 1 3 d])]) 2.

(** Bourse. *)
Definition amount_currency (i : nat) : regex :=
  seq [Grp i amount_13; sp; Grp (S i) (exactly 3 upper)].
(* Montant transaction\s*Montant transaction brut\s*Int\u00e9r\u00eats\s*total brut\s*Courtages\s*Montant transaction net\s*
   followed by five times (\d{0,3}\s*\d{1,3}[,.]\d{1,3})\s([A-Z]{3})\s* *)
Definition bourse_montant : pattern :=
  Pattern (seq [lit "Montant transaction"; star sp; lit "Montant transaction brut"; star sp;
                lit ("Int" +:+ chr e_acute +:+ "r" +:+ chr "234" +:+ "ts"); star sp;
                lit "total brut"; star sp; lit "Courtages"; star sp;
                lit "Montant transaction net"; star sp;
                amount_currency 1; star sp; amount_currency 3; star sp;
                amount_currency 5; star sp; amount_currency 7; star sp;
                amount_currency 9; star sp]) 10.
(* Commission\s*Frais divers\s*Montant total des frais\s*
   followed by three times (\d{0,3}\s*\d{1,3}[,.]\d{1,3})\s([A-Z]{3})\s* *)
Definition bourse_frais : pattern :=
  Pattern (seq [lit "Commission"; star sp; lit "Frais divers"; star sp;
                lit "Montant total des frais"; star sp;
                amount_currency 1; star sp; amount_currency 3; star sp;
                amount_currency 5; star sp]) 6.
(* locale d'ex\u00e9cution\s*Quantit\u00e9\s*Informations sur la valeur\s*Informations sur l'ex\u00e9cution\s*(\d{1,2}\/\d{2}\/\d{4})\s*(\d{0,3}\s\d{1,3})\s*([\s\S]{0,20})?\s* *)
Definition bourse_execution : pattern :=
  Pattern (seq [lit ("locale d'ex" +:+ chr e_acute +:+ "cution"); star sp;
                lit ("Quantit" +:+ chr e_acute); star sp;
                lit "Informations sur la valeur"; star sp;
                lit ("Informations sur l'ex" +:+ chr e_acute +:+ "cution"); star sp;
                Grp 1 date_dmy; star sp;
                Grp 2 (seq [times 0 3 d; sp; times 1 3 d]); star sp;
                opt (Grp 3 (times 0 20 any_nl)); star sp]) 3.
(* Cours ex\u00e9cut\u00e9 :\s*(\d{0,3}\s\d{1,3}[,.]\d{0,4})\s([A-Z]{1,3}) *)
Definition bourse_cours : pattern :=
  Pattern (seq [lit ("Cours ex" +:+ chr e_acute +:+ "cut" +:+ chr e_acute +:+ " :"); star sp;
                Grp 1 (seq [times 0 3 d; sp; times 1 3 d; comma_or_dot; times 0 4 d]);
                sp; Grp 2 (times 1 3 upper)]) 2.
(* ACHAT COMPTANT *)
Definition achat_comptant : pattern := Pattern (lit "ACHAT COMPTANT") 0.

(** OPCVM. *)
(* Montant brut\s*Droits d'entr\u00e9e\s*Frais H.T.\s*T.V.A.\s*Montant net au d\u00e9bit de votre compte\s*(\d{0,3}\s*\d{1,3}[,.]\d{1,3})\s([A-Z]{3})\s*(...)\s([A-Z]{3})\s*(...)\s([A-Z]{3})\s*(...)\s([A-Z]{3})\s *)
Definition opcvm_montant : pattern :=
  Pattern (seq [lit "Montant brut"; star sp;
                lit ("Droits d'entr" +:+ chr e_acute +:+ "e"); star sp;
                lit "Frais H"; any; lit "T"; any; star sp;
                lit "T"; any; lit "V"; any; lit "A"; any; star sp;
                lit ("Montant net au d" +:+ chr e_acute +:+ "bit de votre compte"); star sp;
                amount_currency 1; star sp; amount_currency 3; star sp;
                amount_currency 5; star sp; amount_currency 7; sp]) 8.
(* (\d{1,2}\/\d{2}\/\d{4})\s*(\d{0,3}\s\d{1,3}[.,]?\d{0,4})\s*([\s\S]{0,20})?\s* *)
Definition opcvm_execution : pattern :=
  Pattern (seq [Grp 1 date_dmy; star sp;
                Grp 2 (seq [times 0 3 d; sp; times 1 3 d; opt comma_or_dot; times 0 4 d]);
                star sp; opt (Grp 3 (times 0 20 any_nl)); star sp]) 3.
(* Valeur liquidative :\s*(\d{0,3}\s\d{1,3}[,.]\d{0,4})\s([A-Z]{1,3}) *)
Definition opcvm_cours : pattern :=
  Pattern (seq [lit "Valeur liquidative :"; star sp;
                Grp 1 (seq [times 0 3 d; sp; times 1 3 d; comma_or_dot; times 0 4 d]);
                sp; Grp 2 (times 1 3 upper)]) 2.
(* SOUSCRIPTION *)
Definition souscription : pattern := Pattern (lit "SOUSCRIPTION") 0.

(** Compte. *)
(* \s*\d{11} *)
Definition compte_numero : pattern := Pattern (seq [star sp; exactly 11 d]) 0.
(* SOLDE\s(?:EN\sEUR\s+)?AU\s:(\s+)(\d{1,2}\/\d{2}\/\d{4})(\s+)((?:\d{1,3}\.)?\d{1,3},\d{2}) *)
Definition compte_solde : pattern :=
  Pattern (seq [lit "SOLDE"; sp; opt (seq [lit "EN"; sp; lit "EUR"; plus sp]);
                lit "AU"; sp; lit ":"; Grp 1 (plus sp); Grp 2 date_dmy;
                Grp 3 (plus sp); Grp 4 amount_fr]) 4.
(* \d{1,2}\/\d{2}\/\d{4}\s(.* )\s(\d{1,2}\/\d{2}\/\d{4})\s(\s* )\s((?:\d{1,3}\.)?\d{1,3},\d{2})(?:(?:\n.\s{8,20})(.+?))?\n *)
Definition compte_operation : pattern :=
  Pattern (seq [date_dmy; sp; Grp 1 (star any); sp; Grp 2 date_dmy; sp;
                Grp 3 (star sp); sp; Grp 4 amount_fr;
                opt (seq [seq [lit_char newline; any; times 8 20 sp];
                          Grp 5 (plus_lazy any)]);
                lit_char newline]) 5.
(* Nouveau solde en EUR :(\s+)((?:\d{1,3}\.)?(?:\d{1,3}\.)?\d{1,3},\d{2}) *)
Definition compte_nouveau_solde : pattern :=
  Pattern (seq [lit "Nouveau solde en EUR :"; Grp 1 (plus sp); Grp 2 amount_fr2]) 2.
(* (\d{1,2}\/\d{2}\/\d{4}).*40618 *)
Definition date_solde_final : pattern :=
  Pattern (seq [Grp 1 date_dmy; star any; lit "40618"]) 1.

(** Amortissement.
    (\d*/\d*/\d* )\s+(\d+.\d{2})\s+(\d+.\d{2})\s+(\d+.\d{2})\s+(\d+.\d{2})\s+(\d+.\d{2})\s+(\d+.\d{2})\s+(\d+.\d{2})\s+(\d+.\d{2}) *)
Definition amortissement_line : pattern :=
  Pattern (seq [Grp 1 date_loose; plus sp; Grp 2 column; plus sp; Grp 3 column; plus sp;
                Grp 4 column; plus sp; Grp 5 column; plus sp; Grp 6 column; plus sp;
                Grp 7 column; plus sp; Grp 8 column; plus sp; Grp 9 column]) 9.

(** CB. *)
(* (\d{1,2}\/\d{2}\/\d{4})\s*CARTE\s(.* )\s((?:\d{1,3}\.)?\d{1,3},\d{2}) *)
Definition cb_operation : pattern :=
  Pattern (seq [Grp 1 date_dmy; star sp; lit "CARTE"; sp; Grp 2 (star any); sp;
                Grp 3 amount_fr]) 3.
(* A VOTRE DEBIT LE\s(\d{1,2}\/\d{2}\/\d{4})\s*((?:\d{1,3}\.)?(?:\d{1,3}\.)?\d{1,3},\d{2}) *)
Definition cb_debit : pattern :=
  Pattern (seq [lit "A VOTRE DEBIT LE"; sp; Grp 1 date_dmy; star sp; Grp 2 amount_fr2]) 2.

(* \s+ of the two [re.sub] calls *)
Definition spaces : pattern := Pattern (plus sp) 0.

(** ** Exceptions *)

Inductive exn : Set :=
| AttributeError | KeyError | UnboundLocalError | TypeError
| InvalidOperation | ValueError | ParserError | OverflowError.

Inductive result (A : Type) : Type :=
| Ok (a : A)
| Raise (e : exn).
Arguments Ok {A} a.
Arguments Raise {A} e.

(** ** decimal.Decimal *)

(** A decimal is a sign, a coefficient and an exponent, or one of the
    special values.  The arithmetic below is exact: the operands the
    importer multiplies and adds come from patterns that bound them to ten
    digits, below the 28 digits at which the default context rounds. *)
Inductive decimal : Set :=
| Fin (neg : bool) (coeff : N) (exp : Z)
| Inf (neg : bool)
| NaN (neg : bool) (signaling : bool) (payload : N).

(** The sign bit, [Decimal.is_signed]. *)
Definition is_signed (x : decimal) : bool :=
  match x with Fin s _ _ | Inf s | NaN s _ _ => s end.

(** The same value with the sign flipped, [Decimal.copy_negate]. *)
Definition copy_negate (x : decimal) : decimal :=
  match x with
  | Fin s c e => Fin (negb s) c e
  | Inf s => Inf (negb s)
  | NaN s g p => NaN (negb s) g p
  end.

Definition to_lower (c : ascii) : ascii :=
  if in_range "A" "Z" c then ascii_of_nat (nat_of_ascii c + 32) else c.

Fixpoint lower (s : string) : string :=
  match s with
  | EmptyString => EmptyString
  | String c s' => String (to_lower c) (lower s')
  end.

(** The longest prefix of digits, and what follows it. *)
Fixpoint span_digits (s : string) : string * string :=
  match s with
  | String c s' =>
      if is_digit c then let '(ds, r) := span_digits s' in (String c ds, r)
      else (EmptyString, s)
  | EmptyString => (EmptyString, EmptyString)
  end.

Definition digit_value (c : ascii) : N := N.of_nat (nat_of_ascii c - 48).

Fixpoint digits_value_from (acc : N) (ds : string) : N :=
  match ds with
  | EmptyString => acc
  | String c ds' => digits_value_from (acc * 10 + digit_value c) ds'
  end.

(** [int(ds)] for a string of digits (0 for the empty string). *)
Definition digits_value (ds : string) : N := digits_value_from 0 ds.

Definition split_sign (s : string) : bool * string :=
  match s with
  | String "-" s' => (true, s')
  | String "+" s' => (false, s')
  | _ => (false, s)
  end.

(** The exponent part [E[-+]?\d+] in front of the end of the string. *)
Definition parse_exponent (s : string) : option Z :=
  match s with
  | EmptyString => Some 0%Z
  | String c s' =>
      if Ascii.eqb (to_lower c) "e" then
        let '(neg, s2) := split_sign s' in
        let '(ds, rest) := span_digits s2 in
        match ds, rest with
        | String _ _, EmptyString =>
            let v := Z.of_N (digits_value ds) in Some (if neg then (- v)%Z else v)
        | _, _ => None
        end
      else None
  end.

(** The numeric string without its sign: digits with an optional fraction
    and an optional exponent (at least one digit in front of the exponent),
    [Inf], [Infinity], [NaN] or [sNaN] with an optional payload; letters in
    either case. *)
Definition parse_unsigned (neg : bool) (s : string) : option decimal :=
  let '(int, r1) := span_digits s in
  let '(frac, r2) :=
    match r1 with
    | String "." r => span_digits r
    | _ => (EmptyString, r1)
    end in
  if truthy int || truthy frac then
    match parse_exponent r2 with
    | Some e =>
        Some (Fin neg (digits_value (int +:+ frac))
                (e - Z.of_nat (String.length frac)))
    | None => None
    end
  else
    let l := lower s in
    if String.eqb l "inf" || String.eqb l "infinity" then Some (Inf neg)
    else if starts_with "nan" l then
      let '(ds, rest) := span_digits (str_drop 3 l) in
      if truthy rest then None else Some (NaN neg false (digits_value ds))
    else if starts_with "snan" l then
      let '(ds, rest) := span_digits (str_drop 4 l) in
      if truthy rest then None else Some (NaN neg true (digits_value ds))
    else None.

(** [Decimal(s)] for a string: surrounding white space is stripped and
    underscores are dropped; what is not a numeric string raises
    [InvalidOperation]. *)
Definition Decimal (s : string) : result decimal :=
  let '(neg, body) := split_sign (replace "_" "" (strip s)) in
  match parse_unsigned neg body with
  | Some x => Ok x
  | None => Raise InvalidOperation
  end.

(** [Decimal(0)], also [Decimal()]. *)
Definition Decimal_zero : decimal := Fin false 0 0.

(** [Decimal(n)] for the integers 1 and -1 the importer multiplies by. *)
Definition Decimal_one : decimal := Fin false 1 0.
Definition Decimal_minus_one : decimal := Fin true 1 0.

(** The first NaN among the operands: a signaling one raises, a quiet one
    is the result. *)
Definition check_nans (x y : decimal) : option (result decimal) :=
  match x, y with
  | NaN _ true _, _ => Some (Raise InvalidOperation)
  | _, NaN _ true _ => Some (Raise InvalidOperation)
  | NaN _ false _, _ => Some (Ok x)
  | _, NaN _ false _ => Some (Ok y)
  | _, _ => None
  end.

(** [x * y] *)
Definition dec_mul (x y : decimal) : result decimal :=
  match check_nans x y with
  | Some r => r
  | None =>
      match x, y with
      | Fin s1 c1 e1, Fin s2 c2 e2 => Ok (Fin (xorb s1 s2) (c1 * c2) (e1 + e2))
      | Inf s1, Fin s2 c2 _ =>
          if (c2 =? 0)%N then Raise InvalidOperation else Ok (Inf (xorb s1 s2))
      | Fin s1 c1 _, Inf s2 =>
          if (c1 =? 0)%N then Raise InvalidOperation else Ok (Inf (xorb s1 s2))
      | Inf s1, Inf s2 => Ok (Inf (xorb s1 s2))
      | _, _ => Raise InvalidOperation
      end
  end.

(** [x + y]: the exponents are aligned on the smaller one; a zero sum of
    opposite signs is positive. *)
Definition dec_add (x y : decimal) : result decimal :=
  match check_nans x y with
  | Some r => r
  | None =>
      match x, y with
      | Fin s1 c1 e1, Fin s2 c2 e2 =>
          let e := Z.min e1 e2 in
          let a := (c1 * 10 ^ Z.to_N (e1 - e))%N in
          let b := (c2 * 10 ^ Z.to_N (e2 - e))%N in
          if Bool.eqb s1 s2 then Ok (Fin s1 (a + b) e)
          else if (a =? b)%N then Ok (Fin false 0 e)
          else if (b <? a)%N then Ok (Fin s1 (a - b) e)
          else Ok (Fin s2 (b - a) e)
      | Inf s1, Inf s2 => if Bool.eqb s1 s2 then Ok x else Raise InvalidOperation
      | Inf _, _ => Ok x
      | _, Inf _ => Ok y
      | _, _ => Raise InvalidOperation
      end
  end.

(** [beancount.core.number.D]: the empty string is zero; commas and spaces
    are dropped; any failure is a [ValueError]. *)
Fixpoint clean_number (s : string) : string :=
  match s with
  | EmptyString => EmptyString
  | String c s' =>
      if Ascii.eqb c "," || Ascii.eqb c " " then clean_number s'
      else String c (clean_number s')
  end.

Definition D (s : string) : result decimal :=
  if String.eqb s "" then Ok Decimal_zero
  else match Decimal (clean_number s) with
       | Ok x => Ok x
       | Raise _ => Raise ValueError
       end.

(** ** datetime.date *)

Record date : Set := Date { year : Z; month : Z; day : Z }.

Definition is_leap (y : Z) : bool :=
  ((y mod 4 =? 0) && (negb (y mod 100 =? 0) || (y mod 400 =? 0)))%Z.

Definition days_in_month (y m : Z) : Z :=
  match m with
  | 2 => if is_leap y then 29 else 28
  | 4 | 6 | 9 | 11 => 30
  | _ => 31
  end%Z.

(** [d + datetime.timedelta(1)]: the next day of the calendar;
    [OverflowError] past 9999-12-31. *)
Definition add_one_day (d : date) : result date :=
  if (day d <? days_in_month (year d) (month d))%Z
  then Ok (Date (year d) (month d) (day d + 1))
  else if (month d <? 12)%Z then Ok (Date (year d) (month d + 1) 1)
  else if (year d <? 9999)%Z then Ok (Date (year d + 1) 1 1)
  else Raise OverflowError.

Definition digit_char (n : Z) : ascii := ascii_of_nat (48 + Z.to_nat (n mod 10)).

Definition pad2 (n : Z) : string :=
  String (digit_char (n / 10)) (chr (digit_char n)).

Definition pad4 (n : Z) : string :=
  String (digit_char (n / 1000)) (String (digit_char (n / 100)) (pad2 n)).

(** [str(d)], the ISO format. *)
Definition isoformat (d : date) : string :=
  pad4 (year d) +:+ "-" +:+ pad2 (month d) +:+ "-" +:+ pad2 (day d).

(** [str(x)] for a date or [None]. *)
Definition str_of_date (x : option date) : string :=
  match x with
  | Some d => isoformat d
  | None => "None"
  end.

(** [dateutil.parser.parse(s, dayfirst='True').date()] is a collaborator
    of the importer: [None] stands for its [ParserError]. *)
Class DateParser := parse_datetime : string -> option date.

(** ** beancount.core: amounts, postings, directives *)

Record Amount : Set := mkAmount { number : decimal; currency : string }.

(** [position.Cost(number, currency, None, None)] *)
Record Cost : Set := mkCost { cost_number : decimal; cost_currency : string }.

(** [data.Posting]; [flag] and [meta] are [None] throughout.  The account is
    [None] when the importer passes Python's [None]. *)
Record Posting : Set := mkPosting {
  account : option string;
  units : Amount;
  cost : option Cost;
  price : option Amount
}.

Inductive meta_value : Set :=
| MStr (s : string)
| MInt (n : nat).

(** [data.new_metadata(filename, lineno)] *)
Definition new_metadata (filename : string) (lineno : nat) : gmap string meta_value :=
  <["lineno" := MInt lineno]> (<["filename" := MStr filename]> ∅).

(** [flags.FLAG_OKAY] *)
Definition FLAG_OKAY : ascii := "*"%char.

(** [data.Transaction]; [links] is the empty set throughout. *)
Record Transaction : Type := mkTransaction {
  t_meta : gmap string meta_value;
  t_date : date;
  t_flag : ascii;
  payee : string;
  narration : option string;
  tags : gset string;
  postings : list Posting
}.

(** The date of a balance directive is a date, or the string the importer
    passes when it has none. *)
Inductive date_or_str : Set :=
| IsDate (d : date)
| IsStr (s : string).

(** [data.Balance]; [tolerance] and [diff_amount] are [None] throughout. *)
Record Balance : Type := mkBalance {
  b_meta : gmap string meta_value;
  b_date : date_or_str;
  b_account : string;
  b_amount : Amount
}.

Inductive entry : Type :=
| ETransaction (t : Transaction)
| EBalance (b : Balance).

Definition entry_meta (e : entry) : gmap string meta_value :=
  match e with
  | ETransaction t => t_meta t
  | EBalance b => b_meta b
  end.

(** ** The importer instance and its monad *)

(** [file]: the name, the MIME type and the text [file.convert(pdf_to_text)]
    gives, of a document of the ingestion framework. *)
Record file : Set := File {
  f_name : string;
  mimetype : string;
  f_text : string
}.

(** [self]: [type] is [None] as long as the attribute is not set. *)
Record importer : Type := Importer {
  accountList : gmap string string;
  debug : bool;
  type : option string
}.

(** A method of the importer: it returns or raises, and leaves an instance. *)
Definition M (A : Type) : Type := importer -> result A * importer.

Definition ret {A} (a : A) : M A := fun self => (Ok a, self).

Definition raise {A} (e : exn) : M A := fun self => (Raise e, self).

Definition bind {A B} (c : M A) (k : A -> M B) : M B :=
  fun self =>
    match c self with
    | (Ok a, self') => k a self'
    | (Raise e, self') => (Raise e, self')
    end.

Notation "x <- c1 ;; c2" := (bind c1 (fun x => c2))
  (at level 100, c1 at next level, right associativity).
Notation "'run' c1 ;; c2" := (bind c1 (fun _ => c2))
  (at level 100, c1 at next level, right associativity).

Definition lift {A} (r : result A) : M A := fun self => (r, self).

(** Reading [self.type]: an [AttributeError] when it was never assigned. *)
Definition get_type : M string :=
  fun self =>
    match type self with
    | Some t => (Ok t, self)
    | None => (Raise AttributeError, self)
    end.

(** [self.type = t] *)
Definition set_type (t : string) : M unit :=
  fun self => (Ok tt, Importer (accountList self) (debug self) (Some t)).

(** [if self.debug: c], for the arguments of a [print] that may raise. *)
Definition when_debug {A} (c : M A) : M unit :=
  fun self => if debug self then (run c ;; ret tt) self else (Ok tt, self).

(** [self.accountList[key]] *)
Definition lookup_account (key : string) : M string :=
  fun self =>
    match accountList self !! key with
    | Some a => (Ok a, self)
    | None => (Raise KeyError, self)
    end.

(** A value that is there, or the exception its absence raises. *)
Definition expect {A} (e : exn) (x : option A) : M A :=
  match x with
  | Some a => ret a
  | None => raise e
  end.

(** Reading a local variable that an untaken branch left unbound. *)
Definition local {A} (x : option A) : M A := expect UnboundLocalError x.

(** The body of a [for] loop run on each element in turn; the entries the
    iterations append, in order. [index] counts from 1 as the loops do. *)
Fixpoint for_each {A B} (index : nat) (l : list A) (body : nat -> A -> M (list B))
    : M (list B) :=
  match l with
  | [] => ret []
  | x :: l' =>
      es <- body index x ;;
      es' <- for_each (S index) l' body ;;
      ret (es ++ es')%list
  end.

(** The values held by the scratch dictionary [ope]. *)
Inductive pyval : Set :=
| PStr (s : string)
| PBool (b : bool)
| PNone.

Definition of_group (g : option string) : pyval :=
  match g with
  | Some s => PStr s
  | None => PNone
  end.

(** [ope[key]] *)
Definition ope_get (ope : gmap string pyval) (key : string) : M pyval :=
  expect KeyError (ope !! key).

(** [ope[key]] where a string is needed. *)
Definition ope_str (ope : gmap string pyval) (key : string) : M string :=
  v <- ope_get ope key ;;
  match v with
  | PStr s => ret s
  | _ => raise AttributeError
  end.

(** Truth value of [ope[key]]. *)
Definition ope_true (ope : gmap string pyval) (key : string) : M bool :=
  v <- ope_get ope key ;;
  ret match v with
      | PStr s => truthy s
      | PBool b => b
      | PNone => false
      end.

(** [x or 'inconnu'] *)
Definition or_inconnu (s : string) : string :=
  if truthy s then s else "inconnu".

(** ** The amount normalizer *)

(** The raw string [r'\u00a']: a backslash and four characters. *)
Definition raw_u00a : string := String backslash "u00a".

(** [s.replace(',', '.').replace(' ', '').replace('\xa0', '').replace(r'\u00a', '')] *)
Definition normalize (s : string) : string :=
  replace raw_u00a "" (replace (chr nbsp) "" (replace " " "" (replace "," "." s))).

(** [s.replace('.', '').replace(',', '.')] *)
Definition normalize_fr (s : string) : string :=
  replace "," "." (replace "." "" s).

(** [Decimal(normalize(s))] *)
Definition amount_of (s : string) : result decimal := Decimal (normalize s).

(** [Decimal(normalize(s) or 0)] *)
Definition amount_or_zero (s : string) : result decimal :=
  if truthy (normalize s) then Decimal (normalize s) else Ok Decimal_zero.

(** ** The importer *)

(** [__init__] *)
Definition __init__ (accountList : gmap string string) (debug : bool) : importer :=
  Importer accountList true None.

(** What [identify] returns: [False], [1] or [None]. *)
Inductive identified : Set := IdFalse | IdOne | IdNone.

Definition found (p : pattern) (text : string) : bool :=
  bool_decide (is_Some (re_search p text)).

(** [identify] *)
Definition identify (f : file) : M identified :=
  if negb (String.eqb (mimetype f) "application/pdf") then ret IdFalse
  else
    let text := f_text f in
    if truthy text then
      if found marker_dividende text then run set_type "DividendeBourse" ;; ret IdOne
      else if found marker_espece text then run set_type "EspeceBourse" ;; ret IdOne
      else if found marker_bourse text then run set_type "Bourse" ;; ret IdOne
      else if found marker_opcvm text then run set_type "OPCVM" ;; ret IdOne
      else if found marker_cb text then run set_type "CB" ;; ret IdOne
      else if found marker_compte text then run set_type "Compte" ;; ret IdOne
      else if found marker_amortissement text then run set_type "Amortissement" ;; ret IdOne
      else ret IdNone
    else ret IdNone.

(** [file_name] *)
Definition file_name (f : file) : M string :=
  run identify f ;;
  t <- get_type ;;
  ret (if String.eqb t "DividendeBourse" then "Relev" +:+ chr e_acute +:+ " Dividendes.pdf"
       else if String.eqb t "EspeceBourse" then "Relev" +:+ chr e_acute +:+ " Espece.pdf"
       else if String.eqb t "Bourse" then "Relev" +:+ chr e_acute +:+ " Operation.pdf"
       else if String.eqb t "Compte" then "Relev" +:+ chr e_acute +:+ " Compte.pdf"
       else if String.eqb t "CB" then "Relev" +:+ chr e_acute +:+ " CB.pdf"
       else "Boursorama.pdf").

(** The pattern [file_account] picks for the type, if any. *)
Definition account_control (t : string) : option pattern :=
  if String.eqb t "Compte" then Some account_compte
  else if String.eqb t "CB" then Some account_cb
  else if String.eqb t "Amortissement" then Some account_amortissement
  else if String.eqb t "EspeceBourse" || String.eqb t "DividendeBourse" then Some account_cash
  else if String.eqb t "Bourse" || String.eqb t "OPCVM" then Some account_bourse
  else None.

(** [file_account]: the account, or [None] when the method falls off its end. *)
Definition file_account (f : file) : M (option string) :=
  let text := f_text f in
  run identify f ;;
  t <- get_type ;;
  control <- local (account_control t) ;;
  let match_ := re_search control text in
  run when_debug (m <- expect AttributeError match_ ;; ret (group m 1)) ;;
  match match_ with
  | Some m =>
      compte <- expect KeyError (group m 1) ;;
      t <- get_type ;;
      if String.eqb t "Bourse" || String.eqb t "OPCVM" then
        match re_search code_isin text with
        | Some m2 =>
            a <- lookup_account compte ;;
            isin <- expect TypeError (group m2 1) ;;
            ret (Some (a +:+ ":" +:+ isin))
        | None => ret None
        end
      else if String.eqb t "DividendeBourse" || String.eqb t "EspeceDividende" then
        a <- lookup_account compte ;;
        ret (Some (a +:+ ":Cash"))
      else
        a <- lookup_account compte ;;
        ret (Some a)
  | None => ret None
  end.

Section Extract.
Context `{DateParser}.

(** [parse_datetime(s, dayfirst='True').date()] *)
Definition parse_date (s : string) : M date :=
  expect ParserError (parse_datetime s).

(** [file_date] *)
Definition file_date (f : file) : M (option date) :=
  let text := f_text f in
  match re_search reference_date text with
  | Some m =>
      g <- expect TypeError (group m 1) ;;
      dt <- parse_date g ;;
      ret (Some dt)
  | None => ret None
  end.

(** The metadata every dialect but one attaches: the origin and the
    document name on top of [new_metadata]. *)
Definition metadata (f : file) (index : nat) (document : string)
    : gmap string meta_value :=
  <["document" := MStr document]>
    (<["source" := MStr "pdfbourso"]> (new_metadata (f_name f) index)).

(** A posting without cost and price. *)
Definition simple_posting (a : option string) (n : decimal) (cur : string) : Posting :=
  mkPosting a (mkAmount n cur) None None.

(** [if self.type == 'DividendeBourse':] *)
Definition extract_dividende (f : file) (document : string) : M (list entry) :=
  let text := f_text f in
  compte <- file_account f ;;
  let chunks := re_findall dividende_line text in
  let meta := metadata f 0 document in
  for_each 1 chunks (fun _ chunk =>
    brut <- lift (amount_of (item chunk 4)) ;;
    u1 <- lift (dec_mul brut Decimal_minus_one) ;;
    let posting_1 := simple_posting (Some "Revenus:Dividendes") u1 "EUR" in
    a <- lift (amount_or_zero (item chunk 5)) ;;
    b <- lift (amount_of (item chunk 6)) ;;
    u2 <- lift (dec_add a b) ;;
    let posting_2 := simple_posting (Some "Depenses:Impots:IR") u2 "EUR" in
    u3 <- lift (amount_of (item chunk 7)) ;;
    let posting_3 := simple_posting compte u3 "EUR" in
    dt <- parse_date (item chunk 0) ;;
    ret [ETransaction
           (mkTransaction meta dt FLAG_OKAY
              ("Dividende pour " +:+ item chunk 1 +:+ " titres " +:+ item chunk 2)
              None {[ item chunk 3 ]} [posting_1; posting_2; posting_3])]).

(** [if self.type == 'EspeceBourse':] *)
Definition extract_espece (f : file) (document : string) : M (list entry) :=
  let text := f_text f in
  run file_account f ;;
  let chunks := re_findall espece_line text in
  let meta := metadata f 0 document in
  for_each 1 chunks (fun _ chunk =>
    dt <- parse_date (item chunk 0) ;;
    a <- file_account f ;;
    a <- expect TypeError a ;;
    n <- lift (D (replace "," "." (replace " " "" (item chunk 1)))) ;;
    ret [EBalance (mkBalance meta (IsDate dt) (a +:+ ":Cash") (mkAmount n "EUR"))]).

(** The dictionary keys with an accent. *)
Definition key_quantite : string := "Quantit" +:+ chr e_acute.

(** [ope[k1], ope[k2] = m.group(i1), m.group(i2)] when the pattern matched. *)
Definition ope_set (ope : gmap string pyval) (m : option match_obj)
    (fields : list (string * nat)) : gmap string pyval :=
  match m with
  | Some m =>
      fold_left (fun o '(key, i) => <[key := of_group (group m i)]> o) fields ope
  | None => ope
  end.

(** The three postings and the transaction that the Bourse and OPCVM
    branches build from [ope]; [frais] computes the number of the fee
    posting. *)
Definition trade_transaction (f : file) (document : string)
    (compte : option string) (ope : gmap string pyval)
    (frais : M decimal) : M (list entry) :=
  (* posting_1 *)
  c <- local compte ;;
  a <- lookup_account c ;;
  isin <- ope_str ope "ISIN" ;;
  q <- ope_str ope key_quantite ;;
  nq <- lift (amount_of q) ;;
  achat <- ope_true ope "Achat" ;;
  u1 <- lift (dec_mul nq (if achat then Decimal_one else Decimal_minus_one)) ;;
  cur1 <- ope_str ope "ISIN" ;;
  achat <- ope_true ope "Achat" ;;
  cost1 <- (if achat then
              cours <- ope_str ope "Cours" ;;
              n <- lift (amount_of cours) ;;
              cur <- ope_str ope "currency Cours" ;;
              ret (Some (mkCost n cur))
            else ret None) ;;
  cours <- ope_str ope "Cours" ;;
  np <- lift (amount_of cours) ;;
  curp <- ope_str ope "currency Cours" ;;
  let posting_1 :=
    mkPosting (Some (a +:+ ":" +:+ isin)) (mkAmount u1 cur1) cost1
      (Some (mkAmount np curp)) in
  (* posting_2 *)
  c <- local compte ;;
  a2 <- lookup_account c ;;
  total <- ope_str ope "Montant Total" ;;
  nt <- lift (amount_of total) ;;
  achat <- ope_true ope "Achat" ;;
  u2 <- lift (dec_mul nt (if achat then Decimal_minus_one else Decimal_one)) ;;
  cur2 <- ope_str ope "currency Total" ;;
  let posting_2 := simple_posting (Some (a2 +:+ ":Cash")) u2 cur2 in
  (* posting_3 *)
  u3 <- frais ;;
  cur3 <- ope_str ope "currency Frais" ;;
  let posting_3 := simple_posting (Some "Depenses:Banque:Frais") u3 cur3 in
  let meta := metadata f 0 document in
  dstr <- ope_str ope "Date" ;;
  dt <- parse_date dstr ;;
  designation <- ope_get ope "Designation" ;;
  narr <- ope_str ope "ISIN" ;;
  ret [ETransaction
         (mkTransaction meta dt FLAG_OKAY
            (or_inconnu (match designation with PStr s => s | _ => "" end))
            (Some narr) ∅ [posting_1; posting_2; posting_3])].

(** [if self.type == 'Bourse':] *)
Definition extract_bourse (f : file) (document : string) : M (list entry) :=
  let text := f_text f in
  let compte :=
    match re_search account_bourse text with
    | Some m => group m 1
    | None => None
    end in
  run when_debug (local compte) ;;
  let ope : gmap string pyval := ∅ in
  let ope := ope_set ope (re_search bourse_montant text)
               [("Montant Total", 5); ("currency Total", 6)] in
  run when_debug (run ope_get ope "Montant Total" ;; ope_get ope "currency Total") ;;
  let ope := ope_set ope (re_search bourse_frais text)
               [("Frais", 5); ("currency Frais", 6)] in
  let ope := ope_set ope (re_search code_isin text) [("ISIN", 1)] in
  let ope := ope_set ope (re_search bourse_execution text)
               [("Date", 1); (key_quantite, 2); ("Designation", 3)] in
  let ope := ope_set ope (re_search bourse_cours text)
               [("Cours", 1); ("currency Cours", 2)] in
  run when_debug (ope_get ope "Date") ;;
  let ope := <["Achat" := PBool (found achat_comptant text)]> ope in
  trade_transaction f document compte ope
    (s <- ope_str ope "Frais" ;; lift (amount_of s)).

(** [if self.type == 'OPCVM':] *)
Definition extract_opcvm (f : file) (document : string) : M (list entry) :=
  let text := f_text f in
  let compte :=
    match re_search account_bourse text with
    | Some m => group m 1
    | None => None
    end in
  run when_debug (local compte) ;;
  let ope : gmap string pyval := ∅ in
  let ope := ope_set ope (re_search opcvm_montant text)
               [("Montant Total", 7); ("currency Total", 8); ("Frais", 5);
                ("currency Frais", 6); ("Droits", 3); ("currency Droits", 4)] in
  run when_debug (run ope_get ope "Montant Total" ;; ope_get ope "currency Total") ;;
  let ope := ope_set ope (re_search code_isin text) [("ISIN", 1)] in
  let ope := ope_set ope (re_search opcvm_execution text)
               [("Date", 1); (key_quantite, 2); ("Designation", 3)] in
  let ope := ope_set ope (re_search opcvm_cours text)
               [("Cours", 1); ("currency Cours", 2)] in
  run when_debug (ope_get ope "Cours") ;;
  let ope := <["Achat" := PBool (found souscription text)]> ope in
  trade_transaction f document compte ope
    (s <- ope_str ope "Frais" ;;
     x <- lift (amount_of s) ;;
     s' <- ope_str ope "Droits" ;;
     y <- lift (amount_of s') ;;
     lift (dec_add x y)).

(** The sign heuristic of the balance lines: [if longueur < 84: balance = '-' + balance] *)
Definition signed_balance (longueur : nat) (balance : string) : string :=
  if (longueur <? 84)%nat then "-" +:+ balance else balance.

(** The sign heuristic of the transaction lines:
    [if longueur > 148: Credit, else: Debit and montant = '-' + montant] *)
Definition signed_montant (longueur : nat) (montant : string) : string :=
  if (148 <? longueur)%nat then montant else "-" +:+ montant.

(** The opening balance of a Compte statement: the date and the string
    handed to [D], both empty when the pattern does not match. *)
Definition compte_solde_initial (text : string) : M (date_or_str * string) :=
  match re_search compte_solde text with
  | Some m =>
      g2 <- expect TypeError (group m 2) ;;
      dt <- parse_date g2 ;;
      datebalance <- lift (add_one_day dt) ;;
      g1 <- expect TypeError (group m 1) ;;
      g3 <- expect TypeError (group m 3) ;;
      g4 <- expect TypeError (group m 4) ;;
      let longueur :=
        (String.length g1 + String.length g3 + String.length g2 + String.length g4)%nat in
      let balance := normalize_fr g4 in
      ret (IsDate datebalance, signed_balance longueur balance)
  | None => ret (IsStr "", "")
  end.

(** One transaction line of a Compte statement. *)
Definition compte_transaction (f : file) (document : string)
    (compte : option string) (index : nat) (chunk : list string) : M (list entry) :=
  let meta := metadata f index document in
  let ope_date := item chunk 1 in
  let ope_montant := normalize_fr (item chunk 3) in
  let longueur :=
    (String.length (item chunk 0) + String.length (item chunk 1)
     + String.length (item chunk 2) + String.length (item chunk 3))%nat in
  let ope_montant := signed_montant longueur ope_montant in
  let ope_payee := re_sub spaces " " (item chunk 0) in
  let ope_narration := re_sub spaces " " (item chunk 4) in
  c <- local compte ;;
  a <- lookup_account c ;;
  n <- lift (Decimal ope_montant) ;;
  let posting_1 := simple_posting (Some a) n "EUR" in
  dt <- parse_date ope_date ;;
  ret [ETransaction
         (mkTransaction meta dt FLAG_OKAY (or_inconnu ope_payee)
            (Some ope_narration) ∅ [posting_1])].

(** The closing balance shared by the Compte and CB branches: the date is
    looked up on its own, and the balance is appended only when it is
    found. *)
Definition solde_final (f : file) (document : string)
    (compte : option string) (balance : string) : M (list entry) :=
  match re_search date_solde_final (f_text f) with
  | Some m =>
      g <- expect TypeError (group m 1) ;;
      datebalance <- parse_date g ;;
      let meta := metadata f 0 document in
      c <- local compte ;;
      a <- lookup_account c ;;
      n <- lift (D balance) ;;
      ret [EBalance (mkBalance meta (IsDate datebalance) a (mkAmount n "EUR"))]
  | None => ret []
  end.

(** [if self.type == 'Compte':] *)
Definition extract_compte (f : file) (document : string) : M (list entry) :=
  let text := f_text f in
  let compte :=
    match re_search compte_numero text with
    | Some m => option_map (fun g => last_str (split_on " " g)) (group m 0)
    | None => None
    end in
  run when_debug (local compte) ;;
  solde <- compte_solde_initial text ;;
  let '(datebalance, balance) := solde in
  let meta := metadata f 0 document in
  c <- local compte ;;
  a <- lookup_account c ;;
  n <- lift (D balance) ;;
  let initial := EBalance (mkBalance meta datebalance a (mkAmount n "EUR")) in
  let chunks := re_findall compte_operation text in
  transactions <- for_each 1 chunks (compte_transaction f document compte) ;;
  final <- match re_search compte_nouveau_solde text with
           | Some m =>
               g2 <- expect TypeError (group m 2) ;;
               let balance := normalize_fr g2 in
               g1 <- expect TypeError (group m 1) ;;
               let longueur := String.length g1 in
               solde_final f document compte (signed_balance longueur balance)
           | None => ret []
           end ;;
  ret (initial :: transactions ++ final)%list.

(** One line of an amortization table: the transaction and the balance of
    the day after.  Their metadata has no document entry. *)
Definition amortissement_echeance (f : file) (compte : option string)
    (index : nat) (chunk : list string) : M (list entry) :=
  let meta := <["source" := MStr "pdfbourso"]> (new_metadata (f_name f) index) in
  ope_date <- parse_date (item chunk 0) ;;
  prelevement <- lift (Decimal ("-" +:+ replace "," "." (item chunk 1))) ;;
  amortissement <- lift (Decimal (replace "," "." (item chunk 2))) ;;
  interet <- lift (Decimal (replace "," "." (item chunk 3))) ;;
  assurance <- lift (Decimal (replace "," "." (item chunk 4))) ;;
  crd <- lift (Decimal ("-" +:+ replace "," "." (item chunk 7))) ;;
  let posting_1 := simple_posting (Some "Actif:Boursorama:CCJoint") prelevement "EUR" in
  c <- local compte ;;
  a <- lookup_account c ;;
  let posting_2 := simple_posting (Some a) amortissement "EUR" in
  let posting_3 := simple_posting (Some "Depenses:Banque:Interet") interet "EUR" in
  let posting_4 := simple_posting (Some "Depenses:Banque:AssuEmprunt") assurance "EUR" in
  let transac :=
    mkTransaction meta ope_date FLAG_OKAY "ECH PRET:8028000060686223" (Some "") ∅
      [posting_1; posting_2; posting_3; posting_4] in
  next <- lift (add_one_day ope_date) ;;
  c <- local compte ;;
  a' <- lookup_account c ;;
  ret [ETransaction transac;
       EBalance (mkBalance meta (IsDate next) a' (mkAmount crd "EUR"))].

(** [if self.type == 'Amortissement':] *)
Definition extract_amortissement (f : file) : M (list entry) :=
  let text := f_text f in
  let compte :=
    match re_search account_amortissement text with
    | Some m => group m 1
    | None => None
    end in
  run when_debug (local compte) ;;
  let chunks := re_findall amortissement_line text in
  for_each 1 chunks (amortissement_echeance f compte).

(** One card payment of a CB statement. *)
Definition cb_transaction (f : file) (document : string)
    (compte : option string) (index : nat) (chunk : list string) : M (list entry) :=
  let meta := metadata f index document in
  let ope_date := item chunk 0 in
  let ope_montant := "-" +:+ normalize_fr (item chunk 2) in
  let ope_payee := re_sub spaces " " (item chunk 1) in
  c <- local compte ;;
  a <- lookup_account c ;;
  n <- lift (Decimal ope_montant) ;;
  let posting_1 := simple_posting (Some a) n "EUR" in
  dt <- parse_date ope_date ;;
  ret [ETransaction
         (mkTransaction meta dt FLAG_OKAY (or_inconnu ope_payee) None ∅ [posting_1])].

(** [if self.type == 'CB':] *)
Definition extract_cb (f : file) (document : string) : M (list entry) :=
  let text := f_text f in
  let compte :=
    match re_search account_cb text with
    | Some m => group m 1
    | None => None
    end in
  run when_debug (local compte) ;;
  let chunks := re_findall cb_operation text in
  transactions <- for_each 1 chunks (cb_transaction f document compte) ;;
  final <- match re_search cb_debit text with
           | Some m =>
               g2 <- expect TypeError (group m 2) ;;
               solde_final f document compte ("-" +:+ normalize_fr g2)
           | None => ret []
           end ;;
  ret (transactions ++ final)%list.

(** [if self.type == t: body], appending to [entries]. *)
Definition when_type (t : string) (body : M (list entry)) (entries : list entry)
    : M (list entry) :=
  ty <- get_type ;;
  if String.eqb ty t then (es <- body ;; ret (entries ++ es)%list)
  else ret entries.

(** [extract] *)
Definition extract (f : file) : M (list entry) :=
  dt <- file_date f ;;
  name <- file_name f ;;
  let document := str_of_date dt +:+ " " +:+ name in
  let entries : list entry := [] in
  run when_debug get_type ;;
  entries <- when_type "DividendeBourse" (extract_dividende f document) entries ;;
  entries <- when_type "EspeceBourse" (extract_espece f document) entries ;;
  entries <- when_type "Bourse" (extract_bourse f document) entries ;;
  entries <- when_type "OPCVM" (extract_opcvm f document) entries ;;
  entries <- when_type "Compte" (extract_compte f document) entries ;;
  entries <- when_type "Amortissement" (extract_amortissement f) entries ;;
  entries <- when_type "CB" (extract_cb f document) entries ;;
  ret entries.
End Extract.

(** ** A date parser for the examples *)

Definition all_digits (s : string) : bool :=
  truthy s && String.eqb (fst (span_digits s)) s.

(** Day/month/year strings that name a day of the calendar, with a
    four-digit year, read day first; every other string is refused. *)
Definition parse_dmy : DateParser := fun s =>
  match split_on "/" s with
  | [ds; ms; ys] =>
      if all_digits ds && all_digits ms && all_digits ys
         && (String.length ys =? 4)%nat then
        let dd := Z.of_N (digits_value ds) in
        let mm := Z.of_N (digits_value ms) in
        let yy := Z.of_N (digits_value ys) in
        if ((1 <=? yy) && (1 <=? mm) && (mm <=? 12) && (1 <=? dd)
            && (dd <=? days_in_month yy mm))%Z
        then Some (Date yy mm dd) else None
      else None
  | _ => None
  end.

(** ** What a pattern matches *)

(** [n] words of [P] in a row. *)
Inductive reps (P : string -> Prop) : nat -> string -> Prop :=
| reps_O : reps P 0 EmptyString
| reps_S n w1 w2 : P w1 -> reps P n w2 -> reps P (S n) (w1 +:+ w2).

(** The words of a regular expression. *)
Fixpoint lang (r : regex) (w : string) : Prop :=
  match r with
  | Eps => w = EmptyString
  | Cls p => exists c, w = chr c /\ p c = true
  | Seq r1 r2 => exists w1 w2, w = w1 +:+ w2 /\ lang r1 w1 /\ lang r2 w2
  | Alt r1 r2 => lang r1 w \/ lang r2 w
  | Rep r1 lo hi _ =>
      exists n, (lo <= n)%nat /\ (forall h, hi = Some h -> (n <= h)%nat) /\ reps (lang r1) n w
  | Grp _ r1 => lang r1 w
  end.

(** The characters a word of [r] is made of. *)
Fixpoint alphabet (r : regex) (c : ascii) : bool :=
  match r with
  | Eps => false
  | Cls p => p c
  | Seq r1 r2 | Alt r1 r2 => alphabet r1 c || alphabet r2 c
  | Rep r1 _ _ _ | Grp _ r1 => alphabet r1 c
  end.

Fixpoint str_forall (p : ascii -> bool) (s : string) : bool :=
  match s with
  | EmptyString => true
  | String c s' => p c && str_forall p s'
  end.

(** Every group that is set satisfies the property of its number. *)
Definition caps_inv (P : nat -> string -> Prop) (caps : captures) : Prop :=
  forall i g, caps !! i = Some (Some g) -> P i g.

(** [P] holds of the words of every group of [r]. *)
Fixpoint groups_ok (P : nat -> string -> Prop) (r : regex) : Prop :=
  match r with
  | Eps | Cls _ => True
  | Seq r1 r2 | Alt r1 r2 => groups_ok P r1 /\ groups_ok P r2
  | Rep r1 _ _ _ => groups_ok P r1
  | Grp i r1 => (forall w, lang r1 w -> P i w) /\ groups_ok P r1
  end.

(** Group [i] takes part in every match of [r]. *)
Fixpoint sets (r : regex) (i : nat) : bool :=
  match r with
  | Eps | Cls _ => false
  | Seq r1 r2 => sets r1 i || sets r2 i
  | Alt r1 r2 => sets r1 i && sets r2 i
  | Rep r1 lo _ _ => (1 <=? lo)%nat && sets r1 i
  | Grp j r1 => (i =? j)%nat || sets r1 i
  end.

Definition is_set (caps : captures) (i : nat) : Prop :=
  exists g, caps !! i = Some (Some g).

(** ** The classifier as an ordered table *)

Definition classification_table : list (pattern * string) :=
  [(marker_dividende, "DividendeBourse"); (marker_espece, "EspeceBourse");
   (marker_bourse, "Bourse"); (marker_opcvm, "OPCVM"); (marker_cb, "CB");
   (marker_compte, "Compte"); (marker_amortissement, "Amortissement")].

(** The tag of the first pair of the table whose pattern is found. *)
Fixpoint first_match (table : list (pattern * string)) (text : string) : option string :=
  match table with
  | [] => None
  | (p, tag) :: table' => if found p text then Some tag else first_match table' text
  end.

Definition classify (text : string) : option string :=
  first_match classification_table text.

(** [self] with its type set. *)
Definition with_type (self : importer) (t : string) : importer :=
  Importer (accountList self) (debug self) (Some t).

(** ** What the matcher guarantees *)

(** How a successful match of [r] changes the groups: none is lost, those
    that are set satisfy [P], and those that take part in every match of
    [r] are set. *)
Definition post (P : nat -> string -> Prop) (r : regex) (caps caps' : captures) : Prop :=
  length caps' = length caps
  /\ (caps_inv P caps -> caps_inv P caps')
  /\ (forall i, is_set caps i -> is_set caps' i)
  /\ (forall i, sets r i = true -> (i < length caps)%nat -> is_set caps' i).

(** What a match object of [p] guarantees: the matched text is a word of
    the pattern, and [P] holds of the groups. *)
Definition match_ok (P : nat -> string -> Prop) (p : pattern) (m : match_obj) : Prop :=
  (exists w, group m 0 = Some w /\ lang (p_regex p) w)
  /\ (forall i g, (1 <= i)%nat -> group m i = Some g -> P i g)
  /\ (forall i, sets (p_regex p) i = true -> (1 <= i <= p_groups p)%nat ->
        exists g, group m i = Some g /\ P i g).

(** ** Amounts as the specification words them *)

(** Dropping ordinary and non-breaking spaces. *)
Fixpoint strip_spaces (s : string) : string :=
  match s with
  | EmptyString => EmptyString
  | String c s' =>
      if Ascii.eqb c " " || Ascii.eqb c nbsp then strip_spaces s'
      else String c (strip_spaces s')
  end.

(** Replacing the comma with a period. *)
Fixpoint comma_to_period (s : string) : string :=
  match s with
  | EmptyString => EmptyString
  | String c s' => String (if Ascii.eqb c "," then "."%char else c) (comma_to_period s')
  end.

Definition normalize_spec (s : string) : string :=
  comma_to_period (strip_spaces s).

(** The characters of a monetary substring: digits, separating white
    space, the comma or period, and a sign. *)
Definition monetary_char (c : ascii) : bool :=
  is_digit c || is_space c || Ascii.eqb c "," || Ascii.eqb c "."
  || Ascii.eqb c "-" || Ascii.eqb c "+".

Definition monetary (s : string) : bool := str_forall monetary_char s.

(** The characters of an unsigned amount. *)
Definition numeric_char (c : ascii) : bool :=
  is_digit c || is_space c || Ascii.eqb c "," || Ascii.eqb c ".".

(** The first character, if any, satisfies [p]. *)
Definition head_is (p : ascii -> bool) (s : string) : bool :=
  match s with
  | String c _ => p c
  | EmptyString => false
  end.

(** [f] holds of the 256 characters. *)
Definition ascii_all (f : ascii -> bool) : bool :=
  forallb (fun n => f (ascii_of_nat n)) (List.seq 0 256).

(** ** The dispatch of [extract] *)

(** The name [file_name] gives for a type. *)
Definition label (t : string) : string :=
  if String.eqb t "DividendeBourse" then "Relev" +:+ chr e_acute +:+ " Dividendes.pdf"
  else if String.eqb t "EspeceBourse" then "Relev" +:+ chr e_acute +:+ " Espece.pdf"
  else if String.eqb t "Bourse" then "Relev" +:+ chr e_acute +:+ " Operation.pdf"
  else if String.eqb t "Compte" then "Relev" +:+ chr e_acute +:+ " Compte.pdf"
  else if String.eqb t "CB" then "Relev" +:+ chr e_acute +:+ " CB.pdf"
  else "Boursorama.pdf".

(** The branch of [extract] that runs for a type. *)
Definition dialect `{DateParser} (t : string) (f : file) (document : string)
    : M (list entry) :=
  if String.eqb t "DividendeBourse" then extract_dividende f document
  else if String.eqb t "EspeceBourse" then extract_espece f document
  else if String.eqb t "Bourse" then extract_bourse f document
  else if String.eqb t "OPCVM" then extract_opcvm f document
  else if String.eqb t "Compte" then extract_compte f document
  else if String.eqb t "Amortissement" then extract_amortissement f
  else if String.eqb t "CB" then extract_cb f document
  else ret [].

(** The computation leaves the instance [st] as it is. *)
Definition keeps {A} (c : M A) (st : importer) : Prop := snd (c st) = st.

(** The type [identify] leaves on the instance for the document. *)
Definition classified (f : file) (self : importer) (t : string) : Prop :=
  type (snd (identify f self)) = Some t.

(** [w] occurs in [text]. *)
Definition contains (w text : string) : Prop :=
  exists pre post, text = pre +:+ w +:+ post.

(** ** Example documents *)

Definition nl : string := chr newline.

Fixpoint blanks (n : nat) : string :=
  match n with
  | O => EmptyString
  | S n' => String " " (blanks n')
  end.

Definition pdf (name text : string) : file := File name "application/pdf" text.

(** An account directory. *)
Definition directory : gmap string string :=
  <["12345678901" := "Actif:Boursorama:CC"]>
  (<["4979********1234" := "Passif:Boursorama:CB"]>
  (<["00060-12345678901" := "Passif:Boursorama:Pret"]>
  (<["00012345678" := "Actif:Bourse:PEA"]> ∅))).

Definition fresh_importer : importer := __init__ directory false.

(** A dividend statement whose line has four amounts: the optional first
    withholding is absent. *)
Definition dividende_doc : file := pdf "dividendes.pdf"
  ("COUPONS REMBOURSEMENTS :" +:+ nl
   +:+ "40618 00001 00012345678 le 31/03/2023 page 1" +:+ nl
   +:+ "15/03/2023 10 TOTAL SA (FR0000120271) 25,00 7,50 17,50 17,50" +:+ nl).

(** A cash statement of a securities account. *)
Definition espece_doc : file := pdf "especes.pdf"
  ("RELEVE COMPTE ESPECES :" +:+ nl
   +:+ "40618 00001 00012345678 au 31/01/2023 page 1" +:+ nl
   +:+ "31/01/2023 SOLDE   1 234,56" +:+ nl).

(** A trade confirmation; [sens] is the line that says purchase or sale. *)
Definition bourse_doc (sens : string) : file := pdf "operation.pdf"
  ("OPERATION DE BOURSE le 15/03/2023 page 1" +:+ nl
   +:+ "40618 00001 00012345678 " +:+ nl
   +:+ sens +:+ nl
   +:+ "Code ISIN : FR0000120271" +:+ nl
   +:+ "locale d'ex" +:+ chr e_acute +:+ "cution Quantit" +:+ chr e_acute
   +:+ " Informations sur la valeur Informations sur l'ex" +:+ chr e_acute +:+ "cution" +:+ nl
   +:+ "15/03/2023 10 TOTAL SA" +:+ nl
   +:+ "Cours ex" +:+ chr e_acute +:+ "cut" +:+ chr e_acute +:+ " :  50,00 EUR" +:+ nl
   +:+ "Montant transaction Montant transaction brut Int" +:+ chr e_acute +:+ "r"
   +:+ chr "234" +:+ "ts total brut Courtages Montant transaction net" +:+ nl
   +:+ "500,00 EUR 500,00 EUR 501,99 EUR 1,99 EUR 501,99 EUR" +:+ nl
   +:+ "Commission Frais divers Montant total des frais" +:+ nl
   +:+ "1,99 EUR 0,00 EUR 1,99 EUR" +:+ nl).

(** A checking-account statement: an opening balance whose spans add up to
    [84] characters, and one transaction line whose spans add up to [gap]
    plus 32. *)
Definition compte_doc (gap : nat) : file := pdf "compte.pdf"
  ("BOURSORAMA BANQUE" +:+ nl
   +:+ "  12345678901 du 01/02/2023 au 28/02/2023 page 1" +:+ nl
   +:+ "SOLDE AU : 31/01/2023" +:+ blanks 65 +:+ "1.000,00" +:+ nl
   +:+ "01/02/2023 VIR SEPA LOYER 01/02/2023 " +:+ blanks gap +:+ " 1.200,00" +:+ nl
   +:+ "Nouveau solde en EUR :" +:+ blanks 90 +:+ "2.200,00" +:+ nl
   +:+ "28/02/2023 page 1 40618" +:+ nl).

(** A checking-account statement without its opening balance line. *)
Definition compte_sans_solde_doc : file := pdf "compte.pdf"
  ("BOURSORAMA BANQUE" +:+ nl
   +:+ "  12345678901 du 01/02/2023 au 28/02/2023 page 1" +:+ nl
   +:+ "01/02/2023 VIR SEPA LOYER 01/02/2023 " +:+ blanks 130 +:+ " 1.200,00" +:+ nl).

(** An amortization table with one line. *)
Definition amortissement_doc : file := pdf "pret.pdf"
  ("tableau d'amortissement" +:+ nl
   +:+ "N" +:+ chr degree_sign +:+ " du cr" +:+ chr e_acute +:+ "dit : 00060-12345678901" +:+ nl
   +:+ "Date d" +:+ chr e_acute +:+ "part : 05/01/2023 page 1" +:+ nl
   +:+ "05/03/2023 100.00 80,00 15.00 5.00 0.00 0.00 9920.00 0.00" +:+ nl).

(** A card statement. *)
Definition cb_doc : file := pdf "carte.pdf"
  ("Relev" +:+ chr e_acute +:+ " de Carte au 31/03/2023 page 1" +:+ nl
   +:+ " 4979********1234" +:+ nl
   +:+ "05/03/2023 CARTE SUPERMARCHE PARIS    45,30" +:+ nl
   +:+ "A VOTRE DEBIT LE 31/03/2023   45,30" +:+ nl
   +:+ "28/03/2023 page 1 40618" +:+ nl).

(** A document without any of the seven markers, with a card number and a
    card payment line. *)
Definition unmarked_doc : file := pdf "autre.pdf"
  ("Facture 4979********1234" +:+ nl
   +:+ "05/03/2023 CARTE SUPERMARCHE PARIS    45,30" +:+ nl).

(** A text with both a dividend marker and a bank marker. *)
Definition two_markers_doc : file := pdf "mixte.pdf"
  ("BOURSORAMA BANQUE" +:+ nl +:+ "COUPONS REMBOURSEMENTS :" +:+ nl).

(** ** What the specification says of the records *)



(** ** Checks on patterns *)

(** [chk] holds of the body of every group that [sel] selects. *)
Fixpoint groups_check (chk : regex -> bool) (sel : nat -> bool) (r : regex) : bool :=
  match r with
  | Eps | Cls _ => true
  | Seq r1 r2 | Alt r1 r2 => groups_check chk sel r1 && groups_check chk sel r2
  | Rep r1 _ _ _ => groups_check chk sel r1
  | Grp i r1 => (negb (sel i) || chk r1) && groups_check chk sel r1
  end.

(** The classes of [r] all lie within [q]. *)
Definition alphabet_within (q : ascii -> bool) (r : regex) : bool :=
  ascii_all (fun c => implb (alphabet r c) (q c)).

(** Every word of [r] starts with a character of [p]; with [allow_empty],
    the empty word passes too. *)
Fixpoint head_check (p : ascii -> bool) (allow_empty : bool) (r : regex) : bool :=
  match r with
  | Eps => allow_empty
  | Cls q => ascii_all (fun c => implb (q c) (p c))
  | Seq r1 r2 =>
      head_check p false r1 || (head_check p true r1 && head_check p allow_empty r2)
  | Alt r1 r2 => head_check p allow_empty r1 && head_check p allow_empty r2
  | Rep r1 lo _ _ =>
      if allow_empty then head_check p true r1
      else (1 <=? lo)%nat && head_check p false r1
  | Grp _ r1 => head_check p allow_empty r1
  end.

Definition head_ok (p : ascii -> bool) (r : regex) : bool := head_check p false r.

(** The characters of an amount written the French way. *)
Definition amount_char (c : ascii) : bool :=
  is_digit c || Ascii.eqb c "." || Ascii.eqb c ",".

(** An amount written the French way: it starts with a digit. *)
Definition french_amount (r : regex) : bool :=
  head_ok is_digit r && alphabet_within amount_char r.

(** The records of a trade: one transaction with three postings, on the
    security sub-account, on the cash sub-account and on the fee account.
    On a purchase the security posting carries the quantity, with a cost,
    and the cash posting the negated total; on a sale the security posting
    carries the negated quantity, without cost, and the cash posting the
    total.  The fee posting carries the fees in both cases. *)
Definition purchase_sale (achat : bool) (entries : list entry)
    (quantity total fees : decimal) : Prop :=
  exists tx p1 p2 p3 a isin,
    entries = [ETransaction tx]
    /\ postings tx = [p1; p2; p3]
    /\ account p1 = Some (a +:+ ":" +:+ isin)
    /\ account p2 = Some (a +:+ ":Cash")
    /\ account p3 = Some "Depenses:Banque:Frais"
    /\ number (units p3) = fees
    /\ cost p2 = None /\ cost p3 = None
    /\ if achat
       then number (units p1) = quantity
            /\ is_Some (cost p1)
            /\ number (units p2) = copy_negate total
       else number (units p1) = copy_negate quantity
            /\ cost p1 = None
            /\ number (units p2) = total.

(** The characters of a plain decimal numeral. *)
Definition plain_char (c : ascii) : bool := is_digit c || Ascii.eqb c ".".

(** The combined length of the spans of a transaction line of a
    checking-account statement: [len(chunk[0]) + ... + len(chunk[3])]. *)
Definition longueur_operation (chunk : list string) : nat :=
  (String.length (item chunk 0) + String.length (item chunk 1)
   + String.length (item chunk 2) + String.length (item chunk 3))%nat.

(** ** The tables of the importer *)

(** The markers [identify] looks for, in its order. *)
Definition markers : list pattern :=
  [marker_dividende; marker_espece; marker_bourse; marker_opcvm; marker_cb;
   marker_compte; marker_amortissement].

(** The types [identify] assigns. *)
Definition types : list string :=
  ["DividendeBourse"; "EspeceBourse"; "Bourse"; "OPCVM"; "CB"; "Compte"; "Amortissement"].

(** The names [file_name] returns. *)
Definition names : list string :=
  ["Relev" +:+ chr e_acute +:+ " Dividendes.pdf";
   "Relev" +:+ chr e_acute +:+ " Espece.pdf";
   "Relev" +:+ chr e_acute +:+ " Operation.pdf";
   "Relev" +:+ chr e_acute +:+ " Compte.pdf";
   "Relev" +:+ chr e_acute +:+ " CB.pdf";
   "Boursorama.pdf"].

(** [s.endswith(suffix)] *)
Definition ends_with (suffix s : string) : bool :=
  String.eqb (str_drop (String.length s - String.length suffix) s) suffix.

(** ** The shape of a group *)

(** The length of the shortest word of [r]. *)
Fixpoint min_width (r : regex) : nat :=
  match r with
  | Eps => 0
  | Cls _ => 1
  | Seq r1 r2 => min_width r1 + min_width r2
  | Alt r1 r2 => Nat.min (min_width r1) (min_width r2)
  | Rep r1 lo _ _ => lo * min_width r1
  | Grp _ r1 => min_width r1
  end.

(** A bound on the length of the words of [r], when the repetitions of
    [r] are all bounded. *)
Fixpoint max_width (r : regex) : option nat :=
  match r with
  | Eps => Some 0%nat
  | Cls _ => Some 1%nat
  | Seq r1 r2 =>
      match max_width r1, max_width r2 with
      | Some a, Some b => Some (a + b)%nat
      | _, _ => None
      end
  | Alt r1 r2 =>
      match max_width r1, max_width r2 with
      | Some a, Some b => Some (Nat.max a b)
      | _, _ => None
      end
  | Rep r1 _ (Some hi) _ =>
      match max_width r1 with
      | Some a => Some (hi * a)%nat
      | None => None
      end
  | Rep _ _ None _ => None
  | Grp _ r1 => max_width r1
  end.

(** The words of [r] are made of characters of [q] and have between [lo]
    and [hi] characters. *)
Definition shaped (q : ascii -> bool) (lo hi : nat) (r : regex) : bool :=
  alphabet_within q r && (lo <=? min_width r)%nat
  && match max_width r with
     | Some h => (h <=? hi)%nat
     | None => false
     end.

(** The class [[A-Z,0-9]] of the ISIN patterns: the comma is in it. *)
Definition is_isin_char (c : ascii) : bool :=
  in_range "A" "Z" c || Ascii.eqb c "," || in_range "0" "9" c.

(** The characters of a card number: digits and stars. *)
Definition is_card_char (c : ascii) : bool := is_digit c || Ascii.eqb c "*".

(** The characters of a credit number: digits, white space and the hyphen. *)
Definition is_credit_char (c : ascii) : bool :=
  is_digit c || is_space c || Ascii.eqb c "-".


(** ** The records of a card statement *)

Section Records.
Context `{DateParser}.

(** The transaction of the [k]-th card payment (from 0): one posting on
    the card account [a] that carries the amount of the line negated, the
    date of the line, the description of the line with its white space
    collapsed as payee ([inconnu] when it is empty), no narration, and
    the rank of the line as line number. *)
Definition cb_payment (a : string) (k : nat) (chunk : list string)
    (tx : Transaction) : Prop :=
  exists c e,
    Decimal (normalize_fr (item chunk 2)) = Ok (Fin false c e)
    /\ postings tx = [simple_posting (Some a) (Fin true c e) "EUR"]
    /\ parse_datetime (item chunk 0) = Some (t_date tx)
    /\ payee tx = or_inconnu (re_sub spaces " " (item chunk 1))
    /\ narration tx = None
    /\ t_meta tx !! "lineno" = Some (MInt (S k)).

(** The closing balance of a statement whose closing amount is [g]: on
    the account [a], dated by the line of the text that ends the
    statement, with line number 0; [neg] tells whether the amount is
    negated. *)
Definition closing_balance (text a g : string) (neg : bool) (b : Balance) : Prop :=
  exists c e m gd dt,
    D (normalize_fr g) = Ok (Fin false c e)
    /\ b_amount b = mkAmount (Fin neg c e) "EUR"
    /\ b_account b = a
    /\ re_search date_solde_final text = Some m
    /\ group m 1 = Some gd
    /\ parse_datetime gd = Some dt
    /\ b_date b = IsDate dt
    /\ b_meta b !! "lineno" = Some (MInt 0).

End Records.

(** ** The records of a checking-account statement *)

Section CompteRecords.
Context `{DateParser}.



End CompteRecords.

(** The characters of the white space other than the ordinary space. *)
Definition is_other_space (c : ascii) : bool := is_space c && negb (Ascii.eqb c " ").

(** ** Further example documents *)

(** A fund operation; [sens] is the line that says subscription or
    redemption. *)
Definition opcvm_doc (sens : string) : file := pdf "opc.pdf"
  ("OPERATION SUR OPC le 15/03/2023 page 1" +:+ nl
   +:+ "40618 00001 00012345678 " +:+ nl
   +:+ sens +:+ nl
   +:+ "Code ISIN : FR0010315770" +:+ nl
   +:+ "15/03/2023 10 FONDS MONDE" +:+ nl
   +:+ "Valeur liquidative :  50,00 EUR" +:+ nl
   +:+ "Montant brut Droits d'entr" +:+ chr e_acute +:+ "e Frais H.T. T.V.A. "
   +:+ "Montant net au d" +:+ chr e_acute +:+ "bit de votre compte" +:+ nl
   +:+ "500,00 EUR 5,00 EUR 1,00 EUR 506,00 EUR" +:+ nl).

(** A card statement without a reference date. *)
Definition cb_sans_date_doc : file := pdf "carte.pdf"
  ("Relev" +:+ chr e_acute +:+ " de Carte" +:+ nl
   +:+ " 4979********1234" +:+ nl
   +:+ "05/03/2023 CARTE SUPERMARCHE PARIS    45,30" +:+ nl).

(** ** The records of the dividend and cash statements *)

Section SecuritiesRecords.
Context `{DateParser}.

(** The transaction of a dividend line: the income account receives the
    first amount negated, the tax account the sum of the optional second
    amount (zero when it is absent) and the third, and the account
    [compte] the fourth; the date, the payee made of the number of shares
    and the name, and the ISIN as only tag come from the line. *)
Definition dividende_ok (compte : option string) (chunk : list string)
    (tx : Transaction) : Prop :=
  exists gross withheld social tax net,
    amount_of (item chunk 4) = Ok gross
    /\ amount_or_zero (item chunk 5) = Ok withheld
    /\ amount_of (item chunk 6) = Ok social
    /\ dec_add withheld social = Ok tax
    /\ amount_of (item chunk 7) = Ok net
    /\ is_signed gross = false /\ is_signed tax = false /\ is_signed net = false
    /\ postings tx
       = [simple_posting (Some "Revenus:Dividendes") (copy_negate gross) "EUR";
          simple_posting (Some "Depenses:Impots:IR") tax "EUR";
          simple_posting compte net "EUR"]
    /\ parse_datetime (item chunk 0) = Some (t_date tx)
    /\ payee tx = "Dividende pour " +:+ item chunk 1 +:+ " titres " +:+ item chunk 2
    /\ narration tx = None
    /\ tags tx = {[ item chunk 3 ]}
    /\ t_meta tx !! "lineno" = Some (MInt 0).

(** The balance of a line of a cash statement: on the cash sub-account
    of [a], dated by the line, with the amount of the line, unsigned. *)
Definition espece_ok (a : string) (chunk : list string) (b : Balance) : Prop :=
  exists c e,
    D (replace "," "." (replace " " "" (item chunk 1))) = Ok (Fin false c e)
    /\ b_amount b = mkAmount (Fin false c e) "EUR"
    /\ b_account b = a +:+ ":Cash"
    /\ (exists dt, parse_datetime (item chunk 0) = Some dt /\ b_date b = IsDate dt)
    /\ b_meta b !! "lineno" = Some (MInt 0).

End SecuritiesRecords.

(** ** The metadata of a record *)

(** The record carries the name of the file, the origin and the document
    name. *)
Definition stamped (f : file) (document : string) (e : entry) : Prop :=
  entry_meta e !! "filename" = Some (MStr (f_name f))
  /\ entry_meta e !! "source" = Some (MStr "pdfbourso")
  /\ entry_meta e !! "document" = Some (MStr document).

(** The accounts a record names: those of its postings, or the account
    of the balance. *)
Definition entry_accounts (e : entry) : list (option string) :=
  match e with
  | ETransaction t => map account (postings t)
  | EBalance b => [Some (b_account b)]
  end.

(** ** White space in payees and narrations *)

(** Every run of white space replaced by one ordinary space; [in_run]
    tells that the character before was white space. *)
Fixpoint collapse_from (in_run : bool) (s : string) : string :=
  match s with
  | EmptyString => EmptyString
  | String c s' =>
      if is_space c
      then if in_run then collapse_from true s' else String " " (collapse_from true s')
      else String c (collapse_from false s')
  end.

Definition collapse (s : string) : string := collapse_from false s.

(** No two ordinary spaces side by side. *)
Fixpoint separated (s : string) : bool :=
  match s with
  | String a (String b _ as s') =>
      negb (Ascii.eqb a " " && Ascii.eqb b " ") && separated s'
  | _ => true
  end.

(** The only white space is the ordinary space. *)
Definition plain_spaced (s : string) : bool :=
  str_forall (fun c => negb (is_space c) || Ascii.eqb c " ") s.

(** ** Amounts written the French way *)

(** The digits of a string, in order. *)
Fixpoint digits_of (s : string) : string :=
  match s with
  | EmptyString => EmptyString
  | String c s' => if is_digit c then String c (digits_of s') else digits_of s'
  end.

(** ** Failures *)


(** * Proofs *)

(** ** Strings *)

Lemma str_app_cons c s t : String c s +:+ t = String c (s +:+ t).
Proof. reflexivity. Qed.

Lemma str_app_nil_l s : "" +:+ s = s.
Proof. reflexivity. Qed.

Lemma str_app_nil_r s : s +:+ "" = s.
Proof. induction s as [|c s IH]; [reflexivity|]. rewrite str_app_cons, IH. reflexivity. Qed.

Lemma str_app_assoc s t u : (s +:+ t) +:+ u = s +:+ (t +:+ u).
Proof. induction s as [|c s IH]; [reflexivity|]. rewrite !str_app_cons, IH. reflexivity. Qed.

Lemma str_length_app s t : String.length (s +:+ t) = (String.length s + String.length t)%nat.
Proof. induction s as [|c s IH]; [reflexivity|]. rewrite str_app_cons. simpl. rewrite IH. reflexivity. Qed.

Lemma str_take_app w s : str_take (String.length w) (w +:+ s) = w.
Proof. induction w as [|c w IH]; [destruct s; reflexivity|]. rewrite str_app_cons. simpl. rewrite IH. reflexivity. Qed.

Lemma str_before_app w s : str_before (w +:+ s) s = w.
Proof.
  unfold str_before. rewrite str_length_app.
  replace (String.length w + String.length s - String.length s)%nat with (String.length w) by lia.
  apply str_take_app.
Qed.

(** ** Soundness of the matcher *)

Lemma post_weaken P r r' caps caps' :
  (forall i, sets r' i = true -> sets r i = true) -> post P r caps caps' -> post P r' caps caps'.
Proof. intros Hs (Hl & Hi & Hm & Hset). repeat split; auto. Qed.

Lemma post_refl P r caps : (forall i, sets r i = false) -> post P r caps caps.
Proof. intros Hs. repeat split; auto. intros i Hi. rewrite Hs in Hi. discriminate. Qed.

Lemma post_trans P r1 r2 r c0 c1 c2 :
  (forall i, sets r i = true -> sets r1 i = true \/ sets r2 i = true) ->
  post P r1 c0 c1 -> post P r2 c1 c2 -> post P r c0 c2.
Proof.
  intros Hs (Hl1 & Hi1 & Hm1 & Hs1) (Hl2 & Hi2 & Hm2 & Hs2). repeat split.
  - congruence.
  - auto.
  - auto.
  - intros i Hi Hlt. destruct (Hs i Hi) as [H1|H2].
    + apply Hm2, Hs1; auto.
    + apply Hs2; auto. lia.
Qed.

Lemma post_set_group P r i w caps caps' :
  P i w -> post P r caps caps' -> post P (Grp i r) caps (set_group i w caps').
Proof.
  intros HP (Hl & Hi & Hm & Hs). unfold set_group. repeat split.
  - rewrite length_insert. exact Hl.
  - intros Hinv j g Hj. destruct (decide (i = j)) as [->|Hne].
    + destruct (decide (j < length caps')%nat) as [Hlt|Hge].
      * rewrite list_lookup_insert_eq in Hj by exact Hlt. congruence.
      * rewrite list_insert_ge in Hj by lia. eapply Hi; eauto.
    + rewrite list_lookup_insert_ne in Hj by exact Hne. eapply Hi; eauto.
  - intros j Hj. apply Hm in Hj. destruct Hj as [g Hg].
    destruct (decide (i = j)) as [->|Hne].
    + exists w. apply list_lookup_insert_eq. apply lookup_lt_Some in Hg. exact Hg.
    + exists g. rewrite list_lookup_insert_ne by exact Hne. exact Hg.
  - intros j Hj Hlt. simpl in Hj. apply orb_true_iff in Hj. destruct Hj as [Hj|Hj].
    + apply Nat.eqb_eq in Hj. subst j. exists w. apply list_lookup_insert_eq. lia.
    + specialize (Hs j Hj Hlt). destruct Hs as [g Hg].
      destruct (decide (i = j)) as [->|Hne].
      * exists w. apply list_lookup_insert_eq. lia.
      * exists g. rewrite list_lookup_insert_ne by exact Hne. exact Hg.
Qed.

Section Sound.
Variable P : nat -> string -> Prop.

Lemma rmatch_sound (r : regex) :
  groups_ok P r ->
  forall (R : Type) s caps (k : string -> captures -> option R) res,
    rmatch r s caps k = Some res ->
    exists w s' caps',
      s = w +:+ s' /\ lang r w /\ post P r caps caps' /\ k s' caps' = Some res.
Proof.
  induction r as [|p|r1 IH1 r2 IH2|r1 IH1 r2 IH2|r1 IH1 lo hi greedy|i r1 IH1];
    intros Hok R s caps k res H.
  - exists "", s, caps. split; [reflexivity|]. split; [simpl; reflexivity|].
    split; [apply post_refl; reflexivity | exact H].
  - simpl in H. destruct s as [|c s]; [discriminate|].
    destruct (p c) eqn:Hp; [|discriminate].
    exists (chr c), s, caps. split; [reflexivity|]. split; [exists c; auto|].
    split; [apply post_refl; reflexivity | exact H].
  - destruct Hok as [Hok1 Hok2]. simpl in H.
    apply (IH1 Hok1) in H. destruct H as (w1 & s1 & c1 & -> & Hw1 & Hp1 & H).
    apply (IH2 Hok2) in H. destruct H as (w2 & s2 & c2 & -> & Hw2 & Hp2 & H).
    exists (w1 +:+ w2), s2, c2. rewrite str_app_assoc. split; [reflexivity|].
    split; [exists w1, w2; auto|]. split; [|exact H].
    apply (post_trans P r1 r2 (Seq r1 r2) caps c1 c2); [|exact Hp1|exact Hp2].
    intros j Hj. simpl in Hj. apply orb_true_iff in Hj. exact Hj.
  - destruct Hok as [Hok1 Hok2]. simpl in H.
    destruct (rmatch r1 s caps k) eqn:H1.
    + injection H as <-. apply (IH1 Hok1) in H1.
      destruct H1 as (w & s' & c' & -> & Hw & Hp & Hk).
      exists w, s', c'. repeat split; auto; try apply Hp. 
      * left; exact Hw.
      * intros j Hj. apply Hp. simpl in Hj. apply andb_true_iff in Hj. tauto.
    + apply (IH2 Hok2) in H.
      destruct H as (w & s' & c' & -> & Hw & Hp & Hk).
      exists w, s', c'. repeat split; auto; try apply Hp. 
      * right; exact Hw.
      * intros j Hj. apply Hp. simpl in Hj. apply andb_true_iff in Hj. tauto.
  - simpl in Hok. simpl in H.
    match type of H with
    | (fix loop (fuel n : nat) (s : string) (caps : captures) {struct fuel} := @?body loop fuel n s caps) ?f0 ?n0 _ _ = _ =>
        set (loop := fix loop (fuel n : nat) (s : string) (caps : captures) {struct fuel} := body loop fuel n s caps) in H
    end.
    assert (Hloop : forall fuel n s caps,
               loop fuel n s caps = Some res ->
               exists m w s' caps',
                 s = w +:+ s' /\ reps (lang r1) m w /\ (lo <= n + m)%nat /\ (m <= fuel)%nat
                 /\ length caps' = length caps
                 /\ (caps_inv P caps -> caps_inv P caps')
                 /\ (forall i, is_set caps i -> is_set caps' i)
                 /\ (forall i, (1 <= m)%nat -> sets r1 i = true -> (i < length caps)%nat -> is_set caps' i)
                 /\ k s' caps' = Some res).
    { induction fuel as [|fuel IHf]; intros n s0 caps0 Hl.
      - simpl in Hl.
        assert (Hstop : (if (lo <=? n)%nat then k s0 caps0 else None) = Some res).
        { destruct greedy; [exact Hl|].
          destruct (if (lo <=? n)%nat then k s0 caps0 else None); [exact Hl|discriminate]. }
        destruct (lo <=? n)%nat eqn:Hlo; [|discriminate]. apply Nat.leb_le in Hlo.
        exists 0%nat, "", s0, caps0. repeat split; auto; try lia. constructor.
      - simpl in Hl.
        set (stop := if (lo <=? n)%nat then k s0 caps0 else None) in Hl.
        set (more := rmatch r1 s0 caps0 _) in Hl.
        assert (Hcases : stop = Some res \/ more = Some res).
        { destruct greedy.
          - destruct more; [right; exact Hl|left; exact Hl].
          - destruct stop; [left; exact Hl|right; exact Hl]. }
        destruct Hcases as [Hstop|Hmore].
        + subst stop. destruct (lo <=? n)%nat eqn:Hlo; [|discriminate]. apply Nat.leb_le in Hlo.
          exists 0%nat, "", s0, caps0. repeat split; auto; try lia. constructor.
        + subst more. apply (IH1 Hok) in Hmore.
          destruct Hmore as (w1 & s1 & c1 & -> & Hw1 & (Hl1 & Hi1 & Hm1 & Hs1) & Hk1).
          match type of Hk1 with (if ?b then _ else _) = _ => destruct b; [|discriminate] end.
          apply IHf in Hk1.
          destruct Hk1 as (m & w2 & s2 & c2 & -> & Hr & Hlo & Hm & Hl2 & Hi2 & Hm2 & Hs2 & Hk2).
          exists (S m), (w1 +:+ w2), s2, c2. rewrite str_app_assoc.
          split; [reflexivity|]. split; [constructor; assumption|].
          split; [lia|]. split; [lia|]. split; [congruence|]. split; [auto|].
          split; [auto|]. split; [|exact Hk2].
          intros j _ Hj Hlt. apply Hm2, Hs1; auto. }
    apply Hloop in H.
    destruct H as (m & w & s' & caps' & -> & Hr & Hlo & Hm & Hl & Hi & Hmo & Hs & Hk).
    exists w, s', caps'. split; [reflexivity|]. split.
    + exists m. split; [lia|]. split; [|exact Hr]. intros h Hh. subst hi. exact Hm.
    + split; [|exact Hk]. repeat split; auto.
      intros j Hj Hlt. simpl in Hj. apply andb_true_iff in Hj. destruct Hj as [Hlo1 Hj].
      apply Hs; auto. destruct lo; [discriminate|lia].
  - destruct Hok as [HP Hok]. simpl in H.
    apply (IH1 Hok) in H. destruct H as (w & s' & c' & -> & Hw & Hp & Hk).
    rewrite str_before_app in Hk.
    exists w, s', (set_group i w c'). split; [reflexivity|]. split; [exact Hw|].
    split; [|exact Hk]. apply post_set_group; auto.
Qed.

End Sound.

Lemma group_Some m i g : group m i = Some g <-> m_groups m !! i = Some (Some g).
Proof.
  unfold group. destruct (m_groups m !! i) as [[x|]|]; simpl; split; intros Heq; congruence.
Qed.

Lemma caps_inv_init P n : caps_inv P (replicate n None).
Proof.
  intros i g Hi. apply lookup_replicate in Hi. destruct Hi as [Hi _]. discriminate.
Qed.

Section SearchSound.
Variable P : nat -> string -> Prop.
Variable p : pattern.
Hypothesis Hok : groups_ok P (p_regex p).

Lemma match_here_sound ma start s m :
  match_here (p_regex p) (p_groups p) ma start s = Some m ->
  match_ok P p m /\ m_start m = start
  /\ exists w, s = w +:+ m_rest m /\ group m 0 = Some w
               /\ (ma = true -> w <> "").
Proof.
  unfold match_here. intros Hm.
  apply (rmatch_sound P _ Hok) in Hm.
  destruct Hm as (w & s' & caps' & -> & Hw & (Hl & Hi & Hmo & Hs) & Hk).
  assert (Hadv : ma = true -> w <> "").
  { intros -> ->. simpl in Hk. rewrite Nat.eqb_refl in Hk. discriminate. }
  destruct (ma && _); [discriminate|]. injection Hk as <-.
  rewrite str_before_app. rewrite length_replicate in Hl.
  assert (H0 : group (MatchObj start s' (set_group 0 w caps')) 0 = Some w).
  { apply group_Some. simpl. unfold set_group. apply list_lookup_insert_eq. lia. }
  split; [|split; [reflexivity|exists w; auto]].
  assert (Hinv : forall i g, (1 <= i)%nat ->
            group (MatchObj start s' (set_group 0 w caps')) i = Some g -> P i g).
  { intros i g Hi1 Hg. apply group_Some in Hg. simpl in Hg. unfold set_group in Hg.
    rewrite list_lookup_insert_ne in Hg by lia.
    eapply Hi; [apply caps_inv_init|exact Hg]. }
  split; [exists w; auto|]. split; [exact Hinv|].
  intros i Hset [Hi1 Hin]. destruct (Hs i Hset) as [g Hg].
  { rewrite length_replicate. lia. }
  assert (Hg' : group (MatchObj start s' (set_group 0 w caps')) i = Some g).
  { apply group_Some. simpl. unfold set_group. rewrite list_lookup_insert_ne by lia. exact Hg. }
  exists g. split; [exact Hg'|]. apply (Hinv i g Hi1 Hg').
Qed.

Lemma search_from_sound s : forall ma start m,
  search_from (p_regex p) (p_groups p) ma start s = Some m ->
  match_ok P p m
  /\ exists pre w, s = pre +:+ w +:+ m_rest m /\ group m 0 = Some w
                   /\ m_start m = (start + String.length pre)%nat
                   /\ (ma = true -> pre = "" -> w <> "").
Proof.
  induction s as [|c s IH]; intros ma start m Hm; simpl in Hm.
  - destruct (match_here _ _ ma start "") eqn:Hh; [|discriminate]. injection Hm as ->.
    apply match_here_sound in Hh. destruct Hh as (Hmk & Hst & w & Hw & Hg & Ha).
    split; [exact Hmk|]. exists "", w. simpl. rewrite Nat.add_0_r. auto.
  - destruct (match_here _ _ ma start (String c s)) eqn:Hh.
    + injection Hm as ->. apply match_here_sound in Hh.
      destruct Hh as (Hmk & Hst & w & Hw & Hg & Ha).
      split; [exact Hmk|]. exists "", w. simpl. rewrite Nat.add_0_r. auto.
    + apply IH in Hm. destruct Hm as (Hmk & pre & w & Hw & Hg & Hst & _).
      split; [exact Hmk|]. exists (String c pre), w. rewrite str_app_cons, <- Hw.
      split; [reflexivity|]. split; [exact Hg|]. split; [simpl; lia|]. discriminate.
Qed.

Lemma re_search_sound text m :
  re_search p text = Some m -> match_ok P p m.
Proof. intros Hm. apply search_from_sound in Hm. apply Hm. Qed.

Lemma scan_sound fuel : forall ma s ms tl,
  scan fuel p ma s = (ms, tl) -> Forall (fun x => match_ok P p (snd x)) ms.
Proof.
  induction fuel as [|fuel IH]; intros ma s ms tl Hs; simpl in Hs.
  - injection Hs as <- <-. constructor.
  - destruct (search_from _ _ ma 0 s) as [m|] eqn:Hm.
    + destruct (scan fuel p _ (m_rest m)) as [ms' tl'] eqn:Hs'. injection Hs as <- <-.
      constructor.
      * simpl. apply search_from_sound in Hm. apply Hm.
      * eapply IH. exact Hs'.
    + injection Hs as <- <-. constructor.
Qed.

Lemma finditer_sound text m : In m (finditer p text) -> match_ok P p m.
Proof.
  unfold finditer. intros Hin.
  destruct (scan _ p false text) as [ms tl] eqn:Hs. simpl in Hin.
  apply scan_sound in Hs. apply in_map_iff in Hin. destruct Hin as ([pre m'] & <- & Hin).
  rewrite Forall_forall in Hs. apply (Hs (pre, m')). apply list_elem_of_In. exact Hin.
Qed.

Lemma item_groups_tuple m j :
  item (groups_tuple m) j = default "" (group m (S j)).
Proof.
  unfold item, groups_tuple, group.
  destruct (m_groups m) as [|g0 gs]; [destruct j; reflexivity|]. simpl.
  revert j. induction gs as [|g gs IH]; intros [|j]; simpl; auto.
Qed.

(** A component of a tuple of [findall] whose group takes part in every
    match satisfies the property of the group. *)
Lemma re_findall_item text chunk j :
  In chunk (re_findall p text) ->
  sets (p_regex p) (S j) = true -> (S j <= p_groups p)%nat ->
  P (S j) (item chunk j).
Proof.
  unfold re_findall. intros Hin Hset Hj.
  apply in_map_iff in Hin. destruct Hin as (m & <- & Hin).
  apply finditer_sound in Hin. destruct Hin as (_ & _ & Hs).
  destruct (Hs (S j) Hset) as (g & Hg & HP); [lia|].
  rewrite item_groups_tuple, Hg. exact HP.
Qed.

End SearchSound.

(** ** Facts about characters, by enumeration *)

Lemma ascii_all_spec f : ascii_all f = true -> forall c, f c = true.
Proof.
  unfold ascii_all. intros Hall c. rewrite forallb_forall in Hall.
  rewrite <- (ascii_nat_embedding c). apply Hall, in_seq.
  pose proof (nat_ascii_bounded c). lia.
Qed.

Lemma implb_all (p q : ascii -> bool) :
  ascii_all (fun c => implb (p c) (q c)) = true -> forall c, p c = true -> q c = true.
Proof.
  intros Hall c Hp. pose proof (ascii_all_spec _ Hall c) as Hc. simpl in Hc.
  rewrite Hp in Hc. exact Hc.
Qed.

(** ** Replacing and stripping *)

Lemma str_forall_app p s t :
  str_forall p (s +:+ t) = str_forall p s && str_forall p t.
Proof.
  induction s as [|c s IH]; [reflexivity|].
  rewrite str_app_cons. simpl. rewrite IH, andb_assoc. reflexivity.
Qed.

Lemma str_forall_impl (p q : ascii -> bool) s :
  (forall c, p c = true -> q c = true) -> str_forall p s = true -> str_forall q s = true.
Proof.
  intros Hpq. induction s as [|c s IH]; [reflexivity|]. simpl.
  intros [Hc Hs]%andb_true_iff. rewrite (Hpq c Hc), (IH Hs). reflexivity.
Qed.

Lemma replace_chr_cons c new a s :
  replace (String c "") new (String a s)
  = if Ascii.eqb c a then new +:+ replace (String c "") new s
    else String a (replace (String c "") new s).
Proof.
  unfold replace. simpl. rewrite andb_true_r. reflexivity.
Qed.

Lemma replace_chr_app c new s t :
  replace (String c "") new (s +:+ t) = replace (String c "") new s +:+ replace (String c "") new t.
Proof.
  induction s as [|a s IH]; [reflexivity|].
  rewrite str_app_cons, !replace_chr_cons, IH.
  destruct (Ascii.eqb c a); [rewrite str_app_assoc|]; reflexivity.
Qed.

Lemma replace_chr_id c new s :
  str_forall (fun a => negb (Ascii.eqb c a)) s = true -> replace (String c "") new s = s.
Proof.
  induction s as [|a s IH]; [reflexivity|]. simpl.
  intros [Ha Hs]%andb_true_iff. rewrite replace_chr_cons.
  apply negb_true_iff in Ha. rewrite Ha, (IH Hs). reflexivity.
Qed.

Lemma replace_chr_forall q c new s :
  str_forall q new = true -> str_forall q s = true ->
  str_forall q (replace (String c "") new s) = true.
Proof.
  intros Hnew. induction s as [|a s IH]; [reflexivity|]. simpl.
  intros [Ha Hs]%andb_true_iff. rewrite replace_chr_cons.
  destruct (Ascii.eqb c a).
  - rewrite str_forall_app, Hnew, (IH Hs). reflexivity.
  - simpl. rewrite Ha, (IH Hs). reflexivity.
Qed.

(** A replacement whose first character does not occur changes nothing. *)
Lemma replace_absent o old new s :
  str_forall (fun a => negb (Ascii.eqb o a)) s = true ->
  replace (String o old) new s = s.
Proof.
  unfold replace. induction s as [|a s IH]; [reflexivity|]. simpl.
  intros [Ha Hs]%andb_true_iff. apply negb_true_iff in Ha.
  rewrite Ha. simpl. rewrite (IH Hs). reflexivity.
Qed.

Lemma lstrip_forall q s : str_forall q s = true -> str_forall q (lstrip s) = true.
Proof.
  induction s as [|c s IH]; [reflexivity|]. simpl.
  intros [Hc Hs]%andb_true_iff. destruct (is_space c); [auto|].
  simpl. rewrite Hc, Hs. reflexivity.
Qed.

Lemma rstrip_forall q s : str_forall q s = true -> str_forall q (rstrip s) = true.
Proof.
  induction s as [|c s IH]; [reflexivity|]. simpl.
  intros [Hc Hs]%andb_true_iff. specialize (IH Hs).
  destruct (rstrip s) as [|c' r].
  - destruct (is_space c); [reflexivity|]. simpl. rewrite Hc. reflexivity.
  - simpl in *. rewrite Hc, IH. reflexivity.
Qed.

Lemma strip_forall q s : str_forall q s = true -> str_forall q (strip s) = true.
Proof. intros Hs. apply rstrip_forall, lstrip_forall, Hs. Qed.

Lemma rstrip_cons c s :
  is_space c = false -> rstrip (String c s) = String c (rstrip s).
Proof. intros Hc. simpl. rewrite Hc. destruct (rstrip s); reflexivity. Qed.

Lemma rstrip_id s : str_forall (fun c => negb (is_space c)) s = true -> rstrip s = s.
Proof.
  induction s as [|c s IH]; [reflexivity|]. simpl str_forall.
  intros [Hc Hs]%andb_true_iff. apply negb_true_iff in Hc.
  rewrite (rstrip_cons _ _ Hc), (IH Hs). reflexivity.
Qed.

Lemma strip_id s : str_forall (fun c => negb (is_space c)) s = true -> strip s = s.
Proof.
  intros Hs. unfold strip.
  assert (Hl : lstrip s = s).
  { destruct s as [|c s]; [reflexivity|]. simpl in *.
    apply andb_true_iff in Hs. destruct Hs as [Hc _]. apply negb_true_iff in Hc.
    rewrite Hc. reflexivity. }
  rewrite Hl. apply rstrip_id, Hs.
Qed.

(** ** The Decimal constructor *)

Lemma is_digit_not_space c : is_digit c = true -> is_space c = false.
Proof.
  intros Hc. apply negb_true_iff. revert c Hc.
  apply (implb_all is_digit (fun c => negb (is_space c))). vm_compute. reflexivity.
Qed.

Lemma is_digit_plain c :
  is_digit c = true ->
  Ascii.eqb "_" c = false /\ forall t, split_sign (String c t) = (false, String c t).
Proof.
  intros Hc.
  assert (H : negb (Ascii.eqb "_" c) && negb (Ascii.eqb c "-") && negb (Ascii.eqb c "+") = true).
  { revert c Hc. apply (implb_all is_digit). vm_compute. reflexivity. }
  apply andb_true_iff in H. destruct H as [H Hp]. apply andb_true_iff in H.
  destruct H as [Hu Hm]. apply negb_true_iff in Hu, Hm, Hp.
  split; [exact Hu|]. intros t. apply Ascii.eqb_neq in Hm, Hp.
  unfold split_sign. destruct c as [[] [] [] [] [] [] [] []]; congruence.
Qed.

Lemma parse_unsigned_neg s :
  parse_unsigned true s = option_map copy_negate (parse_unsigned false s).
Proof.
  unfold parse_unsigned.
  destruct (span_digits s) as [int r1].
  destruct (match r1 with String "." r => span_digits r | _ => (EmptyString, r1) end) as [frac r2].
  destruct (truthy int || truthy frac).
  - destruct (parse_exponent r2); reflexivity.
  - destruct (_ || _); [reflexivity|].
    destruct (starts_with "nan" _).
    + destruct (span_digits _) as [ds rest]. destruct (truthy rest); reflexivity.
    + destruct (starts_with "snan" _); [|reflexivity].
      destruct (span_digits _) as [ds rest]. destruct (truthy rest); reflexivity.
Qed.

(** In front of a digit, a minus sign negates the number read. *)
Lemma Decimal_minus s :
  head_is is_digit s = true ->
  Decimal ("-" +:+ s)
  = match Decimal s with Ok x => Ok (copy_negate x) | Raise e => Raise e end.
Proof.
  destruct s as [|c s]; [discriminate|]. simpl head_is. intros Hc.
  pose proof (is_digit_not_space c Hc) as Hsp.
  unfold Decimal, strip. change ("-" +:+ String c s) with (String "-" (String c s)).
  simpl lstrip. rewrite Hsp.
  rewrite (rstrip_cons "-" _ eq_refl), (rstrip_cons c s Hsp).
  rewrite (replace_chr_cons "_" "" "-"). simpl Ascii.eqb. cbv iota.
  rewrite !(replace_chr_cons "_" "" c).
  destruct (is_digit_plain c Hc) as [Hu Hs].
  rewrite !Hu.
  rewrite !Hs. change (split_sign (String "-" ?t)) with (true, t). cbv iota beta.
  rewrite parse_unsigned_neg.
  destruct (parse_unsigned false _); reflexivity.
Qed.

Lemma lower_cons c s : lower (String c s) = String (to_lower c) (lower s).
Proof. reflexivity. Qed.

Lemma eqb_cons a x b y :
  String.eqb (String a x) (String b y) = Ascii.eqb a b && String.eqb x y.
Proof. reflexivity. Qed.

Lemma starts_with_cons a p b s :
  starts_with (String a p) (String b s) = Ascii.eqb a b && starts_with p s.
Proof. reflexivity. Qed.

Lemma numeric_char_plain c :
  numeric_char c = true ->
  Ascii.eqb c "-" = false /\ Ascii.eqb c "+" = false
  /\ Ascii.eqb (to_lower c) "i" = false /\ Ascii.eqb "n" (to_lower c) = false
  /\ Ascii.eqb "s" (to_lower c) = false.
Proof.
  intros Hc.
  assert (H : negb (Ascii.eqb c "-") && negb (Ascii.eqb c "+")
              && negb (Ascii.eqb (to_lower c) "i") && negb (Ascii.eqb "n" (to_lower c))
              && negb (Ascii.eqb "s" (to_lower c)) = true).
  { revert c Hc. apply (implb_all numeric_char). vm_compute. reflexivity. }
  repeat (apply andb_true_iff in H; destruct H as [H ?]).
  repeat split; apply negb_true_iff; assumption.
Qed.

Lemma parse_unsigned_numeric neg s x :
  str_forall numeric_char s = true ->
  parse_unsigned neg s = Some x -> exists c e, x = Fin neg c e.
Proof.
  intros Hs. unfold parse_unsigned.
  destruct (span_digits s) as [int r1].
  destruct (match r1 with String "." r => span_digits r | _ => (EmptyString, r1) end) as [frac r2].
  destruct (truthy int || truthy frac).
  - destruct (parse_exponent r2); [|discriminate]. intros [= <-]. eauto.
  - destruct s as [|c s]; [discriminate|]. simpl in Hs.
    apply andb_true_iff in Hs. destruct Hs as [Hc _].
    destruct (numeric_char_plain c Hc) as (_ & _ & Hi & Hn & Hsn).
    rewrite lower_cons.
    change "inf" with (String "i" "nf"). change "infinity" with (String "i" "nfinity").
    change "nan" with (String "n" "an"). change "snan" with (String "s" "nan").
    rewrite !eqb_cons, !starts_with_cons, Hi, Hn, Hsn. simpl. discriminate.
Qed.

(** A string of digits, white space, commas and periods reads as a finite
    decimal without sign. *)
Lemma Decimal_numeric s x :
  str_forall numeric_char s = true ->
  Decimal s = Ok x -> exists c e, x = Fin false c e.
Proof.
  intros Hs. unfold Decimal.
  assert (Hb : str_forall numeric_char (replace "_" "" (strip s)) = true).
  { apply (replace_chr_forall numeric_char "_" ""); [reflexivity|]. apply strip_forall, Hs. }
  destruct (replace "_" "" (strip s)) as [|c b] eqn:Hbody.
  - simpl. discriminate.
  - assert (Hsg : split_sign (String c b) = (false, String c b)).
    { simpl in Hb. apply andb_true_iff in Hb. destruct Hb as [Hc _].
      destruct (numeric_char_plain c Hc) as (Hm & Hp & _).
      apply Ascii.eqb_neq in Hm, Hp.
      unfold split_sign. destruct c as [[] [] [] [] [] [] [] []]; congruence. }
    rewrite Hsg. destruct (parse_unsigned false (String c b)) eqn:Hp; [|discriminate].
    intros [= <-]. eapply parse_unsigned_numeric; eauto.
Qed.

Lemma dec_mul_one s c e : dec_mul (Fin s c e) Decimal_one = Ok (Fin s c e).
Proof.
  unfold dec_mul, Decimal_one. simpl.
  rewrite xorb_false_r, N.mul_1_r, Z.add_0_r. reflexivity.
Qed.

Lemma dec_mul_minus_one s c e :
  dec_mul (Fin s c e) Decimal_minus_one = Ok (Fin (negb s) c e).
Proof.
  unfold dec_mul, Decimal_minus_one. simpl.
  rewrite xorb_true_r, N.mul_1_r, Z.add_0_r. reflexivity.
Qed.

(** ** The monad *)

Lemma bind_Ok {A B} (c : M A) (k : A -> M B) self b self' :
  bind c k self = (Ok b, self') ->
  exists a s1, c self = (Ok a, s1) /\ k a s1 = (Ok b, self').
Proof.
  unfold bind. destruct (c self) as [[a|e] s1]; [eauto|discriminate].
Qed.

Lemma bind_eq {A B} (c : M A) (k : A -> M B) self a s1 :
  c self = (Ok a, s1) -> bind c k self = k a s1.
Proof. unfold bind. intros ->. reflexivity. Qed.

Lemma lift_Ok {A} (r : result A) self a self' :
  lift r self = (Ok a, self') -> r = Ok a /\ self' = self.
Proof. unfold lift. intros [= -> ->]. auto. Qed.

Lemma ret_Ok {A} (x : A) self a self' :
  ret x self = (Ok a, self') -> a = x /\ self' = self.
Proof. unfold ret. intros [= -> ->]. auto. Qed.

Lemma expect_Ok {A} e (x : option A) self a self' :
  expect e x self = (Ok a, self') -> x = Some a /\ self' = self.
Proof. destruct x; simpl; intros [= -> ->]; auto. Qed.

Lemma lookup_account_Ok key self a self' :
  lookup_account key self = (Ok a, self') -> accountList self !! key = Some a /\ self' = self.
Proof.
  unfold lookup_account. destruct (accountList self !! key); intros [= -> ->]; auto.
Qed.

Lemma get_type_Ok self t self' :
  get_type self = (Ok t, self') -> type self = Some t /\ self' = self.
Proof. unfold get_type. destruct (type self); intros [= -> ->]; auto. Qed.

(** ** Computations that leave the instance alone *)

Lemma keeps_ret {A} (a : A) st : keeps (ret a) st.
Proof. reflexivity. Qed.

Lemma keeps_raise {A} e st : keeps (@raise A e) st.
Proof. reflexivity. Qed.

Lemma keeps_lift {A} (r : result A) st : keeps (lift r) st.
Proof. reflexivity. Qed.

Lemma keeps_expect {A} e (x : option A) st : keeps (expect e x) st.
Proof. destruct x; reflexivity. Qed.

Lemma keeps_local {A} (x : option A) st : keeps (local x) st.
Proof. apply keeps_expect. Qed.

Lemma keeps_get_type st : keeps get_type st.
Proof. unfold keeps, get_type. destruct (type st); reflexivity. Qed.

Lemma keeps_lookup_account key st : keeps (lookup_account key) st.
Proof. unfold keeps, lookup_account. destruct (accountList st !! key); reflexivity. Qed.

Lemma keeps_bind {A B} (c : M A) (k : A -> M B) st :
  keeps c st -> (forall a, keeps (k a) st) -> keeps (bind c k) st.
Proof.
  unfold keeps, bind. intros Hc Hk. destruct (c st) as [[a|e] s1]; simpl in Hc; subst s1.
  - apply Hk.
  - reflexivity.
Qed.

Lemma keeps_when_debug {A} (c : M A) st : keeps c st -> keeps (when_debug c) st.
Proof.
  intros Hc. unfold keeps, when_debug. destruct (debug st); [|reflexivity].
  apply (keeps_bind c (fun _ => ret tt)); [exact Hc|]. intros; apply keeps_ret.
Qed.

Lemma keeps_for_each {A B} (l : list A) (body : nat -> A -> M (list B)) st :
  (forall i x, keeps (body i x) st) -> forall index, keeps (for_each index l body) st.
Proof.
  intros Hb. induction l as [|x l IH]; intros index; simpl.
  - apply keeps_ret.
  - apply keeps_bind; [apply Hb|]. intros es.
    apply keeps_bind; [apply IH|]. intros es'. apply keeps_ret.
Qed.

Lemma keeps_ope_get ope key st : keeps (ope_get ope key) st.
Proof. apply keeps_expect. Qed.

Lemma keeps_ope_str ope key st : keeps (ope_str ope key) st.
Proof.
  apply keeps_bind; [apply keeps_ope_get|]. intros [s|b|]; try apply keeps_raise.
  apply keeps_ret.
Qed.

Lemma keeps_ope_true ope key st : keeps (ope_true ope key) st.
Proof. apply keeps_bind; [apply keeps_ope_get|]. intros v. apply keeps_ret. Qed.

Lemma keeps_parse_date `{DateParser} s st : keeps (parse_date s) st.
Proof. apply keeps_expect. Qed.

Ltac keeps_step :=
  match goal with
  | |- keeps (bind _ _) _ => apply keeps_bind; [|intros ?]
  | |- keeps (ret _) _ => apply keeps_ret
  | |- keeps (raise _) _ => apply keeps_raise
  | |- keeps (lift _) _ => apply keeps_lift
  | |- keeps (expect _ _) _ => apply keeps_expect
  | |- keeps (local _) _ => apply keeps_local
  | |- keeps get_type _ => apply keeps_get_type
  | |- keeps (lookup_account _) _ => apply keeps_lookup_account
  | |- keeps (when_debug _) _ => apply keeps_when_debug
  | |- keeps (for_each _ _ _) _ => apply keeps_for_each; intros ? ?
  | |- keeps (ope_get _ _) _ => apply keeps_ope_get
  | |- keeps (ope_str _ _) _ => apply keeps_ope_str
  | |- keeps (ope_true _ _) _ => apply keeps_ope_true
  | |- keeps (parse_date _) _ => apply keeps_parse_date
  | |- keeps (match ?x with _ => _ end) _ => destruct x
  | |- keeps (if ?x then _ else _) _ => destruct x
  | |- keeps (let '(_, _) := ?x in _) _ => destruct x
  end.

Ltac keeps_auto := repeat keeps_step.

(** ** identify *)

Lemma classify_empty : classify "" = None.
Proof. vm_compute. reflexivity. Qed.

(** On a PDF document, [identify] sets the type the table gives, and
    leaves the instance alone when the table gives none. *)
Lemma identify_pdf f self :
  mimetype f = "application/pdf" ->
  identify f self
  = match classify (f_text f) with
    | Some t => (Ok IdOne, with_type self t)
    | None => (Ok IdNone, self)
    end.
Proof.
  intros Hm. unfold identify. rewrite Hm. simpl negb.
  destruct (f_text f) as [|c text] eqn:Ht.
  - rewrite classify_empty. reflexivity.
  - simpl truthy. cbv iota. unfold classify, classification_table, first_match.
    repeat match goal with |- context [found ?p ?t] => destruct (found p t) end;
      reflexivity.
Qed.

Lemma identify_other f self :
  mimetype f <> "application/pdf" -> identify f self = (Ok IdFalse, self).
Proof.
  intros Hm. unfold identify. apply String.eqb_neq in Hm. rewrite Hm. reflexivity.
Qed.

(** Whatever the document, [identify] returns, and a second run on the
    same document changes nothing more. *)
Lemma identify_total f self : exists r, identify f self = (Ok r, snd (identify f self)).
Proof.
  destruct (String.eqb_spec (mimetype f) "application/pdf") as [Hm|Hm].
  - rewrite (identify_pdf f self Hm). destruct (classify _); eauto.
  - rewrite (identify_other f self Hm). eauto.
Qed.

Lemma identify_settled f self : keeps (identify f) (snd (identify f self)).
Proof.
  unfold keeps.
  destruct (String.eqb_spec (mimetype f) "application/pdf") as [Hm|Hm].
  - rewrite (identify_pdf f self Hm). destruct (classify (f_text f)) as [t|] eqn:Hc; simpl.
    + rewrite (identify_pdf _ _ Hm), Hc. reflexivity.
    + rewrite (identify_pdf _ _ Hm), Hc. reflexivity.
  - rewrite !(identify_other _ _ Hm). reflexivity.
Qed.

Lemma file_account_keeps f st : keeps (identify f) st -> keeps (file_account f) st.
Proof.
  intros Hid. unfold file_account. keeps_auto; exact Hid.
Qed.

(** ** extract *)

Section ExtractFacts.
Context `{DateParser}.

Lemma file_date_keeps f st : keeps (file_date f) st.
Proof. unfold file_date. keeps_auto; apply keeps_parse_date. Qed.

Lemma trade_transaction_keeps f document compte ope frais st :
  keeps frais st -> keeps (trade_transaction f document compte ope frais) st.
Proof.
  intros Hf. unfold trade_transaction. keeps_auto; try apply keeps_parse_date; exact Hf.
Qed.

Lemma solde_final_keeps f document compte balance st :
  keeps (solde_final f document compte balance) st.
Proof. unfold solde_final. keeps_auto; apply keeps_parse_date. Qed.

Lemma dialect_keeps t f document st :
  keeps (identify f) st -> keeps (dialect t f document) st.
Proof.
  intros Hid. unfold dialect.
  repeat match goal with |- keeps (if ?b then _ else _) _ => destruct b end.
  - unfold extract_dividende. keeps_auto; try apply keeps_parse_date.
    apply file_account_keeps, Hid.
  - unfold extract_espece. keeps_auto; try apply keeps_parse_date;
      apply file_account_keeps, Hid.
  - unfold extract_bourse. keeps_auto. apply trade_transaction_keeps. keeps_auto.
  - unfold extract_opcvm. keeps_auto. apply trade_transaction_keeps. keeps_auto.
  - unfold extract_compte, compte_solde_initial, compte_transaction.
    keeps_auto; try apply keeps_parse_date; apply solde_final_keeps.
  - unfold extract_amortissement, amortissement_echeance.
    keeps_auto; apply keeps_parse_date.
  - unfold extract_cb, cb_transaction.
    keeps_auto; try apply keeps_parse_date; apply solde_final_keeps.
  - apply keeps_ret.
Qed.

Lemma file_name_eq f self t :
  type (snd (identify f self)) = Some t ->
  file_name f self = (Ok (label t), snd (identify f self)).
Proof.
  intros Ht. unfold file_name. destruct (identify_total f self) as [r Hr].
  rewrite (bind_eq _ _ _ _ _ Hr).
  assert (Hg : get_type (snd (identify f self)) = (Ok t, snd (identify f self))).
  { unfold get_type. rewrite Ht. reflexivity. }
  rewrite (bind_eq _ _ _ _ _ Hg). reflexivity.
Qed.

Lemma when_type_other t d body entries st :
  type st = Some t -> String.eqb t d = false ->
  when_type d body entries st = (Ok entries, st).
Proof.
  intros Ht Hd. unfold when_type, bind, get_type. rewrite Ht, Hd. reflexivity.
Qed.

Lemma when_type_same t body st :
  type st = Some t -> keeps body st ->
  when_type t body [] st
  = (match fst (body st) with Ok es => Ok es | Raise e => Raise e end, st).
Proof.
  intros Ht Hk. unfold when_type, bind, get_type. rewrite Ht, String.eqb_refl.
  unfold keeps in Hk. destruct (body st) as [[es|e] s1]; simpl in *; subst s1; reflexivity.
Qed.

(** [extract] runs the branch of the type that [identify] leaves, on the
    instance that [identify] leaves, with the document name made of the
    reference date and the label of the type. *)
Lemma extract_dispatch f self t :
  type (snd (identify f self)) = Some t ->
  extract f self
  = match file_date f self with
    | (Ok dt, _) =>
        dialect t f (str_of_date dt +:+ " " +:+ label t) (snd (identify f self))
    | (Raise e, _) => (Raise e, self)
    end.
Proof.
  intros Ht. unfold extract.
  pose proof (file_date_keeps f self) as Hfd. unfold keeps in Hfd.
  unfold bind at 1. destruct (file_date f self) as [[dt|e] s0]; simpl in Hfd; subst s0;
    [|reflexivity].
  rewrite (bind_eq _ _ _ _ _ (file_name_eq f self t Ht)).
  set (st := snd (identify f self)) in *.
  set (document := str_of_date dt +:+ " " +:+ label t).
  assert (Hdbg : when_debug get_type st = (Ok tt, st)).
  { unfold when_debug, bind, get_type. rewrite Ht. destruct (debug st); reflexivity. }
  rewrite (bind_eq _ _ _ _ _ Hdbg).
  pose proof (dialect_keeps t f document st (identify_settled f self)) as Hkeep.
  cbv zeta.
  assert (Hrun : forall d (body : M (list entry)) (k : list entry -> M (list entry)),
             d = t -> keeps body st ->
             (forall es, k es st = (Ok es, st)) ->
             bind (when_type d body []) k st = body st).
  { intros d body k -> Hb Hk. unfold when_type, bind, get_type. rewrite Ht, String.eqb_refl.
    unfold keeps in Hb. destruct (body st) as [[es|e] s1]; simpl in Hb; subst s1.
    - simpl. apply Hk.
    - reflexivity. }
  assert (Hskip : forall d (body : M (list entry)) es (k : list entry -> M (list entry)),
             String.eqb t d = false ->
             bind (when_type d body es) k st = k es st).
  { intros d body es k Hd. apply bind_eq, (when_type_other t); assumption. }
  unfold dialect in *.
  destruct (String.eqb_spec t "DividendeBourse") as [->|H1].
  { simpl in Hkeep |- *. apply Hrun; [reflexivity|exact Hkeep|].
    intros es. rewrite !Hskip by reflexivity. reflexivity. }
  rewrite Hskip by (apply String.eqb_neq; exact H1).
  destruct (String.eqb_spec t "EspeceBourse") as [->|H2].
  { simpl in Hkeep |- *. apply Hrun; [reflexivity|exact Hkeep|].
    intros es. rewrite !Hskip by reflexivity. reflexivity. }
  rewrite Hskip by (apply String.eqb_neq; exact H2).
  destruct (String.eqb_spec t "Bourse") as [->|H3].
  { simpl in Hkeep |- *. apply Hrun; [reflexivity|exact Hkeep|].
    intros es. rewrite !Hskip by reflexivity. reflexivity. }
  rewrite Hskip by (apply String.eqb_neq; exact H3).
  destruct (String.eqb_spec t "OPCVM") as [->|H4].
  { simpl in Hkeep |- *. apply Hrun; [reflexivity|exact Hkeep|].
    intros es. rewrite !Hskip by reflexivity. reflexivity. }
  rewrite Hskip by (apply String.eqb_neq; exact H4).
  destruct (String.eqb_spec t "Compte") as [->|H5].
  { simpl in Hkeep |- *. apply Hrun; [reflexivity|exact Hkeep|].
    intros es. rewrite !Hskip by reflexivity. reflexivity. }
  rewrite Hskip by (apply String.eqb_neq; exact H5).
  destruct (String.eqb_spec t "Amortissement") as [->|H6].
  { simpl in Hkeep |- *. apply Hrun; [reflexivity|exact Hkeep|].
    intros es. rewrite !Hskip by reflexivity. reflexivity. }
  rewrite Hskip by (apply String.eqb_neq; exact H6).
  destruct (String.eqb_spec t "CB") as [->|H7].
  { simpl in Hkeep |- *. apply Hrun; [reflexivity|exact Hkeep|].
    intros es. reflexivity. }
  rewrite Hskip by (apply String.eqb_neq; exact H7).
  reflexivity.
Qed.

End ExtractFacts.

(** ** Loops *)

Lemma for_each_inv {A B} (body : nat -> A -> M (list B)) (l : list A) :
  forall index st es st',
    for_each index l body st = (Ok es, st') ->
    exists ess,
      es = concat ess
      /\ Forall2 (fun x e => exists i s s', body i x s = (Ok e, s')) l ess.
Proof.
  induction l as [|x l IH]; intros index st es st' Hf; simpl in Hf.
  - apply ret_Ok in Hf. destruct Hf as [-> _]. exists []. split; [reflexivity|constructor].
  - apply bind_Ok in Hf. destruct Hf as (e1 & s1 & Hb & Hf).
    apply bind_Ok in Hf. destruct Hf as (e2 & s2 & Hr & Hf).
    apply ret_Ok in Hf. destruct Hf as [-> _].
    apply IH in Hr. destruct Hr as (ess & -> & Hall).
    exists (e1 :: ess). split; [reflexivity|]. constructor; [eauto|exact Hall].
Qed.

Lemma for_each_Forall {A B} (P : B -> Prop) (body : nat -> A -> M (list B)) (l : list A) :
  (forall i x s e s', In x l -> body i x s = (Ok e, s') -> Forall P e) ->
  forall index st es st',
    for_each index l body st = (Ok es, st') -> Forall P es.
Proof.
  induction l as [|x l IH]; intros Hb index st es st' Hf; simpl in Hf.
  - apply ret_Ok in Hf. destruct Hf as [-> _]. constructor.
  - apply bind_Ok in Hf. destruct Hf as (e1 & s1 & Hx & Hf).
    apply bind_Ok in Hf. destruct Hf as (e2 & s2 & Hr & Hf).
    apply ret_Ok in Hf. destruct Hf as [-> _].
    apply Forall_app. split.
    + eapply Hb; [left; reflexivity|exact Hx].
    + eapply IH; [|exact Hr]. intros i y s e s' Hy. apply Hb. right. exact Hy.
Qed.

(** Taking a successful run apart, one step at a time. *)
Ltac inv_step H :=
  first
    [ apply bind_Ok in H; let a := fresh "a" in let s := fresh "s" in
      let H1 := fresh "Hstep" in destruct H as (a & s & H1 & H)
    | apply ret_Ok in H; destruct H as [? ?]; subst
    | apply lift_Ok in H; destruct H as [H ?]; subst
    | apply expect_Ok in H; destruct H as [H ?]; subst
    | apply lookup_account_Ok in H; destruct H as [H ?]; subst
    | apply get_type_Ok in H; destruct H as [H ?]; subst ].

Tactic Notation "inv_bind" hyp(H) "as" ident(H1) :=
  apply bind_Ok in H;
  let a := fresh "a" in let s := fresh "s" in destruct H as (a & s & H1 & H).

Tactic Notation "inv_bind" hyp(H) "as" ident(x) ident(H1) :=
  apply bind_Ok in H;
  let s := fresh "s" in destruct H as (x & s & H1 & H).

Lemma bind_Ok_keeps {A B} (c : M A) (k : A -> M B) st b st' :
  keeps c st -> bind c k st = (Ok b, st') ->
  exists a, c st = (Ok a, st) /\ k a st = (Ok b, st').
Proof.
  unfold keeps, bind. intros Hk Hb. destruct (c st) as [[a|e] s1]; [|discriminate].
  simpl in Hk. subst s1. eauto.
Qed.

Lemma for_each_inv_keeps {A B} (body : nat -> A -> M (list B)) (l : list A) st :
  (forall i x, keeps (body i x) st) ->
  forall index es st',
    for_each index l body st = (Ok es, st') ->
    exists ess,
      es = concat ess
      /\ Forall2 (fun x e => exists i, body i x st = (Ok e, st)) l ess
      /\ st' = st.
Proof.
  intros Hk. induction l as [|x l IH]; intros index es st' Hf; simpl in Hf.
  - apply ret_Ok in Hf. destruct Hf as [-> ->]. exists []. repeat split. constructor.
  - apply bind_Ok_keeps in Hf; [|apply Hk]. destruct Hf as (e1 & Hb & Hf).
    apply bind_Ok in Hf. destruct Hf as (e2 & s2 & Hr & Hf).
    apply ret_Ok in Hf. destruct Hf as [-> ->].
    apply IH in Hr. destruct Hr as (ess & -> & Hall & ->).
    exists (e1 :: ess). repeat split. constructor; [eauto|exact Hall].
Qed.

(** The same for a first step that leaves the instance alone. *)
Ltac inv_keep H :=
  apply bind_Ok_keeps in H;
  [ let a := fresh "a" in let H1 := fresh "Hstep" in destruct H as (a & H1 & H)
  | solve [keeps_auto] ].

Tactic Notation "inv_pure" hyp(H) "as" ident(x) ident(H1) :=
  apply bind_Ok_keeps in H; [ destruct H as (x & H1 & H) | solve [keeps_auto] ].

(** ** C10: the debug flag of a new instance *)

(** C10. For every account directory and every value of the [debug]
    argument, the instance [__init__] builds has its [debug] attribute
    true: the argument does not reach the instance, which is the one built
    for [False]; the directory is stored as given and no type is set. *)
Theorem init_debug_always_true (accounts : gmap string string) (dbg : bool) :
  debug (__init__ accounts dbg) = true
  /\ __init__ accounts dbg = __init__ accounts false
  /\ __init__ accounts true = __init__ accounts false
  /\ accountList (__init__ accounts dbg) = accounts.
Proof. repeat split. Qed.

(** ** C5: the classifier is a first-match table *)

Lemma rmatch_lit {R} w rest caps (k : string -> captures -> option R) :
  rmatch (lit w) (w +:+ rest) caps k = k rest caps.
Proof.
  revert caps k. induction w as [|c w IH]; intros caps k; [reflexivity|].
  rewrite str_app_cons. simpl. rewrite Ascii.eqb_refl. apply IH.
Qed.

Lemma lang_lit w u : lang (lit w) u -> u = w.
Proof.
  revert u. induction w as [|c w IH]; intros u Hu; simpl in Hu.
  - exact Hu.
  - destruct Hu as (w1 & w2 & -> & (a & -> & Ha) & H2).
    apply Ascii.eqb_eq in Ha. subst a. apply IH in H2. subst w2. reflexivity.
Qed.

Lemma search_from_lit w n start pre post :
  is_Some (search_from (lit w) n false start (pre +:+ w +:+ post)).
Proof.
  revert start. induction pre as [|c pre IH]; intros start.
  - rewrite str_app_nil_l.
    assert (Hh : is_Some (match_here (lit w) n false start (w +:+ post))).
    { unfold match_here. rewrite rmatch_lit. simpl. eauto. }
    destruct Hh as [m Hm].
    destruct (w +:+ post); simpl; rewrite Hm; eauto.
  - rewrite str_app_cons. simpl.
    destruct (match_here _ _ _ _ _); [eauto|]. apply IH.
Qed.

(** A literal pattern is found exactly in the texts that contain it. *)
Lemma found_lit w text :
  found (Pattern (lit w) 0) text = true <-> contains w text.
Proof.
  unfold found, re_search. rewrite bool_decide_eq_true. simpl. split.
  - intros [m Hm].
    apply (search_from_sound (fun _ _ => True) (Pattern (lit w) 0)) in Hm.
    + destruct Hm as (((u & Hgu & Hu) & _) & pre & u' & Htext & Hg & _).
      simpl in Hu. apply lang_lit in Hu. subst u.
      assert (u' = w) by congruence. subst u'.
      exists pre, (m_rest m). exact Htext.
    + simpl. clear. induction w as [|c w IH]; simpl; auto.
  - intros (pre & post & ->). apply search_from_lit.
Qed.

Lemma with_type_twice self t : with_type (with_type self t) t = with_type self t.
Proof. reflexivity. Qed.

(** C5. On a PDF document, [identify] goes through the seven markers in
    the order of the table (dividend, cash account, trade, fund, card, bank
    identity, amortization) and sets the type of the first one that is
    found; hence a text that contains the dividend marker and a bank marker
    is a dividend statement; and identifying the same document again gives
    the same answer and the same instance. *)
Theorem identify_first_match_wins (f : file) (self : importer) :
  mimetype f = "application/pdf" ->
  identify f self
  = match first_match
            [(marker_dividende, "DividendeBourse"); (marker_espece, "EspeceBourse");
             (marker_bourse, "Bourse"); (marker_opcvm, "OPCVM"); (marker_cb, "CB");
             (marker_compte, "Compte"); (marker_amortissement, "Amortissement")]
            (f_text f) with
    | Some t => (Ok IdOne, with_type self t)
    | None => (Ok IdNone, self)
    end
  /\ (contains "COUPONS REMBOURSEMENTS :" (f_text f) ->
      found marker_compte (f_text f) = true ->
      classified f self "DividendeBourse")
  /\ identify f (snd (identify f self)) = identify f self.
Proof.
  intros Hm. pose proof (identify_pdf f self Hm) as Hid.
  split; [exact Hid|]. split.
  - intros Hc _. apply found_lit in Hc. unfold classified. rewrite Hid.
    unfold classify, classification_table, first_match.
    change (Pattern (lit "COUPONS REMBOURSEMENTS :") 0) with marker_dividende in Hc.
    rewrite Hc. reflexivity.
  - rewrite Hid. destruct (classify (f_text f)) as [t|] eqn:Hc; simpl.
    + rewrite (identify_pdf _ _ Hm), Hc. reflexivity.
    + rewrite (identify_pdf _ _ Hm), Hc. reflexivity.
Qed.

Lemma identify_first_match_wins_witness :
  mimetype two_markers_doc = "application/pdf"
  /\ contains "COUPONS REMBOURSEMENTS :" (f_text two_markers_doc)
  /\ found marker_compte (f_text two_markers_doc) = true
  /\ classified two_markers_doc fresh_importer "DividendeBourse".
Proof.
  assert (Hc : contains "COUPONS REMBOURSEMENTS :" (f_text two_markers_doc)).
  { exists ("BOURSORAMA BANQUE" +:+ nl), nl. reflexivity. }
  assert (Hb : found marker_compte (f_text two_markers_doc) = true).
  { vm_compute. reflexivity. }
  split; [reflexivity|]. split; [exact Hc|]. split; [exact Hb|].
  exact (proj1 (proj2 (identify_first_match_wins two_markers_doc fresh_importer eq_refl)) Hc Hb).
Defined.

(** ** C3: documents without a marker *)

(** When no marker is found, [identify] answers [None] and leaves the
    instance as it is: the type of an earlier document stays. *)
Lemma identify_unmarked f self :
  classify (f_text f) = None ->
  identify f self = (Ok IdNone, self) \/ identify f self = (Ok IdFalse, self).
Proof.
  intros Hc. destruct (String.eqb_spec (mimetype f) "application/pdf") as [Hm|Hm].
  - left. rewrite (identify_pdf f self Hm), Hc. reflexivity.
  - right. apply identify_other, Hm.
Qed.

(** C3, evaluated on an instance that has classified a card statement
    before: the document has none of the seven markers, [identify] leaves
    the type [CB] in place, and [extract] runs the card patterns on it and
    returns a transaction. *)
Theorem unmarked_document_runs_stale_dialect :
  classify (f_text unmarked_doc) = None
  /\ (let self := snd (identify cb_doc fresh_importer) in
      type self = Some "CB"
      /\ identify unmarked_doc self = (Ok IdNone, self)
      /\ exists t,
           extract (H := parse_dmy) unmarked_doc self = (Ok [ETransaction t], self)
           /\ payee t = "SUPERMARCHE PARIS "
           /\ postings t
              = [simple_posting (Some "Passif:Boursorama:CB") (Fin true 4530 (-2)) "EUR"]).
Proof.
  split; [vm_compute; reflexivity|]. cbv zeta.
  split; [vm_compute; reflexivity|].
  split; [vm_compute; reflexivity|].
  eexists. split; [vm_compute; reflexivity|]. split; reflexivity.
Qed.

(** On an instance that never classified a document, the same document
    makes [extract] raise: no type was ever set. *)
Lemma unmarked_document_fresh_instance :
  extract (H := parse_dmy) unmarked_doc fresh_importer = (Raise AttributeError, fresh_importer).
Proof. vm_compute. reflexivity. Qed.

(** ** C4: the account of a document *)

(** C4, the cash dialect: for every document classified [EspeceBourse],
    the account [file_account] returns is the entry of the directory as it
    stands, without any suffix; the test of the source that appends
    [':Cash'] compares the type with ['EspeceDividende'], a type that
    [identify] never sets. *)
Theorem file_account_espece_without_suffix (f : file) (self self' : importer) (a : string) :
  mimetype f = "application/pdf" ->
  classify (f_text f) = Some "EspeceBourse" ->
  file_account f self = (Ok (Some a), self') ->
  exists m compte,
    re_search account_cash (f_text f) = Some m
    /\ group m 1 = Some compte
    /\ accountList self !! compte = Some a.
Proof.
  intros Hm Hc Hfa. unfold file_account in Hfa.
  assert (Hid : identify f self = (Ok IdOne, with_type self "EspeceBourse")).
  { rewrite (identify_pdf f self Hm), Hc. reflexivity. }
  rewrite (bind_eq _ _ _ _ _ Hid) in Hfa.
  set (st := with_type self "EspeceBourse") in *.
  assert (Hty : get_type st = (Ok "EspeceBourse", st)) by reflexivity.
  rewrite (bind_eq _ _ _ _ _ Hty) in Hfa.
  change (account_control "EspeceBourse") with (Some account_cash) in Hfa.
  assert (Hlo : local (Some account_cash) st = (Ok account_cash, st)) by reflexivity.
  rewrite (bind_eq _ _ _ _ _ Hlo) in Hfa.
  inv_keep Hfa. clear Hstep.
  destruct (re_search account_cash (f_text f)) as [m|] eqn:Hs.
  - inv_keep Hfa. apply expect_Ok in Hstep. destruct Hstep as [Hg _].
    rewrite (bind_eq _ _ _ _ _ Hty) in Hfa. simpl in Hfa.
    inv_keep Hfa. apply lookup_account_Ok in Hstep. destruct Hstep as [Hl _].
    apply ret_Ok in Hfa. destruct Hfa as [[= <-] _].
    exists m, a1. auto.
  - apply ret_Ok in Hfa. destruct Hfa as [Hfa _]. discriminate.
Qed.

Lemma file_account_espece_without_suffix_witness :
  mimetype espece_doc = "application/pdf"
  /\ classify (f_text espece_doc) = Some "EspeceBourse"
  /\ file_account espece_doc fresh_importer
     = (Ok (Some "Actif:Bourse:PEA"), with_type fresh_importer "EspeceBourse")
  /\ exists m compte,
       re_search account_cash (f_text espece_doc) = Some m
       /\ group m 1 = Some compte
       /\ accountList fresh_importer !! compte = Some "Actif:Bourse:PEA".
Proof.
  assert (Hc : classify (f_text espece_doc) = Some "EspeceBourse").
  { vm_compute. reflexivity. }
  assert (Hfa : file_account espece_doc fresh_importer
                = (Ok (Some "Actif:Bourse:PEA"), with_type fresh_importer "EspeceBourse")).
  { vm_compute. reflexivity. }
  split; [reflexivity|]. split; [exact Hc|]. split; [exact Hfa|].
  exact (file_account_espece_without_suffix espece_doc fresh_importer _ _ eq_refl Hc Hfa).
Defined.

(** ** Successful extractions *)

Section Claims.
Context `{DateParser}.

(** A successful [extract] is a successful run of the branch of the
    document's type. *)
Lemma extract_Ok f self t entries self' :
  classified f self t ->
  extract f self = (Ok entries, self') ->
  exists dt,
    dialect t f (str_of_date dt +:+ " " +:+ label t) (snd (identify f self))
    = (Ok entries, self')
    /\ self' = snd (identify f self).
Proof.
  intros Ht He. rewrite (extract_dispatch f self t Ht) in He.
  destruct (file_date f self) as [[dt|e] s0]; [|discriminate].
  exists dt. split; [exact He|].
  pose proof (dialect_keeps t f (str_of_date dt +:+ " " +:+ label t) _
                (identify_settled f self)) as Hk.
  unfold keeps in Hk. rewrite He in Hk. simpl in Hk. exact Hk.
Qed.

(** ** C8: a pattern that does not match *)

(** C8, the opening balance of a checking-account statement: when its
    pattern does not match, a successful [extract] still starts with a
    balance directive, whose date is the empty string and whose amount is
    zero. *)
Theorem compte_balance_without_match (f : file) (self self' : importer)
    (entries : list entry) :
  classified f self "Compte" ->
  re_search compte_solde (f_text f) = None ->
  extract f self = (Ok entries, self') ->
  exists meta a rest,
    entries = EBalance (mkBalance meta (IsStr "") a (mkAmount Decimal_zero "EUR")) :: rest.
Proof.
  intros Ht Hs He. destruct (extract_Ok f self _ entries self' Ht He) as (dt & Hd & _).
  change (dialect "Compte" f ?doc) with (extract_compte f doc) in Hd.
  unfold extract_compte in Hd. inv_keep Hd. clear Hstep.
  unfold compte_solde_initial in Hd. rewrite Hs in Hd.
  rewrite (bind_eq (ret _) _ _ _ _ eq_refl) in Hd.
  repeat inv_step Hd.
  change (D "") with (Ok Decimal_zero) in Hstep1. injection Hstep1 as <-.
  eauto.
Qed.

(** ** C9: the metadata of the records *)

Lemma metadata_source_document f index document :
  metadata f index document !! "source" = Some (MStr "pdfbourso")
  /\ metadata f index document !! "document" = Some (MStr document).
Proof. unfold metadata, new_metadata. split; reflexivity. Qed.

(** C9, the amortization dialect: every record of a successful [extract]
    carries the origin tag and carries no document name. *)
Theorem amortissement_records_lack_document (f : file) (self self' : importer)
    (entries : list entry) :
  classified f self "Amortissement" ->
  extract f self = (Ok entries, self') ->
  Forall (fun e => entry_meta e !! "source" = Some (MStr "pdfbourso")
                   /\ entry_meta e !! "document" = None) entries.
Proof.
  intros Ht He. destruct (extract_Ok f self _ entries self' Ht He) as (dt & Hd & _).
  change (dialect "Amortissement" f ?doc) with (extract_amortissement f) in Hd.
  unfold extract_amortissement in Hd. inv_keep Hd. clear Hstep.
  revert Hd. apply for_each_Forall. intros i chunk s e s' _ Hb.
  unfold amortissement_echeance in Hb. repeat inv_step Hb.
  repeat constructor.
Qed.

(** The sibling branches: in every other dialect each record of a
    successful [extract] carries both the origin tag and the document
    name, made of the reference date and the label of the type. *)
Lemma trade_transaction_metadata f document compte ope frais st entries st' :
  trade_transaction f document compte ope frais st = (Ok entries, st') ->
  Forall (fun e => entry_meta e !! "source" = Some (MStr "pdfbourso")
                   /\ entry_meta e !! "document" = Some (MStr document)) entries.
Proof.
  intros Ht. unfold trade_transaction in Ht. repeat inv_step Ht.
  repeat constructor.
Qed.

Lemma solde_final_metadata f document compte balance st entries st' :
  solde_final f document compte balance st = (Ok entries, st') ->
  Forall (fun e => entry_meta e !! "source" = Some (MStr "pdfbourso")
                   /\ entry_meta e !! "document" = Some (MStr document)) entries.
Proof.
  intros Ht. unfold solde_final in Ht.
  destruct (re_search date_solde_final (f_text f)); repeat inv_step Ht;
    repeat constructor.
Qed.

Lemma other_records_carry_document (f : file) (self self' : importer) (t : string)
    (entries : list entry) :
  classified f self t ->
  t <> "Amortissement" ->
  extract f self = (Ok entries, self') ->
  exists dt,
    Forall (fun e =>
              entry_meta e !! "source" = Some (MStr "pdfbourso")
              /\ entry_meta e !! "document"
                 = Some (MStr (str_of_date dt +:+ " " +:+ label t))) entries.
Proof.
  intros Ht Hna He. destruct (extract_Ok f self _ entries self' Ht He) as (dt & Hd & _).
  exists dt. revert Hd. generalize (str_of_date dt +:+ " " +:+ label t). intros document Hd.
  unfold dialect in Hd.
  destruct (String.eqb t "DividendeBourse").
  { unfold extract_dividende in Hd. inv_bind Hd as Hcompte. revert Hd. apply for_each_Forall.
    intros i chunk s0 e s' _ Hb. repeat inv_step Hb. repeat constructor. }
  destruct (String.eqb t "EspeceBourse").
  { unfold extract_espece in Hd. inv_bind Hd as Hcompte. revert Hd. apply for_each_Forall.
    intros i chunk s0 e s' _ Hb. repeat inv_step Hb. repeat constructor. }
  destruct (String.eqb t "Bourse").
  { unfold extract_bourse in Hd.
    inv_bind Hd as Hdebug. inv_bind Hd as Hdebug2. inv_bind Hd as Hdebug3.
    apply trade_transaction_metadata in Hd. exact Hd. }
  destruct (String.eqb t "OPCVM").
  { unfold extract_opcvm in Hd.
    inv_bind Hd as Hdebug. inv_bind Hd as Hdebug2. inv_bind Hd as Hdebug3.
    apply trade_transaction_metadata in Hd. exact Hd. }
  destruct (String.eqb t "Compte").
  { unfold extract_compte in Hd.
    inv_bind Hd as Hdebug. inv_bind Hd as Hinitial. destruct a0 as [datebalance balance].
    inv_bind Hd as Hcompte. inv_bind Hd as Haccount. inv_bind Hd as Hnumber.
    inv_bind Hd as Htransactions. inv_bind Hd as Hfinal. inv_step Hd.
    constructor; [split; reflexivity|]. apply Forall_app. split.
    - revert Htransactions. apply for_each_Forall. intros i chunk s6 e s' _ Hb.
      unfold compte_transaction in Hb. repeat inv_step Hb. repeat constructor.
    - destruct (re_search compte_nouveau_solde (f_text f)).
      + inv_bind Hfinal as Hg2. inv_bind Hfinal as Hg1.
        apply solde_final_metadata in Hfinal. exact Hfinal.
      + inv_step Hfinal. constructor. }
  destruct (String.eqb_spec t "Amortissement") as [Heq|_]; [contradiction|].
  destruct (String.eqb t "CB").
  { unfold extract_cb in Hd.
    inv_bind Hd as Hdebug. inv_bind Hd as Htransactions. inv_bind Hd as Hfinal.
    inv_step Hd. apply Forall_app. split.
    - revert Htransactions. apply for_each_Forall. intros i chunk s6 e s' _ Hb.
      unfold cb_transaction in Hb. repeat inv_step Hb. repeat constructor.
    - destruct (re_search cb_debit (f_text f)).
      + inv_bind Hfinal as Hg2. apply solde_final_metadata in Hfinal. exact Hfinal.
      + inv_step Hfinal. constructor. }
  inv_step Hd. constructor.
Qed.

End Claims.

Lemma amortissement_records_lack_document_witness :
  classified amortissement_doc fresh_importer "Amortissement"
  /\ exists entries self',
       extract (H := parse_dmy) amortissement_doc fresh_importer = (Ok entries, self')
       /\ length entries = 2%nat
       /\ Forall (fun e => entry_meta e !! "source" = Some (MStr "pdfbourso")
                           /\ entry_meta e !! "document" = None) entries.
Proof.
  assert (Ht : classified amortissement_doc fresh_importer "Amortissement").
  { vm_compute. reflexivity. }
  split; [exact Ht|].
  destruct (extract (H := parse_dmy) amortissement_doc fresh_importer)
    as [[entries|e] self'] eqn:He.
  - exists entries, self'. split; [reflexivity|]. split.
    + vm_compute in He. injection He as <- _. reflexivity.
    + exact (amortissement_records_lack_document (H := parse_dmy) _ _ _ _ Ht He).
  - vm_compute in He. discriminate He.
Defined.

Lemma compte_balance_without_match_witness :
  classified compte_sans_solde_doc fresh_importer "Compte"
  /\ re_search compte_solde (f_text compte_sans_solde_doc) = None
  /\ exists entries self',
       extract (H := parse_dmy) compte_sans_solde_doc fresh_importer = (Ok entries, self')
       /\ length entries = 2%nat
       /\ exists meta a rest,
            entries
            = EBalance (mkBalance meta (IsStr "") a (mkAmount Decimal_zero "EUR")) :: rest.
Proof.
  assert (Ht : classified compte_sans_solde_doc fresh_importer "Compte").
  { vm_compute. reflexivity. }
  assert (Hs : re_search compte_solde (f_text compte_sans_solde_doc) = None).
  { vm_compute. reflexivity. }
  split; [exact Ht|]. split; [exact Hs|].
  destruct (extract (H := parse_dmy) compte_sans_solde_doc fresh_importer)
    as [[entries|e] self'] eqn:He.
  - exists entries, self'. split; [reflexivity|]. split.
    + vm_compute in He. injection He as <- _. reflexivity.
    + exact (compte_balance_without_match (H := parse_dmy) _ _ _ _ Ht Hs He).
  - vm_compute in He. discriminate He.
Defined.

(** ** C1: the amount normalizer *)

Lemma replace_comma s : replace "," "." s = comma_to_period s.
Proof.
  induction s as [|c s IH]; [reflexivity|].
  rewrite (replace_chr_cons "," "." c), IH, (Ascii.eqb_sym "," c).
  change (comma_to_period (String c s))
    with (String (if Ascii.eqb c "," then "."%char else c) (comma_to_period s)).
  destruct (Ascii.eqb c ","); reflexivity.
Qed.

Lemma replace_spaces s : replace (chr nbsp) "" (replace " " "" s) = strip_spaces s.
Proof.
  unfold chr. induction s as [|c s IH]; [reflexivity|].
  rewrite (replace_chr_cons " " "" c), (Ascii.eqb_sym " " c).
  change (strip_spaces (String c s))
    with (if Ascii.eqb c " " || Ascii.eqb c nbsp then strip_spaces s
          else String c (strip_spaces s)).
  destruct (Ascii.eqb c " "); cbv [orb].
  - rewrite str_app_nil_l. exact IH.
  - rewrite (replace_chr_cons nbsp "" c), (Ascii.eqb_sym nbsp c).
    destruct (Ascii.eqb c nbsp); [rewrite str_app_nil_l|]; rewrite IH; reflexivity.
Qed.

Lemma strip_spaces_comma s :
  strip_spaces (comma_to_period s) = comma_to_period (strip_spaces s).
Proof.
  induction s as [|c s IH]; [reflexivity|].
  change (comma_to_period (String c s))
    with (String (if Ascii.eqb c "," then "."%char else c) (comma_to_period s)).
  change (strip_spaces (String c s))
    with (if Ascii.eqb c " " || Ascii.eqb c nbsp then strip_spaces s
          else String c (strip_spaces s)).
  destruct (Ascii.eqb_spec c ",") as [->|Hc].
  - change (strip_spaces (String "." ?x)) with (String "."%char (strip_spaces x)).
    rewrite IH. reflexivity.
  - change (strip_spaces (String c ?x))
      with (if Ascii.eqb c " " || Ascii.eqb c nbsp then strip_spaces x
            else String c (strip_spaces x)).
    destruct (Ascii.eqb c " " || Ascii.eqb c nbsp); [exact IH|].
    change (comma_to_period (String c ?x))
      with (String (if Ascii.eqb c "," then "."%char else c) (comma_to_period x)).
    apply Ascii.eqb_neq in Hc. rewrite Hc, IH. reflexivity.
Qed.

Lemma monetary_no_backslash s :
  monetary s = true ->
  str_forall (fun a => negb (Ascii.eqb backslash a)) (normalize_spec s) = true.
Proof.
  unfold monetary, normalize_spec. induction s as [|c s IH]; [reflexivity|].
  change (str_forall monetary_char (String c s))
    with (monetary_char c && str_forall monetary_char s).
  intros [Hc Hs]%andb_true_iff.
  assert (Hb : negb (Ascii.eqb backslash (if Ascii.eqb c "," then "."%char else c)) = true).
  { revert c Hc. apply (implb_all monetary_char). vm_compute. reflexivity. }
  change (strip_spaces (String c s))
    with (if Ascii.eqb c " " || Ascii.eqb c nbsp then strip_spaces s
          else String c (strip_spaces s)).
  destruct (Ascii.eqb c " " || Ascii.eqb c nbsp); [auto|].
  change (comma_to_period (String c ?x))
    with (String (if Ascii.eqb c "," then "."%char else c) (comma_to_period x)).
  change (str_forall ?p (String ?a ?x)) with (p a && str_forall p x).
  cbv beta. rewrite Hb, (IH Hs). reflexivity.
Qed.

(** C1, as the code has it.  On a monetary substring the normalizer of the
    source (comma to period, then the ordinary and the non-breaking spaces
    and the raw string [\u00a] removed) gives the string of the specification
    (spaces stripped, comma replaced by a period), and the amount is the
    decimal read from it.  When that string is empty, a required amount
    (read by [amount_of]) is a failure, [InvalidOperation], and is never
    zero; the optional withholding of a dividend line (read by
    [amount_or_zero], the [or 0] of the source) is zero. *)
Theorem normalize_monetary (s : string) :
  monetary s = true ->
  normalize s = normalize_spec s
  /\ amount_of s = Decimal (normalize_spec s)
  /\ (normalize_spec s = "" ->
      amount_of s = Raise InvalidOperation /\ amount_or_zero s = Ok Decimal_zero)
  /\ (normalize_spec s <> "" -> amount_or_zero s = amount_of s).
Proof.
  intros Hs.
  assert (Hn : normalize s = normalize_spec s).
  { unfold normalize. rewrite replace_comma, replace_spaces, strip_spaces_comma.
    apply (replace_absent backslash "u00a" ""). apply monetary_no_backslash, Hs. }
  split; [exact Hn|]. unfold amount_of, amount_or_zero. rewrite Hn.
  split; [reflexivity|]. split.
  - intros ->. split; reflexivity.
  - intros Hne. destruct (normalize_spec s); [contradiction|reflexivity].
Qed.

Lemma normalize_monetary_witness :
  monetary "1 234,56" = true
  /\ normalize "1 234,56" = "1234.56"
  /\ amount_of "1 234,56" = Ok (Fin false 123456 (-2))
  /\ amount_of "12,5" = Ok (Fin false 125 (-1))
  /\ normalize "1 234,56" = normalize_spec "1 234,56".
Proof.
  split; [reflexivity|]. split; [reflexivity|]. split; [reflexivity|].
  split; [reflexivity|].
  exact (proj1 (normalize_monetary "1 234,56" eq_refl)).
Defined.

(** The two examples of the specification, and the empty string. *)
Example normalize_examples :
  amount_of "1 234,56" = Ok (Fin false 123456 (-2))
  /\ amount_of ("1" +:+ chr nbsp +:+ "234,56") = Ok (Fin false 123456 (-2))
  /\ amount_of "12,5" = Ok (Fin false 125 (-1))
  /\ amount_of "" = Raise InvalidOperation
  /\ amount_of " " = Raise InvalidOperation.
Proof. repeat split. Qed.

(** C1 as stated fails on the optional withholding of a dividend line: the
    line of the example has four amounts, the sixth component of its tuple
    is empty, and the tax posting is the zero that stands for it plus the
    next amount, 7.50; the extraction succeeds. *)
Lemma dividende_empty_withholding_counts_as_zero :
  exists chunk t p1 p2 p3 self',
    re_findall dividende_line (f_text dividende_doc) = [chunk]
    /\ item chunk 5 = ""
    /\ normalize (item chunk 5) = ""
    /\ amount_or_zero (item chunk 5) = Ok Decimal_zero
    /\ item chunk 6 = " 7,50"
    /\ extract (H := parse_dmy) dividende_doc fresh_importer = (Ok [ETransaction t], self')
    /\ postings t = [p1; p2; p3]
    /\ p2 = simple_posting (Some "Depenses:Impots:IR") (Fin false 750 (-2)) "EUR".
Proof.
  do 6 eexists. split; [vm_compute; reflexivity|].
  split; [reflexivity|]. split; [reflexivity|]. split; [reflexivity|].
  split; [reflexivity|]. split; [vm_compute; reflexivity|].
  split; reflexivity.
Qed.

(** ** Words of the amount patterns *)


Lemma head_is_app p w1 w2 : head_is p w1 = true -> head_is p (w1 +:+ w2) = true.
Proof. destruct w1; [discriminate|]. intros Hh. exact Hh. Qed.





Lemma Forall2_impl_In {A B} (P Q : A -> B -> Prop) l l' :
  Forall2 P l l' -> (forall x y, In x l -> P x y -> Q x y) -> Forall2 Q l l'.
Proof.
  induction 1 as [|x y l l' Hxy Hl IH]; intros Himp; constructor.
  - apply Himp; [left; reflexivity|exact Hxy].
  - apply IH. intros x' y' Hin. apply Himp. right. exact Hin.
Qed.

Lemma Forall2_pairs {A B C} (f : B -> list C) (Q : A -> B -> Prop) l (ess : list (list C)) :
  Forall2 (fun x e => exists y, e = f y /\ Q x y) l ess ->
  exists ys, concat ess = flat_map f ys /\ Forall2 Q l ys.
Proof.
  induction 1 as [|x e l ess (y & -> & Hq) _ (ys & Hc & Hys)].
  - exists []. split; [reflexivity|constructor].
  - exists (y :: ys). split; [simpl; rewrite Hc; reflexivity|constructor; assumption].
Qed.


Section Amortissement.
Context `{DateParser}.

(** ** C7: the records of an amortization line *)


End Amortissement.


(** ** The characters of a word *)

Lemma reps_alphabet (P : string -> Prop) q n w :
  (forall u, P u -> str_forall q u = true) -> reps P n w -> str_forall q w = true.
Proof.
  intros HP. induction 1 as [|n w1 w2 H1 _ IH]; [reflexivity|].
  rewrite str_forall_app, (HP _ H1), IH. reflexivity.
Qed.

Lemma lang_alphabet r : forall w, lang r w -> str_forall (alphabet r) w = true.
Proof.
  induction r as [|p|r1 IH1 r2 IH2|r1 IH1 r2 IH2|r1 IH1 lo hi greedy|i r1 IH1];
    intros w Hw; simpl in Hw.
  - subst w. reflexivity.
  - destruct Hw as (c & -> & Hc). simpl. rewrite Hc. reflexivity.
  - destruct Hw as (w1 & w2 & -> & H1 & H2). rewrite str_forall_app. simpl.
    rewrite (str_forall_impl _ _ w1 (fun c Hc => orb_true_intro _ _ (or_introl Hc)) (IH1 _ H1)).
    rewrite (str_forall_impl _ _ w2 (fun c Hc => orb_true_intro _ _ (or_intror Hc)) (IH2 _ H2)).
    reflexivity.
  - destruct Hw as [H1|H2]; simpl.
    + apply (str_forall_impl _ _ w (fun c Hc => orb_true_intro _ _ (or_introl Hc)) (IH1 _ H1)).
    + apply (str_forall_impl _ _ w (fun c Hc => orb_true_intro _ _ (or_intror Hc)) (IH2 _ H2)).
  - destruct Hw as (n & _ & _ & Hr). simpl. eapply reps_alphabet; eauto.
  - simpl. auto.
Qed.

(** The words of an expression whose classes are numeric are numeric. *)
Lemma lang_numeric r w :
  ascii_all (fun c => implb (alphabet r c) (numeric_char c)) = true ->
  lang r w -> str_forall numeric_char w = true.
Proof.
  intros Hall Hw. apply (str_forall_impl (alphabet r)); [|apply lang_alphabet, Hw].
  apply (implb_all (alphabet r) numeric_char Hall).
Qed.

Lemma numeric_no_backslash s :
  str_forall numeric_char s = true ->
  str_forall (fun a => negb (Ascii.eqb backslash a)) s = true.
Proof.
  apply str_forall_impl. apply (implb_all numeric_char). vm_compute. reflexivity.
Qed.

Lemma normalize_numeric s :
  str_forall numeric_char s = true -> str_forall numeric_char (normalize s) = true.
Proof.
  intros Hs. unfold normalize, chr, raw_u00a.
  assert (H3 : str_forall numeric_char (replace (String nbsp "") "" (replace " " "" (replace "," "." s))) = true).
  { repeat apply replace_chr_forall; try reflexivity. exact Hs. }
  rewrite (replace_absent backslash "u00a" "" _ (numeric_no_backslash _ H3)). exact H3.
Qed.

(** The amount read from a numeric string is finite and has no sign. *)
Lemma amount_of_numeric s x :
  str_forall numeric_char s = true -> amount_of s = Ok x ->
  exists c e, x = Fin false c e.
Proof.
  intros Hs Hx. eapply Decimal_numeric; [|exact Hx]. apply normalize_numeric, Hs.
Qed.

(** ** The scratch dictionary *)

Lemma ope_fold_out (m : match_obj) fields : forall (ope : gmap string pyval) key,
  forallb (fun kf : string * nat => negb (String.eqb key kf.1)) fields = true ->
  fold_left (fun o '(k, i) => <[k := of_group (group m i)]> o) fields ope !! key
  = ope !! key.
Proof.
  induction fields as [|[k i] fields IH]; intros ope key Hk; [reflexivity|].
  simpl in Hk. apply andb_true_iff in Hk. destruct Hk as [Hk Hks].
  simpl. rewrite (IH _ _ Hks). apply lookup_insert_ne.
  apply negb_true_iff, String.eqb_neq in Hk. congruence.
Qed.

Lemma ope_set_out (ope : gmap string pyval) m fields key :
  forallb (fun kf : string * nat => negb (String.eqb key kf.1)) fields = true ->
  ope_set ope m fields !! key = ope !! key.
Proof.
  intros Hk. unfold ope_set. destruct m as [m|]; [|reflexivity]. apply ope_fold_out, Hk.
Qed.

Lemma ope_set_in (ope : gmap string pyval) m pre post key i :
  forallb (fun kf : string * nat => negb (String.eqb key kf.1)) post = true ->
  ope_set ope m (pre ++ (key, i) :: post) !! key
  = match m with
    | Some m' => Some (of_group (group m' i))
    | None => ope !! key
    end.
Proof.
  intros Hk. unfold ope_set. destruct m as [m|]; [|reflexivity].
  rewrite fold_left_app. simpl. rewrite (ope_fold_out _ _ _ _ Hk).
  apply lookup_insert_eq.
Qed.

Lemma ope_str_Ok ope key st s st' :
  ope_str ope key st = (Ok s, st') -> ope !! key = Some (PStr s) /\ st' = st.
Proof.
  intros Ho. unfold ope_str, ope_get in Ho.
  inv_bind Ho as v Hv. apply expect_Ok in Hv. destruct Hv as [Hv ->].
  destruct v; try discriminate. apply ret_Ok in Ho. destruct Ho as [-> ->]. auto.
Qed.

Lemma ope_true_Ok ope key st b st' :
  ope_true ope key st = (Ok b, st') ->
  exists v, ope !! key = Some v
            /\ b = match v with PStr s => truthy s | PBool b' => b' | PNone => false end
            /\ st' = st.
Proof.
  intros Ho. unfold ope_true, ope_get in Ho.
  inv_bind Ho as v Hv. apply expect_Ok in Hv. destruct Hv as [Hv ->].
  apply ret_Ok in Ho. destruct Ho as [-> ->]. eauto.
Qed.

Lemma of_group_PStr g s : of_group g = PStr s -> g = Some s.
Proof. destruct g; simpl; congruence. Qed.

(** ** Checks on patterns *)

Lemma groups_check_sound (chk : regex -> bool) (Q : string -> Prop) sel r :
  (forall r' w, chk r' = true -> lang r' w -> Q w) ->
  groups_check chk sel r = true ->
  groups_ok (fun i w => sel i = true -> Q w) r.
Proof.
  intros Hchk. induction r as [|p|r1 IH1 r2 IH2|r1 IH1 r2 IH2|r1 IH1 lo hi greedy|i r1 IH1];
    simpl; intros Hc; auto.
  - apply andb_true_iff in Hc. destruct Hc; auto.
  - apply andb_true_iff in Hc. destruct Hc; auto.
  - apply andb_true_iff in Hc. destruct Hc as [Hi Hc]. split; [|auto].
    intros w Hw Hs. rewrite Hs in Hi. simpl in Hi. eauto.
Qed.

Lemma alphabet_within_sound q r w :
  alphabet_within q r = true -> lang r w -> str_forall q w = true.
Proof.
  intros Hall Hw. apply (str_forall_impl (alphabet r)); [|apply lang_alphabet, Hw].
  apply (implb_all (alphabet r) q Hall).
Qed.

(** What a match object says of a selected group, given the check. *)
Lemma group_checked (chk : regex -> bool) (Q : string -> Prop) sel p text m i g :
  (forall r' w, chk r' = true -> lang r' w -> Q w) ->
  groups_check chk sel (p_regex p) = true ->
  sel i = true -> (1 <= i)%nat ->
  re_search p text = Some m -> group m i = Some g -> Q g.
Proof.
  intros Hchk Hc Hsel Hi Hs Hg.
  apply (re_search_sound _ p (groups_check_sound chk Q sel _ Hchk Hc)) in Hs.
  destruct Hs as (_ & Hinv & _). apply (Hinv i g Hi Hg Hsel).
Qed.

Lemma group_numeric p text m i g :
  groups_check (alphabet_within numeric_char) (Nat.eqb i) (p_regex p) = true ->
  (1 <= i)%nat ->
  re_search p text = Some m -> group m i = Some g ->
  str_forall numeric_char g = true.
Proof.
  intros Hc Hi. apply (group_checked _ _ _ p text m i g (alphabet_within_sound _) Hc);
    [apply Nat.eqb_refl|exact Hi].
Qed.

Section Bourse.
Context `{DateParser}.

(** ** C6: purchase and sale *)

(** C6. On a document classified [Bourse], a successful [extract] gives
    one transaction with three postings.  The quantity, the transaction
    total and the fees are read from their patterns as decimals without
    sign.  With the purchase marker in the text, the posting on the
    security sub-account carries the quantity as read, with a cost, and
    the cash posting carries the negated total; without the marker the
    security posting carries the negated quantity, without cost, and the
    cash posting the total as read.  The fee posting carries the fees as
    read in both cases. *)
Theorem bourse_purchase_sale (f : file) (self self' : importer) (entries : list entry) :
  classified f self "Bourse" ->
  extract f self = (Ok entries, self') ->
  exists q total frais (qc tc fc : N) (qe te fe : Z),
    (exists m, re_search bourse_execution (f_text f) = Some m /\ group m 2 = Some q)
    /\ (exists m, re_search bourse_montant (f_text f) = Some m /\ group m 5 = Some total)
    /\ (exists m, re_search bourse_frais (f_text f) = Some m /\ group m 5 = Some frais)
    /\ amount_of q = Ok (Fin false qc qe)
    /\ amount_of total = Ok (Fin false tc te)
    /\ amount_of frais = Ok (Fin false fc fe)
    /\ purchase_sale (found achat_comptant (f_text f)) entries
         (Fin false qc qe) (Fin false tc te) (Fin false fc fe).
Proof.
  intros Ht He. destruct (extract_Ok f self _ entries self' Ht He) as (dt & Hd & _).
  change (dialect "Bourse" f ?doc) with (extract_bourse f doc) in Hd.
  unfold extract_bourse in Hd.
  inv_bind Hd as u1 Hdebug1. inv_bind Hd as u2 Hdebug2. inv_bind Hd as u3 Hdebug3.
  clear Hdebug1 Hdebug2 Hdebug3.
  set (text := f_text f) in *.
  set (ope1 := ope_set ∅ (re_search bourse_montant text) _) in Hd.
  set (ope2 := ope_set ope1 (re_search bourse_frais text) _) in Hd.
  set (ope3 := ope_set ope2 (re_search code_isin text) _) in Hd.
  set (ope4 := ope_set ope3 (re_search bourse_execution text) _) in Hd.
  set (ope5 := ope_set ope4 (re_search bourse_cours text) _) in Hd.
  set (ope := <["Achat" := PBool (found achat_comptant text)]> ope5) in Hd.
  (* what the dictionary holds *)
  assert (Hachat : ope !! "Achat" = Some (PBool (found achat_comptant text))).
  { apply lookup_insert_eq. }
  assert (Hquantite : ope !! key_quantite
            = match re_search bourse_execution text with
              | Some m => Some (of_group (group m 2))
              | None => None
              end).
  { unfold ope. rewrite lookup_insert_ne by (vm_compute; discriminate).
    unfold ope5. rewrite ope_set_out by reflexivity.
    unfold ope4. rewrite (ope_set_in ope3 _ [("Date", 1%nat)] [("Designation", 3%nat)]
                            key_quantite 2) by reflexivity.
    destruct (re_search bourse_execution text); [reflexivity|].
    unfold ope3. rewrite ope_set_out by reflexivity.
    unfold ope2. rewrite ope_set_out by reflexivity.
    unfold ope1. rewrite ope_set_out by reflexivity. reflexivity. }
  assert (Htotal : ope !! "Montant Total"
            = match re_search bourse_montant text with
              | Some m => Some (of_group (group m 5))
              | None => None
              end).
  { unfold ope. rewrite lookup_insert_ne by (vm_compute; discriminate).
    unfold ope5. rewrite ope_set_out by reflexivity.
    unfold ope4. rewrite ope_set_out by reflexivity.
    unfold ope3. rewrite ope_set_out by reflexivity.
    unfold ope2. rewrite ope_set_out by reflexivity.
    unfold ope1. rewrite (ope_set_in ∅ _ [] [("currency Total", 6%nat)]
                            "Montant Total" 5) by reflexivity.
    destruct (re_search bourse_montant text); reflexivity. }
  assert (Hfrais : ope !! "Frais"
            = match re_search bourse_frais text with
              | Some m => Some (of_group (group m 5))
              | None => None
              end).
  { unfold ope. rewrite lookup_insert_ne by (vm_compute; discriminate).
    unfold ope5. rewrite ope_set_out by reflexivity.
    unfold ope4. rewrite ope_set_out by reflexivity.
    unfold ope3. rewrite ope_set_out by reflexivity.
    unfold ope2. rewrite (ope_set_in ope1 _ [] [("currency Frais", 6%nat)]
                            "Frais" 5) by reflexivity.
    destruct (re_search bourse_frais text); [reflexivity|].
    unfold ope1. rewrite ope_set_out by reflexivity. reflexivity. }
  clearbody ope. clear ope1 ope2 ope3 ope4 ope5.
  (* the run of the transaction *)
  set (st := snd (identify f self)) in *.
  unfold trade_transaction in Hd.
  inv_pure Hd as c Hc. apply expect_Ok in Hc. destruct Hc as [Hc _].
  inv_pure Hd as a Ha. apply lookup_account_Ok in Ha. destruct Ha as [Ha _].
  inv_pure Hd as isin Hisin.
  inv_pure Hd as q Hq. apply ope_str_Ok in Hq. destruct Hq as [Hq _].
  inv_pure Hd as nq Hnq. apply lift_Ok in Hnq. destruct Hnq as [Hnq _].
  inv_pure Hd as achat1 Hachat1. apply ope_true_Ok in Hachat1.
  destruct Hachat1 as (v1 & Hv1 & -> & _).
  rewrite Hachat in Hv1. injection Hv1 as <-.
  inv_pure Hd as un1 Hu1. apply lift_Ok in Hu1. destruct Hu1 as [Hu1 _].
  inv_pure Hd as cur1 Hcur1.
  inv_pure Hd as achat2 Hachat2. apply ope_true_Ok in Hachat2.
  destruct Hachat2 as (v2 & Hv2 & -> & _).
  rewrite Hachat in Hv2. injection Hv2 as <-.
  inv_pure Hd as cost1 Hcost1.
  inv_pure Hd as cours Hcours. inv_pure Hd as np Hnp. inv_pure Hd as curp Hcurp.
  inv_pure Hd as c' Hc'. apply expect_Ok in Hc'. destruct Hc' as [Hc' _].
  inv_pure Hd as a2 Ha2. apply lookup_account_Ok in Ha2. destruct Ha2 as [Ha2 _].
  inv_pure Hd as total Htot. apply ope_str_Ok in Htot. destruct Htot as [Htot _].
  inv_pure Hd as nt Hnt. apply lift_Ok in Hnt. destruct Hnt as [Hnt _].
  inv_pure Hd as achat3 Hachat3. apply ope_true_Ok in Hachat3.
  destruct Hachat3 as (v3 & Hv3 & -> & _).
  rewrite Hachat in Hv3. injection Hv3 as <-.
  inv_pure Hd as un2 Hu2. apply lift_Ok in Hu2. destruct Hu2 as [Hu2 _].
  inv_pure Hd as cur2 Hcur2.
  inv_pure Hd as un3 Hu3.
  inv_pure Hu3 as frais Hfr. apply ope_str_Ok in Hfr. destruct Hfr as [Hfr _].
  apply lift_Ok in Hu3. destruct Hu3 as [Hu3 _].
  inv_pure Hd as cur3 Hcur3.
  inv_pure Hd as dstr Hdstr. inv_pure Hd as dt' Hdt. inv_pure Hd as designation Hdes.
  inv_pure Hd as narr Hnarr. apply ret_Ok in Hd. destruct Hd as [-> _].
  (* the two accounts are the same entry of the directory *)
  assert (a2 = a) as ->.
  { assert (c' = c) by congruence. subst c'. congruence. }
  (* the strings come from the patterns *)
  rewrite Hquantite in Hq. rewrite Htotal in Htot. rewrite Hfrais in Hfr.
  destruct (re_search bourse_execution text) as [me|] eqn:Hme; [|discriminate].
  destruct (re_search bourse_montant text) as [mm|] eqn:Hmm; [|discriminate].
  destruct (re_search bourse_frais text) as [mf|] eqn:Hmf; [|discriminate].
  injection Hq as Hq. injection Htot as Htot. injection Hfr as Hfr.
  apply of_group_PStr in Hq, Htot, Hfr.
  pose proof (group_numeric bourse_execution _ _ 2 _ eq_refl ltac:(lia) Hme Hq) as Hqn.
  pose proof (group_numeric bourse_montant _ _ 5 _ eq_refl ltac:(lia) Hmm Htot) as Htn.
  pose proof (group_numeric bourse_frais _ _ 5 _ eq_refl ltac:(lia) Hmf Hfr) as Hfn.
  destruct (amount_of_numeric _ _ Hqn Hnq) as (qc & qe & ->).
  destruct (amount_of_numeric _ _ Htn Hnt) as (tc & te & ->).
  destruct (amount_of_numeric _ _ Hfn Hu3) as (fc & fe & ->).
  exists q, total, frais, qc, tc, fc, qe, te, fe.
  split; [eauto|]. split; [eauto|]. split; [eauto|].
  split; [exact Hnq|]. split; [exact Hnt|]. split; [exact Hu3|].
  unfold purchase_sale. do 4 eexists. exists a, isin.
  split; [reflexivity|]. split; [reflexivity|].
  split; [reflexivity|]. split; [reflexivity|]. split; [reflexivity|].
  split; [reflexivity|]. split; [reflexivity|]. split; [reflexivity|].
  simpl. destruct (found achat_comptant text).
  - rewrite dec_mul_one in Hu1. rewrite dec_mul_minus_one in Hu2.
    injection Hu1 as <-. injection Hu2 as <-.
    inv_bind Hcost1 as cours1 Hcours1. inv_bind Hcost1 as n1 Hn1.
    inv_bind Hcost1 as curc Hcurc. apply ret_Ok in Hcost1. destruct Hcost1 as [-> _].
    repeat split. eauto.
  - rewrite dec_mul_minus_one in Hu1. rewrite dec_mul_one in Hu2.
    injection Hu1 as <-. injection Hu2 as <-.
    apply ret_Ok in Hcost1. destruct Hcost1 as [-> _].
    repeat split.
Qed.

End Bourse.

Lemma bourse_purchase_sale_witness :
  classified (bourse_doc "ACHAT COMPTANT") fresh_importer "Bourse"
  /\ exists entries self',
       extract (H := parse_dmy) (bourse_doc "ACHAT COMPTANT") fresh_importer
       = (Ok entries, self')
       /\ purchase_sale true entries
            (Fin false 10 0) (Fin false 50199 (-2)) (Fin false 199 (-2)).
Proof.
  assert (Ht : classified (bourse_doc "ACHAT COMPTANT") fresh_importer "Bourse").
  { vm_compute. reflexivity. }
  split; [exact Ht|].
  destruct (extract (H := parse_dmy) (bourse_doc "ACHAT COMPTANT") fresh_importer)
    as [[entries|e] self'] eqn:He.
  - exists entries, self'. split; [reflexivity|].
    destruct (bourse_purchase_sale (H := parse_dmy) _ _ _ _ Ht He)
      as (q & total & frais & qc & tc & fc & qe & te & fe
          & (me & Hme & Hq) & (mm & Hmm & Htot) & (mf & Hmf & Hfr)
          & Hnq & Hnt & Hnf & Hrel).
    vm_compute in Hme. injection Hme as <-. vm_compute in Hq. injection Hq as <-.
    vm_compute in Hmm. injection Hmm as <-. vm_compute in Htot. injection Htot as <-.
    vm_compute in Hmf. injection Hmf as <-. vm_compute in Hfr. injection Hfr as <-.
    vm_compute in Hnq. injection Hnq as <- <-.
    vm_compute in Hnt. injection Hnt as <- <-.
    vm_compute in Hnf. injection Hnf as <- <-.
    assert (Hachat : found achat_comptant (f_text (bourse_doc "ACHAT COMPTANT")) = true).
    { vm_compute. reflexivity. }
    rewrite Hachat in Hrel. exact Hrel.
  - vm_compute in He. discriminate He.
Defined.

(** The same document as a sale: the signs are the other way round. *)
Example bourse_sale_example :
  exists tx self',
    extract (H := parse_dmy) (bourse_doc "VENTE COMPTANT") fresh_importer
    = (Ok [ETransaction tx], self')
    /\ t_date tx = Date 2023 3 15
    /\ postings tx
       = [mkPosting (Some "Actif:Bourse:PEA:FR0000120271")
            (mkAmount (Fin true 10 0) "FR0000120271") None
            (Some (mkAmount (Fin false 5000 (-2)) "EUR"));
          simple_posting (Some "Actif:Bourse:PEA:Cash") (Fin false 50199 (-2)) "EUR";
          simple_posting (Some "Depenses:Banque:Frais") (Fin false 199 (-2)) "EUR"].
Proof. do 2 eexists. split; [vm_compute; reflexivity|]. split; reflexivity. Qed.

(** ** The first character of a word *)

Lemma head_check_sound p r : forall b w,
  head_check p b r = true -> lang r w ->
  (b = true /\ w = "") \/ head_is p w = true.
Proof.
  induction r as [|q|r1 IH1 r2 IH2|r1 IH1 r2 IH2|r1 IH1 lo hi greedy|i r1 IH1];
    intros b w Hc Hw; simpl in Hc, Hw.
  - left. split; assumption.
  - destruct Hw as (c & -> & Hq). right. simpl. revert c Hq. apply (implb_all q p Hc).
  - destruct Hw as (w1 & w2 & -> & H1 & H2).
    apply orb_true_iff in Hc. destruct Hc as [Hc|Hc].
    + destruct (IH1 _ _ Hc H1) as [[Hf _]|Hh]; [discriminate|].
      right. apply head_is_app, Hh.
    + apply andb_true_iff in Hc. destruct Hc as [Hc1 Hc2].
      destruct (IH1 _ _ Hc1 H1) as [[_ ->]|Hh]; [apply (IH2 _ _ Hc2 H2)|].
      right. apply head_is_app, Hh.
  - apply andb_true_iff in Hc. destruct Hc as [Hc1 Hc2].
    destruct Hw as [H1|H2]; [apply (IH1 _ _ Hc1 H1)|apply (IH2 _ _ Hc2 H2)].
  - destruct Hw as (n & Hn & _ & Hr). destruct b.
    + clear Hn. induction Hr as [|n w1 w2 H1 _ IH]; [left; split; reflexivity|].
      destruct (IH1 _ _ Hc H1) as [[_ ->]|Hh]; [exact IH|]. right. apply head_is_app, Hh.
    + apply andb_true_iff in Hc. destruct Hc as [Hlo Hc].
      destruct Hr as [|n w1 w2 H1 _]; [destruct lo; [discriminate|lia]|].
      destruct (IH1 _ _ Hc H1) as [[Hf _]|Hh]; [discriminate|].
      right. apply head_is_app, Hh.
  - apply (IH1 _ _ Hc Hw).
Qed.

Lemma head_ok_sound p r w : head_ok p r = true -> lang r w -> head_is p w = true.
Proof.
  intros Hc Hw. destruct (head_check_sound p r false w Hc Hw) as [[Hf _]|Hh];
    [discriminate|exact Hh].
Qed.

Lemma french_amount_sound r w :
  french_amount r = true -> lang r w ->
  head_is is_digit w = true /\ str_forall amount_char w = true.
Proof.
  unfold french_amount. intros [Hh Ha]%andb_true_iff Hw. split.
  - apply (head_ok_sound _ _ _ Hh Hw).
  - apply (alphabet_within_sound _ _ _ Ha Hw).
Qed.

(** ** Amounts written the French way *)

Lemma head_digit_replace c new w :
  is_digit c = false ->
  head_is is_digit w = true -> head_is is_digit (replace (String c "") new w) = true.
Proof.
  intros Hc. destruct w as [|a w]; [discriminate|]. simpl head_is. intros Ha.
  rewrite replace_chr_cons. destruct (Ascii.eqb_spec c a) as [->|_]; [congruence|exact Ha].
Qed.

Lemma replace_comma_plain s :
  str_forall amount_char s = true -> str_forall plain_char (replace "," "." s) = true.
Proof.
  induction s as [|a s IH]; [reflexivity|].
  change (str_forall amount_char (String a s)) with (amount_char a && str_forall amount_char s).
  intros [Ha Hs]%andb_true_iff. rewrite (replace_chr_cons "," "." a).
  destruct (Ascii.eqb_spec "," a) as [<-|Hne].
  - rewrite str_forall_app, (IH Hs). reflexivity.
  - change (str_forall plain_char (String a ?x)) with (plain_char a && str_forall plain_char x).
    rewrite (IH Hs), andb_true_r.
    unfold amount_char in Ha. unfold plain_char.
    apply Ascii.eqb_neq in Hne. rewrite Ascii.eqb_sym in Hne. rewrite Hne, orb_false_r in Ha.
    exact Ha.
Qed.

Lemma normalize_fr_plain g :
  head_is is_digit g = true -> str_forall amount_char g = true ->
  head_is is_digit (normalize_fr g) = true /\ str_forall plain_char (normalize_fr g) = true.
Proof.
  intros Hh Ha. unfold normalize_fr. split.
  - repeat apply head_digit_replace; try reflexivity. exact Hh.
  - apply replace_comma_plain. apply replace_chr_forall; [reflexivity|exact Ha].
Qed.

Lemma clean_number_plain s : str_forall plain_char s = true -> clean_number s = s.
Proof.
  induction s as [|a s IH]; [reflexivity|].
  change (str_forall plain_char (String a s)) with (plain_char a && str_forall plain_char s).
  intros [Ha Hs]%andb_true_iff. simpl.
  assert (Hn : negb (Ascii.eqb a "," || Ascii.eqb a " ") = true).
  { revert a Ha. apply (implb_all plain_char). vm_compute. reflexivity. }
  apply negb_true_iff in Hn. rewrite Hn, (IH Hs). reflexivity.
Qed.

Lemma plain_numeric s : str_forall plain_char s = true -> str_forall numeric_char s = true.
Proof.
  apply str_forall_impl. apply (implb_all plain_char). vm_compute. reflexivity.
Qed.

(** On a plain numeral that starts with a digit, [D] is [Decimal]. *)
Lemma D_plain s :
  head_is is_digit s = true -> str_forall plain_char s = true ->
  D s = match Decimal s with Ok x => Ok x | Raise _ => Raise ValueError end
  /\ D ("-" +:+ s)
     = match Decimal s with Ok x => Ok (copy_negate x) | Raise _ => Raise ValueError end.
Proof.
  intros Hh Hp. unfold D. destruct s as [|a s]; [discriminate|].
  change ("-" +:+ String a s) with (String "-" (String a s)).
  change (String.eqb (String a s) "") with false.
  change (String.eqb (String "-" (String a s)) "") with false. cbv iota.
  change (clean_number (String "-" (String a s))) with (String "-" (clean_number (String a s))).
  rewrite (clean_number_plain _ Hp). split; [reflexivity|].
  change (String "-" (String a s)) with ("-" +:+ String a s).
  rewrite (Decimal_minus _ Hh). destruct (Decimal (String a s)); reflexivity.
Qed.

(** The heuristic of the balance lines decides the sign: the number is
    the amount read, negated exactly when the length is below 84. *)
Lemma D_signed_balance longueur s y :
  head_is is_digit s = true -> str_forall plain_char s = true ->
  D (signed_balance longueur s) = Ok y ->
  exists c e, D s = Ok (Fin false c e) /\ y = Fin (longueur <? 84)%nat c e.
Proof.
  intros Hh Hp Hy. destruct (D_plain s Hh Hp) as [HD HDm].
  unfold signed_balance in Hy. rewrite HD.
  destruct (Decimal s) as [x|err] eqn:Hx.
  - destruct (Decimal_numeric s x (plain_numeric _ Hp) Hx) as (c & e & ->).
    exists c, e. split; [reflexivity|].
    destruct (longueur <? 84)%nat.
    + rewrite HDm in Hy. injection Hy as <-. reflexivity.
    + rewrite HD in Hy. injection Hy as <-. reflexivity.
  - destruct (longueur <? 84)%nat; [rewrite HDm in Hy|rewrite HD in Hy]; discriminate.
Qed.

(** The heuristic of the transaction lines: the number is the amount read,
    negated exactly when the length is at most 148. *)
Lemma Decimal_signed_montant longueur s y :
  head_is is_digit s = true -> str_forall plain_char s = true ->
  Decimal (signed_montant longueur s) = Ok y ->
  exists c e, Decimal s = Ok (Fin false c e) /\ y = Fin (longueur <=? 148)%nat c e.
Proof.
  intros Hh Hp Hy. unfold signed_montant in Hy.
  assert (Hle : (longueur <=? 148)%nat = negb (148 <? longueur)%nat).
  { destruct (Nat.ltb_spec 148 longueur); destruct (Nat.leb_spec longueur 148); auto; lia. }
  rewrite Hle. destruct (148 <? longueur)%nat.
  - destruct (Decimal_numeric s y (plain_numeric _ Hp) Hy) as (c & e & ->). eauto.
  - rewrite (Decimal_minus _ Hh) in Hy. destruct (Decimal s) as [x|err] eqn:Hx; [|discriminate].
    destruct (Decimal_numeric s x (plain_numeric _ Hp) Hx) as (c & e & ->).
    injection Hy as <-. eauto.
Qed.

Lemma group_french p text m i g :
  groups_check french_amount (Nat.eqb i) (p_regex p) = true ->
  (1 <= i)%nat ->
  re_search p text = Some m -> group m i = Some g ->
  head_is is_digit (normalize_fr g) = true
  /\ str_forall plain_char (normalize_fr g) = true.
Proof.
  intros Hc Hi Hs Hg.
  destruct (group_checked french_amount
              (fun w => head_is is_digit w = true /\ str_forall amount_char w = true)
              (Nat.eqb i) p text m i g french_amount_sound Hc (Nat.eqb_refl i) Hi Hs Hg)
    as [Hh Ha].
  apply normalize_fr_plain; assumption.
Qed.

Lemma compte_operation_amount text chunk :
  In chunk (re_findall compte_operation text) ->
  head_is is_digit (normalize_fr (item chunk 3)) = true
  /\ str_forall plain_char (normalize_fr (item chunk 3)) = true.
Proof.
  intros Hin.
  assert (Hc : groups_check french_amount (Nat.eqb 4) (p_regex compte_operation) = true).
  { vm_compute. reflexivity. }
  pose proof (re_findall_item _ compte_operation
                (groups_check_sound french_amount _ (Nat.eqb 4) _ french_amount_sound Hc)
                text chunk 3 Hin eq_refl ltac:(simpl; lia) eq_refl) as [Hh Ha].
  apply normalize_fr_plain; assumption.
Qed.

Lemma flat_map_singleton {A B} (g : A -> B) l : flat_map (fun x => [g x]) l = map g l.
Proof. induction l as [|x l IH]; [reflexivity|]. simpl. rewrite IH. reflexivity. Qed.

Section Compte.
Context `{DateParser}.

Lemma compte_solde_initial_keeps text st : keeps (compte_solde_initial text) st.
Proof. unfold compte_solde_initial. keeps_auto. Qed.

Lemma compte_transaction_keeps f document compte i chunk st :
  keeps (compte_transaction f document compte i chunk) st.
Proof. unfold compte_transaction. keeps_auto. Qed.

(** ** C2: the sign heuristic of the checking-account dialect *)

(** C2, as the code has it.  On a document classified [Compte], a successful
    [extract] gives the opening balance, one transaction for every line
    matched by the transaction pattern, in order, and at most one closing
    balance.  The opening balance is the amount read from its line,
    negated exactly when the four spans of the line add up to less than
    84 characters; the closing balance is the amount read, negated
    exactly when the gap in front of it is shorter than 84 characters; a
    transaction is the amount read from its line, negated exactly when
    the four spans add up to at most 148 characters, and left as read
    when they add up to more than 148. *)
Theorem compte_sign_thresholds (f : file) (self self' : importer) (entries : list entry) :
  classified f self "Compte" ->
  extract f self = (Ok entries, self') ->
  exists (initial : Balance) (transactions : list Transaction) (final : list Balance),
    entries = EBalance initial :: map ETransaction transactions ++ map EBalance final
    /\ (forall m, re_search compte_solde (f_text f) = Some m ->
          exists g1 g2 g3 g4 c e,
            group m 1 = Some g1 /\ group m 2 = Some g2
            /\ group m 3 = Some g3 /\ group m 4 = Some g4
            /\ D (normalize_fr g4) = Ok (Fin false c e)
            /\ number (b_amount initial)
               = Fin (String.length g1 + String.length g3
                      + String.length g2 + String.length g4 <? 84)%nat c e)
    /\ Forall2 (fun chunk t =>
                  exists p c e,
                    postings t = [p]
                    /\ Decimal (normalize_fr (item chunk 3)) = Ok (Fin false c e)
                    /\ number (units p) = Fin (longueur_operation chunk <=? 148)%nat c e)
         (re_findall compte_operation (f_text f)) transactions
    /\ Forall (fun b =>
                 exists m g1 g2 c e,
                   re_search compte_nouveau_solde (f_text f) = Some m
                   /\ group m 1 = Some g1 /\ group m 2 = Some g2
                   /\ D (normalize_fr g2) = Ok (Fin false c e)
                   /\ number (b_amount b) = Fin (String.length g1 <? 84)%nat c e) final
    /\ (length final <= 1)%nat.
Proof.
  intros Ht He. destruct (extract_Ok f self _ entries self' Ht He) as (dt & Hd & _).
  change (dialect "Compte" f ?doc) with (extract_compte f doc) in Hd.
  unfold extract_compte in Hd.
  set (st := snd (identify f self)) in *. set (text := f_text f) in *.
  set (compte := match re_search compte_numero text with
                 | Some m => option_map (fun g => last_str (split_on " " g)) (group m 0)
                 | None => None
                 end) in *.
  inv_pure Hd as u Hdebug. clear Hdebug.
  apply bind_Ok_keeps in Hd; [|apply compte_solde_initial_keeps].
  destruct Hd as ([datebalance balance] & Hinitial & Hd).
  inv_pure Hd as c Hc. inv_pure Hd as a Ha.
  inv_pure Hd as n Hn. apply lift_Ok in Hn. destruct Hn as [Hn _].
  apply bind_Ok_keeps in Hd;
    [|apply keeps_for_each; intros; apply compte_transaction_keeps].
  destruct Hd as (tentries & Htransactions & Hd).
  inv_bind Hd as fentries Hfinal. apply ret_Ok in Hd. destruct Hd as [-> _].
  (* the transactions *)
  destruct (for_each_inv_keeps _ _ st
              (fun i chunk => compte_transaction_keeps f _ compte i chunk st)
              _ _ _ Htransactions)
    as (ess & -> & Hall & _).
  assert (Htx : exists txs,
             concat ess = map ETransaction txs
             /\ Forall2 (fun chunk t =>
                  exists p c e,
                    postings t = [p]
                    /\ Decimal (normalize_fr (item chunk 3)) = Ok (Fin false c e)
                    /\ number (units p) = Fin (longueur_operation chunk <=? 148)%nat c e)
                  (re_findall compte_operation text) txs).
  { cut (exists txs,
             concat ess = flat_map (fun t => [ETransaction t]) txs
             /\ Forall2 (fun chunk t =>
                  exists p c e,
                    postings t = [p]
                    /\ Decimal (normalize_fr (item chunk 3)) = Ok (Fin false c e)
                    /\ number (units p) = Fin (longueur_operation chunk <=? 148)%nat c e)
                  (re_findall compte_operation text) txs).
    { intros (txs & Hc0 & Hf0). exists txs. rewrite Hc0, flat_map_singleton. auto. }
    apply Forall2_pairs.
    eapply Forall2_impl_In; [exact Hall|]. clear Hall Htransactions.
    intros chunk e0 Hin (i & Hb). unfold compte_transaction in Hb.
    inv_pure Hb as c0 Hc0. inv_pure Hb as a0 Ha0.
    inv_pure Hb as n0 Hn0. apply lift_Ok in Hn0. destruct Hn0 as [Hn0 _].
    inv_pure Hb as dt0 Hdt0. apply ret_Ok in Hb. destruct Hb as [-> _].
    destruct (compte_operation_amount text chunk Hin) as [Hh Hp].
    destruct (Decimal_signed_montant _ _ _ Hh Hp Hn0) as (c1 & e1 & Hdec & ->).
    eexists. split; [reflexivity|]. do 3 eexists. split; [reflexivity|].
    split; [exact Hdec|reflexivity]. }
  destruct Htx as (txs & -> & Htxs).
  (* the closing balance *)
  assert (Hfin : exists final,
             fentries = map EBalance final /\ (length final <= 1)%nat
             /\ Forall (fun b =>
                 exists m g1 g2 c e,
                   re_search compte_nouveau_solde text = Some m
                   /\ group m 1 = Some g1 /\ group m 2 = Some g2
                   /\ D (normalize_fr g2) = Ok (Fin false c e)
                   /\ number (b_amount b) = Fin (String.length g1 <? 84)%nat c e) final).
  { destruct (re_search compte_nouveau_solde text) as [m|] eqn:Hm.
    - inv_bind Hfinal as g2 Hg2. apply expect_Ok in Hg2. destruct Hg2 as [Hg2 ->].
      inv_bind Hfinal as g1 Hg1. apply expect_Ok in Hg1. destruct Hg1 as [Hg1 ->].
      unfold solde_final in Hfinal.
      destruct (re_search date_solde_final (f_text f)) as [m2|].
      + inv_bind Hfinal as gd Hgd. inv_bind Hfinal as db Hdb.
        inv_bind Hfinal as c2 Hc2. inv_bind Hfinal as a2 Ha2.
        inv_bind Hfinal as n2 Hn2. apply lift_Ok in Hn2. destruct Hn2 as [Hn2 _].
        apply ret_Ok in Hfinal. destruct Hfinal as [-> _].
        destruct (group_french compte_nouveau_solde text m 2 g2 eq_refl ltac:(lia) Hm Hg2)
          as [Hh Hp].
        destruct (D_signed_balance _ _ _ Hh Hp Hn2) as (c3 & e3 & HD & ->).
        eexists [_]. split; [reflexivity|]. split; [simpl; lia|].
        constructor; [|constructor]. exists m, g1, g2, c3, e3. auto.
      + apply ret_Ok in Hfinal. destruct Hfinal as [-> _].
        exists []. split; [reflexivity|]. split; [simpl; lia|constructor].
    - apply ret_Ok in Hfinal. destruct Hfinal as [-> _].
      exists []. split; [reflexivity|]. split; [simpl; lia|constructor]. }
  destruct Hfin as (final & -> & Hlen & Hfin).
  eexists _, txs, final. split; [reflexivity|].
  split; [|split; [exact Htxs|split; [exact Hfin|exact Hlen]]].
  (* the opening balance *)
  intros m Hm. unfold compte_solde_initial in Hinitial. rewrite Hm in Hinitial.
  inv_pure Hinitial as g2 Hg2. apply expect_Ok in Hg2. destruct Hg2 as [Hg2 _].
  inv_pure Hinitial as d0 Hd0. inv_pure Hinitial as d1 Hd1.
  inv_pure Hinitial as g1 Hg1. apply expect_Ok in Hg1. destruct Hg1 as [Hg1 _].
  inv_pure Hinitial as g3 Hg3. apply expect_Ok in Hg3. destruct Hg3 as [Hg3 _].
  inv_pure Hinitial as g4 Hg4. apply expect_Ok in Hg4. destruct Hg4 as [Hg4 _].
  apply ret_Ok in Hinitial. destruct Hinitial as [[= -> ->] _].
  destruct (group_french compte_solde text m 4 g4 eq_refl ltac:(lia) Hm Hg4) as [Hh Hp].
  destruct (D_signed_balance _ _ _ Hh Hp Hn) as (c4 & e4 & HD & ->).
  exists g1, g2, g3, g4, c4, e4. auto 10.
Qed.

End Compte.

Lemma compte_sign_thresholds_witness :
  classified (compte_doc 116) fresh_importer "Compte"
  /\ exists entries self',
       extract (H := parse_dmy) (compte_doc 116) fresh_importer = (Ok entries, self')
       /\ exists initial transactions final,
            entries = EBalance initial :: map ETransaction transactions ++ map EBalance final
            /\ Forall2 (fun chunk t =>
                          exists p c e,
                            postings t = [p]
                            /\ longueur_operation chunk = 148%nat
                            /\ number (units p) = Fin true c e)
                 (re_findall compte_operation (f_text (compte_doc 116))) transactions.
Proof.
  assert (Ht : classified (compte_doc 116) fresh_importer "Compte").
  { vm_compute. reflexivity. }
  split; [exact Ht|].
  destruct (extract (H := parse_dmy) (compte_doc 116) fresh_importer)
    as [[entries|e] self'] eqn:He.
  - exists entries, self'. split; [reflexivity|].
    destruct (compte_sign_thresholds (H := parse_dmy) _ _ _ _ Ht He)
      as (initial & transactions & final & Hentries & _ & Htxs & _).
    exists initial, transactions, final. split; [exact Hentries|].
    assert (Hchunks : Forall (fun chunk => longueur_operation chunk = 148%nat)
                        (re_findall compte_operation (f_text (compte_doc 116)))).
    { vm_compute. repeat constructor. }
    eapply Forall2_impl_In; [exact Htxs|].
    intros chunk t Hin (p & c & e0 & Hp & _ & Hn).
    rewrite Forall_forall in Hchunks. apply list_elem_of_In, Hchunks in Hin.
    exists p, c, e0. rewrite Hin in Hn. auto.
  - vm_compute in He. discriminate He.
Defined.

(** C2 as stated fails at the threshold of the transaction lines: the
    spans of the line of the example add up to exactly 148 characters, and
    its amount is negated. *)
Lemma compte_line_of_148_is_debit :
  exists chunk initial t final self',
    re_findall compte_operation (f_text (compte_doc 116)) = [chunk]
    /\ longueur_operation chunk = 148%nat
    /\ extract (H := parse_dmy) (compte_doc 116) fresh_importer
       = (Ok [EBalance initial; ETransaction t; EBalance final], self')
    /\ postings t
       = [simple_posting (Some "Actif:Boursorama:CC") (Fin true 120000 (-2)) "EUR"].
Proof.
  do 5 eexists. split; [vm_compute; reflexivity|].
  split; [reflexivity|]. split; [vm_compute; reflexivity|]. reflexivity.
Qed.

(** One character more and the same line is a credit. *)
Example compte_line_of_149_is_credit :
  exists chunk initial t final self',
    re_findall compte_operation (f_text (compte_doc 117)) = [chunk]
    /\ longueur_operation chunk = 149%nat
    /\ extract (H := parse_dmy) (compte_doc 117) fresh_importer
       = (Ok [EBalance initial; ETransaction t; EBalance final], self')
    /\ postings t
       = [simple_posting (Some "Actif:Boursorama:CC") (Fin false 120000 (-2)) "EUR"].
Proof.
  do 5 eexists. split; [vm_compute; reflexivity|].
  split; [reflexivity|]. split; [vm_compute; reflexivity|]. reflexivity.
Qed.

(** The boundary of the balance lines: 83 is a debit, 84 a credit. *)
Example balance_threshold_examples :
  D (signed_balance 83 (normalize_fr "1.234,56")) = Ok (Fin true 123456 (-2))
  /\ D (signed_balance 84 (normalize_fr "1.234,56")) = Ok (Fin false 123456 (-2))
  /\ Decimal (signed_montant 148 (normalize_fr "45,30")) = Ok (Fin true 4530 (-2))
  /\ Decimal (signed_montant 149 (normalize_fr "45,30")) = Ok (Fin false 4530 (-2)).
Proof. repeat split. Qed.

(** * The methods of the importer *)

(** ** identify *)

Lemma classify_markers text :
  match classify text with
  | Some t => existsb (fun p => found p text) markers = true /\ In t types
  | None => existsb (fun p => found p text) markers = false
  end.
Proof.
  unfold classify, classification_table, first_match, markers, existsb, types.
  repeat match goal with |- context [found ?p ?t] => destruct (found p t) end;
    simpl; intuition.
Qed.

Lemma identify_cases f self :
  (identify f self = (Ok IdFalse, self) /\ mimetype f <> "application/pdf")
  \/ (identify f self = (Ok IdNone, self)
      /\ mimetype f = "application/pdf"
      /\ existsb (fun p => found p (f_text f)) markers = false)
  \/ (exists t, identify f self = (Ok IdOne, with_type self t)
                /\ mimetype f = "application/pdf"
                /\ existsb (fun p => found p (f_text f)) markers = true
                /\ In t types).
Proof.
  destruct (String.eqb_spec (mimetype f) "application/pdf") as [Hm|Hm].
  - right. rewrite (identify_pdf f self Hm).
    pose proof (classify_markers (f_text f)) as Hc.
    destruct (classify (f_text f)) as [t|].
    + right. exists t. tauto.
    + left. tauto.
  - left. split; [apply identify_other, Hm|exact Hm].
Qed.

(** [identify] never raises and never touches the directory or the debug
    flag.  It answers [False] exactly for a document that is not a PDF,
    and [1] exactly for a PDF in whose text one of the seven markers is
    found; it assigns the type, one of the seven, exactly when it answers
    [1], and leaves the instance as it was otherwise. *)
Theorem identify_outcome (f : file) (self : importer) :
  exists r,
    identify f self = (Ok r, snd (identify f self))
    /\ accountList (snd (identify f self)) = accountList self
    /\ debug (snd (identify f self)) = debug self
    /\ (r = IdFalse <-> mimetype f <> "application/pdf")
    /\ (r = IdOne <->
        mimetype f = "application/pdf"
        /\ existsb (fun p => found p (f_text f)) markers = true)
    /\ (r = IdOne -> exists t, In t types /\ snd (identify f self) = with_type self t)
    /\ (r <> IdOne -> snd (identify f self) = self).
Proof.
  destruct (identify_cases f self)
    as [[Hid Hm]|[(Hid & Hm & He)|(t & Hid & Hm & He & Ht)]]; rewrite Hid; cbn [snd].
  - exists IdFalse. split; [reflexivity|]. split; [reflexivity|]. split; [reflexivity|].
    split; [tauto|]. split; [|split; [discriminate|reflexivity]].
    split; [discriminate|]. intros [Hm' _]. contradiction.
  - exists IdNone. split; [reflexivity|]. split; [reflexivity|]. split; [reflexivity|].
    split; [split; [discriminate|contradiction]|].
    split; [|split; [discriminate|reflexivity]].
    split; [discriminate|]. intros [_ He']. congruence.
  - exists IdOne. split; [reflexivity|]. split; [reflexivity|]. split; [reflexivity|].
    split; [split; [discriminate|contradiction]|].
    split; [tauto|]. split; [eauto|]. intros Hne. contradiction.
Qed.

(** ** file_name *)

Lemma file_name_untyped f self :
  type (snd (identify f self)) = None ->
  file_name f self = (Raise AttributeError, self).
Proof.
  intros Ht. unfold file_name.
  assert (Hid : exists r, identify f self = (Ok r, self)).
  { destruct (identify_cases f self)
      as [[Hid _]|[(Hid & _)|(t & Hid & _)]]; eauto.
    rewrite Hid in Ht. discriminate. }
  destruct Hid as [r Hr]. rewrite Hr in Ht. simpl in Ht.
  rewrite (bind_eq _ _ _ _ _ Hr). unfold bind, get_type. rewrite Ht. reflexivity.
Qed.

(** [file_name] raises [AttributeError] exactly when the instance has no
    type once [identify] has run: the document has no marker and no
    earlier document set one.  Otherwise it returns one of six names, all
    ending in [.pdf], chosen by the type; the fund and the amortization
    types have no name of their own and get [Boursorama.pdf]. *)
Theorem file_name_outcome (f : file) (self : importer) :
  match type (snd (identify f self)) with
  | None => file_name f self = (Raise AttributeError, self)
  | Some t =>
      exists name,
        file_name f self = (Ok name, snd (identify f self))
        /\ In name names
        /\ ends_with ".pdf" name = true
        /\ (t = "OPCVM" \/ t = "Amortissement" -> name = "Boursorama.pdf")
        /\ (name = "Boursorama.pdf" ->
            forall d, In d ["DividendeBourse"; "EspeceBourse"; "Bourse"; "Compte"; "CB"] ->
                      t <> d)
  end.
Proof.
  destruct (type (snd (identify f self))) as [t|] eqn:Ht.
  - exists (label t). split; [apply file_name_eq, Ht|].
    unfold label, names.
    repeat match goal with
           | |- context [String.eqb t ?d] => destruct (String.eqb_spec t d) as [->|?]
           end;
      (split; [simpl; tauto|]); (split; [reflexivity|]);
      (split; [intros [?|?]; congruence|]);
      try (intros ?; discriminate);
      intros _ d Hd; simpl in Hd; intuition congruence.
  - apply file_name_untyped, Ht.
Qed.

(** ** The shape of what a group captures *)

Lemma reps_width (P : string -> Prop) lo hi n w :
  (forall u, P u -> (lo <= String.length u <= hi)%nat) ->
  reps P n w -> (n * lo <= String.length w <= n * hi)%nat.
Proof.
  intros HP Hr. induction Hr as [|n w1 w2 H1 _ IH]; [simpl; lia|].
  rewrite str_length_app. specialize (HP _ H1). lia.
Qed.

Lemma reps_min_width (P : string -> Prop) lo n w :
  (forall u, P u -> (lo <= String.length u)%nat) ->
  reps P n w -> (n * lo <= String.length w)%nat.
Proof.
  intros HP Hr. induction Hr as [|n w1 w2 H1 _ IH]; [simpl; lia|].
  rewrite str_length_app. specialize (HP _ H1). lia.
Qed.

Lemma lang_min_width r : forall w, lang r w -> (min_width r <= String.length w)%nat.
Proof.
  induction r as [|q|r1 IH1 r2 IH2|r1 IH1 r2 IH2|r1 IH lo hi g|i r1 IH]; intros w Hw; simpl in *.
  - subst w. simpl. lia.
  - destruct Hw as (c & -> & _). simpl. lia.
  - destruct Hw as (w1 & w2 & -> & H1 & H2). rewrite str_length_app.
    specialize (IH1 _ H1). specialize (IH2 _ H2). lia.
  - destruct Hw as [Hw|Hw]; [specialize (IH1 _ Hw)|specialize (IH2 _ Hw)]; lia.
  - destruct Hw as (n & Hlo & _ & Hr).
    pose proof (reps_min_width _ (min_width r1) n w IH Hr). nia.
  - apply IH, Hw.
Qed.

Lemma lang_max_width r : forall w h,
  max_width r = Some h -> lang r w -> (String.length w <= h)%nat.
Proof.
  induction r as [|q|r1 IH1 r2 IH2|r1 IH1 r2 IH2|r1 IH lo hi g|i r1 IH];
    intros w h Hh Hw; simpl in *.
  - injection Hh as <-. subst w. simpl. lia.
  - injection Hh as <-. destruct Hw as (c & -> & _). simpl. lia.
  - destruct (max_width r1) as [a|]; [|discriminate].
    destruct (max_width r2) as [b|]; [|discriminate]. injection Hh as <-.
    destruct Hw as (w1 & w2 & -> & H1 & H2). rewrite str_length_app.
    specialize (IH1 _ _ eq_refl H1). specialize (IH2 _ _ eq_refl H2). lia.
  - destruct (max_width r1) as [a|]; [|discriminate].
    destruct (max_width r2) as [b|]; [|discriminate]. injection Hh as <-.
    destruct Hw as [Hw|Hw];
      [specialize (IH1 _ _ eq_refl Hw)|specialize (IH2 _ _ eq_refl Hw)]; lia.
  - destruct hi as [hi|]; [|discriminate].
    destruct (max_width r1) as [a|]; [|discriminate]. injection Hh as <-.
    destruct Hw as (n & _ & Hhi & Hr). specialize (Hhi _ eq_refl).
    assert (Hb : forall u, lang r1 u -> (0 <= String.length u <= a)%nat).
    { intros u Hu. specialize (IH _ _ eq_refl Hu). lia. }
    pose proof (reps_width _ 0 a n w Hb Hr). nia.
  - eapply IH; eassumption.
Qed.

Lemma shaped_sound q lo hi r w :
  shaped q lo hi r = true -> lang r w ->
  str_forall q w = true /\ (lo <= String.length w <= hi)%nat.
Proof.
  unfold shaped. intros Hs Hw.
  apply andb_true_iff in Hs. destruct Hs as [Hs Hmax].
  apply andb_true_iff in Hs. destruct Hs as [Ha Hmin].
  split; [eapply alphabet_within_sound; eassumption|].
  apply Nat.leb_le in Hmin. pose proof (lang_min_width r w Hw).
  destruct (max_width r) as [h|] eqn:Hh; [|discriminate].
  apply Nat.leb_le in Hmax. pose proof (lang_max_width r w h Hh Hw). lia.
Qed.

(** A group that takes part in every match is there, and what it holds
    passes the check made on its body. *)
Lemma group_present (chk : regex -> bool) (Q : string -> Prop) sel p text m i :
  (forall r' w, chk r' = true -> lang r' w -> Q w) ->
  groups_check chk sel (p_regex p) = true ->
  sel i = true -> sets (p_regex p) i = true -> (1 <= i <= p_groups p)%nat ->
  re_search p text = Some m ->
  exists g, group m i = Some g /\ Q g.
Proof.
  intros Hchk Hc Hsel Hset Hi Hs.
  apply (re_search_sound _ p (groups_check_sound chk Q sel _ Hchk Hc)) in Hs.
  destruct Hs as (_ & _ & Hall). destruct (Hall i Hset Hi) as (g & Hg & HQ).
  exists g. split; [exact Hg|]. apply HQ, Hsel.
Qed.

Lemma group_shaped q lo hi p text m i :
  groups_check (shaped q lo hi) (Nat.eqb i) (p_regex p) = true ->
  sets (p_regex p) i = true -> (1 <= i <= p_groups p)%nat ->
  re_search p text = Some m ->
  exists g, group m i = Some g
            /\ str_forall q g = true /\ (lo <= String.length g <= hi)%nat.
Proof.
  intros Hc Hset Hi Hs.
  apply (group_present (shaped q lo hi)
           (fun g => str_forall q g = true /\ (lo <= String.length g <= hi)%nat)
           (Nat.eqb i) p text m i); auto.
  - intros r' w. apply shaped_sound.
  - apply Nat.eqb_refl.
Qed.

(** ** file_account *)

(** [file_account], step by step, on the instance [identify] leaves. *)
Lemma file_account_run f self t control :
  type (snd (identify f self)) = Some t ->
  account_control t = Some control ->
  file_account f self
  = let st := snd (identify f self) in
    match re_search control (f_text f) with
    | None => if debug st then (Raise AttributeError, st) else (Ok None, st)
    | Some m =>
        match group m 1 with
        | None => (Raise KeyError, st)
        | Some compte =>
            if String.eqb t "Bourse" || String.eqb t "OPCVM" then
              match re_search code_isin (f_text f) with
              | Some m2 =>
                  match accountList st !! compte with
                  | None => (Raise KeyError, st)
                  | Some a =>
                      match group m2 1 with
                      | None => (Raise TypeError, st)
                      | Some isin => (Ok (Some (a +:+ ":" +:+ isin)), st)
                      end
                  end
              | None => (Ok None, st)
              end
            else if String.eqb t "DividendeBourse" || String.eqb t "EspeceDividende" then
              match accountList st !! compte with
              | None => (Raise KeyError, st)
              | Some a => (Ok (Some (a +:+ ":Cash")), st)
              end
            else
              match accountList st !! compte with
              | None => (Raise KeyError, st)
              | Some a => (Ok (Some a), st)
              end
        end
    end.
Proof.
  intros Ht Hc. unfold file_account. destruct (identify_total f self) as [r Hr].
  rewrite (bind_eq _ _ _ _ _ Hr). cbv zeta.
  set (st := snd (identify f self)) in *.
  assert (Hg : get_type st = (Ok t, st)) by (unfold get_type; rewrite Ht; reflexivity).
  rewrite (bind_eq _ _ _ _ _ Hg). rewrite Hc.
  assert (Hl : local (Some control) st = (Ok control, st)) by reflexivity.
  rewrite (bind_eq _ _ _ _ _ Hl).
  destruct (re_search control (f_text f)) as [m|].
  - assert (Hd : when_debug (m0 <- expect AttributeError (Some m) ;; ret (group m0 1)) st
                 = (Ok tt, st)).
    { unfold when_debug. destruct (debug st); reflexivity. }
    rewrite (bind_eq _ _ _ _ _ Hd).
    destruct (group m 1) as [compte|]; [|reflexivity].
    assert (He : expect KeyError (Some compte) st = (Ok compte, st)) by reflexivity.
    rewrite (bind_eq _ _ _ _ _ He), (bind_eq _ _ _ _ _ Hg).
    destruct (String.eqb t "Bourse" || String.eqb t "OPCVM").
    + destruct (re_search code_isin (f_text f)) as [m2|]; [|reflexivity].
      unfold bind, lookup_account. destruct (accountList st !! compte); [|reflexivity].
      destruct (group m2 1); reflexivity.
    + destruct (String.eqb t "DividendeBourse" || String.eqb t "EspeceDividende");
        unfold bind, lookup_account; destruct (accountList st !! compte); reflexivity.
  - unfold bind, when_debug. destruct (debug st); reflexivity.
Qed.

Lemma identify_accountList f self :
  accountList (snd (identify f self)) = accountList self
  /\ debug (snd (identify f self)) = debug self.
Proof.
  destruct (identify_cases f self) as [[Hid _]|[(Hid & _)|(t & Hid & _)]];
    rewrite Hid; split; reflexivity.
Qed.

(** For a trade confirmation or a fund operation, the account that
    [file_account] returns is the entry of the directory for the account
    number of the document, a colon, and the code that follows the ISIN
    label.  The account number is made of 11 digits; the code is made of
    12 characters, each a capital letter, a digit or a comma. *)
Theorem file_account_trade (f : file) (self self' : importer) (t a : string) :
  classified f self t ->
  t = "Bourse" \/ t = "OPCVM" ->
  file_account f self = (Ok (Some a), self') ->
  exists compte entry isin,
    a = entry +:+ ":" +:+ isin
    /\ accountList self !! compte = Some entry
    /\ String.length compte = 11%nat /\ str_forall is_digit compte = true
    /\ String.length isin = 12%nat /\ str_forall is_isin_char isin = true
    /\ (exists m, re_search account_bourse (f_text f) = Some m /\ group m 1 = Some compte)
    /\ (exists m, re_search code_isin (f_text f) = Some m /\ group m 1 = Some isin).
Proof.
  intros Ht Htr Hfa.
  assert (Hc : account_control t = Some account_bourse)
    by (destruct Htr as [-> | ->]; reflexivity).
  assert (Hb : String.eqb t "Bourse" || String.eqb t "OPCVM" = true)
    by (destruct Htr as [-> | ->]; reflexivity).
  rewrite (file_account_run f self t _ Ht Hc) in Hfa. cbv zeta in Hfa. rewrite Hb in Hfa.
  destruct (identify_accountList f self) as [Hacc _]. rewrite Hacc in Hfa.
  destruct (re_search account_bourse (f_text f)) as [m|] eqn:Hm;
    [|destruct (debug _); discriminate].
  destruct (group_shaped is_digit 11 11 account_bourse _ m 1 eq_refl eq_refl
              ltac:(simpl; lia) Hm) as (compte & Hg & Hdig & Hlen).
  rewrite Hg in Hfa.
  destruct (re_search code_isin (f_text f)) as [m2|] eqn:Hm2; [|discriminate].
  destruct (group_shaped is_isin_char 12 12 code_isin _ m2 1 eq_refl eq_refl
              ltac:(simpl; lia) Hm2) as (isin & Hg2 & Hchars & Hlen2).
  rewrite Hg2 in Hfa.
  destruct (accountList self !! compte) as [entry|] eqn:Hl; [|discriminate].
  injection Hfa as <- _.
  exists compte, entry, isin. repeat split; eauto; lia.
Qed.

Lemma file_account_trade_witness :
  classified (bourse_doc "ACHAT COMPTANT") fresh_importer "Bourse"
  /\ file_account (bourse_doc "ACHAT COMPTANT") fresh_importer
     = (Ok (Some "Actif:Bourse:PEA:FR0000120271"), with_type fresh_importer "Bourse")
  /\ exists compte entry isin,
       "Actif:Bourse:PEA:FR0000120271" = entry +:+ ":" +:+ isin
       /\ accountList fresh_importer !! compte = Some entry
       /\ String.length isin = 12%nat.
Proof.
  assert (Ht : classified (bourse_doc "ACHAT COMPTANT") fresh_importer "Bourse").
  { vm_compute. reflexivity. }
  assert (Hfa : file_account (bourse_doc "ACHAT COMPTANT") fresh_importer
                = (Ok (Some "Actif:Bourse:PEA:FR0000120271"),
                   with_type fresh_importer "Bourse")).
  { vm_compute. reflexivity. }
  split; [exact Ht|]. split; [exact Hfa|].
  destruct (file_account_trade _ _ _ "Bourse" _ Ht (or_introl eq_refl) Hfa)
    as (compte & entry & isin & Ha & Hl & _ & _ & Hlen & _).
  exists compte, entry, isin. auto.
Defined.

(** For the four dialects with an account of their own, [file_account]
    returns the entry of the directory for the number read in the
    document: 11 digits for a dividend or checking-account statement, 16
    digits and stars for a card statement, 17 to 19 characters for a
    credit number.  The dividend dialect gets the suffix [:Cash]; the
    checking-account, card and amortization dialects get none. *)
Theorem file_account_own (f : file) (self self' : importer) (t a : string) :
  classified f self t ->
  In t ["DividendeBourse"; "Compte"; "CB"; "Amortissement"] ->
  file_account f self = (Ok (Some a), self') ->
  exists control m compte entry,
    account_control t = Some control
    /\ re_search control (f_text f) = Some m
    /\ group m 1 = Some compte
    /\ accountList self !! compte = Some entry
    /\ a = (if String.eqb t "DividendeBourse" then entry +:+ ":Cash" else entry)
    /\ (if String.eqb t "CB"
        then String.length compte = 16%nat /\ str_forall is_card_char compte = true
        else if String.eqb t "Amortissement"
        then (17 <= String.length compte <= 19)%nat
             /\ str_forall is_credit_char compte = true
        else String.length compte = 11%nat /\ str_forall is_digit compte = true).
Proof.
  intros Ht Hin Hfa.
  assert (Hc : exists control, account_control t = Some control).
  { simpl in Hin. destruct Hin as [<-|[<-|[<-|[<-|[]]]]]; eexists; reflexivity. }
  destruct Hc as [control Hc].
  rewrite (file_account_run f self t _ Ht Hc) in Hfa. cbv zeta in Hfa.
  destruct (identify_accountList f self) as [Hacc _]. rewrite Hacc in Hfa.
  destruct (re_search control (f_text f)) as [m|] eqn:Hm;
    [|destruct (debug _); discriminate].
  destruct (group m 1) as [compte|] eqn:Hg; [|discriminate].
  exists control, m, compte.
  simpl in Hin. destruct Hin as [<-|[<-|[<-|[<-|[]]]]];
    injection Hc as <-; simpl in Hfa |- *;
    destruct (accountList self !! compte) as [entry|] eqn:Hl; try discriminate;
    injection Hfa as <- _; exists entry;
    (split; [reflexivity|]); (split; [exact Hm|]); (split; [exact Hg|]);
    (split; [reflexivity|]); (split; [reflexivity|]).
  - destruct (group_shaped is_digit 11 11 account_cash _ m 1 eq_refl eq_refl
                ltac:(simpl; lia) Hm) as (g & Hg' & Hq & Hlen).
    rewrite Hg in Hg'. injection Hg' as <-. split; [lia|exact Hq].
  - destruct (group_shaped is_digit 11 11 account_compte _ m 1 eq_refl eq_refl
                ltac:(simpl; lia) Hm) as (g & Hg' & Hq & Hlen).
    rewrite Hg in Hg'. injection Hg' as <-. split; [lia|exact Hq].
  - destruct (group_shaped is_card_char 16 16 account_cb _ m 1 eq_refl eq_refl
                ltac:(simpl; lia) Hm) as (g & Hg' & Hq & Hlen).
    rewrite Hg in Hg'. injection Hg' as <-. split; [lia|exact Hq].
  - destruct (group_shaped is_credit_char 17 19 account_amortissement _ m 1 eq_refl eq_refl
                ltac:(simpl; lia) Hm) as (g & Hg' & Hq & Hlen).
    rewrite Hg in Hg'. injection Hg' as <-. split; [lia|exact Hq].
Qed.

Lemma file_account_own_witness :
  classified dividende_doc fresh_importer "DividendeBourse"
  /\ file_account dividende_doc fresh_importer
     = (Ok (Some "Actif:Bourse:PEA:Cash"), with_type fresh_importer "DividendeBourse")
  /\ exists control m compte entry,
       account_control "DividendeBourse" = Some control
       /\ re_search control (f_text dividende_doc) = Some m
       /\ group m 1 = Some compte
       /\ accountList fresh_importer !! compte = Some entry
       /\ "Actif:Bourse:PEA:Cash" = entry +:+ ":Cash".
Proof.
  assert (Ht : classified dividende_doc fresh_importer "DividendeBourse").
  { vm_compute. reflexivity. }
  assert (Hfa : file_account dividende_doc fresh_importer
                = (Ok (Some "Actif:Bourse:PEA:Cash"),
                   with_type fresh_importer "DividendeBourse")).
  { vm_compute. reflexivity. }
  split; [exact Ht|]. split; [exact Hfa|].
  destruct (file_account_own _ _ _ "DividendeBourse" _ Ht ltac:(simpl; tauto) Hfa)
    as (control & m & compte & entry & Hc & Hm & Hg & Hl & Ha & _).
  exists control, m, compte, entry. auto.
Defined.

(** The three other dialects on their example documents. *)
Example file_account_bank_examples :
  fst (file_account (compte_doc 116) fresh_importer) = Ok (Some "Actif:Boursorama:CC")
  /\ fst (file_account cb_doc fresh_importer) = Ok (Some "Passif:Boursorama:CB")
  /\ fst (file_account amortissement_doc fresh_importer) = Ok (Some "Passif:Boursorama:Pret").
Proof. repeat split; vm_compute; reflexivity. Qed.

(** How [file_account] fails, on an instance whose debug flag is set (as
    [__init__] sets it).  When the account number is not found in the
    text, the debug print raises [AttributeError]; when it is found and
    the directory has no entry for it, the lookup raises [KeyError],
    unless the document is a trade or fund document without ISIN label;
    for such a document the method falls off its end and returns [None],
    and this is the only way it returns [None]. *)
Theorem file_account_failures (f : file) (self : importer) (t : string)
    (control : pattern) :
  debug self = true ->
  classified f self t ->
  account_control t = Some control ->
  (re_search control (f_text f) = None ->
   file_account f self = (Raise AttributeError, snd (identify f self)))
  /\ (forall m compte,
        re_search control (f_text f) = Some m -> group m 1 = Some compte ->
        accountList self !! compte = None ->
        if (String.eqb t "Bourse" || String.eqb t "OPCVM")
           && negb (found code_isin (f_text f))
        then file_account f self = (Ok None, snd (identify f self))
        else file_account f self = (Raise KeyError, snd (identify f self)))
  /\ (fst (file_account f self) = Ok None ->
      (t = "Bourse" \/ t = "OPCVM") /\ re_search code_isin (f_text f) = None).
Proof.
  intros Hd Ht Hc. rewrite (file_account_run f self t _ Ht Hc). cbv zeta.
  destruct (identify_accountList f self) as [Hacc Hdbg]. rewrite Hacc, Hdbg, Hd.
  split; [intros ->; reflexivity|]. split.
  - intros m compte -> -> ->. unfold found.
    destruct (String.eqb t "Bourse" || String.eqb t "OPCVM"); simpl.
    + destruct (re_search code_isin (f_text f)) as [m2|].
      * rewrite bool_decide_eq_true_2 by eauto. reflexivity.
      * rewrite bool_decide_eq_false_2 by (intros [? ?]; discriminate). reflexivity.
    + destruct (String.eqb t "DividendeBourse" || String.eqb t "EspeceDividende");
        reflexivity.
  - destruct (re_search control (f_text f)) as [m|]; [|discriminate].
    destruct (group m 1) as [compte|]; [|discriminate].
    destruct (String.eqb t "Bourse" || String.eqb t "OPCVM") eqn:Hb.
    + intros Hr. split.
      * apply orb_true_iff in Hb. destruct Hb as [Hb|Hb]; apply String.eqb_eq in Hb; auto.
      * destruct (re_search code_isin (f_text f)) as [m2|]; [|reflexivity].
        destruct (accountList self !! compte); [|discriminate].
        destruct (group m2 1); discriminate.
    + destruct (String.eqb t "DividendeBourse" || String.eqb t "EspeceDividende");
        destruct (accountList self !! compte); discriminate.
Qed.

Lemma file_account_failures_witness :
  debug fresh_importer = true
  /\ classified two_markers_doc fresh_importer "DividendeBourse"
  /\ re_search account_cash (f_text two_markers_doc) = None
  /\ file_account two_markers_doc fresh_importer
     = (Raise AttributeError, with_type fresh_importer "DividendeBourse").
Proof.
  assert (Ht : classified two_markers_doc fresh_importer "DividendeBourse").
  { vm_compute. reflexivity. }
  assert (Hs : re_search account_cash (f_text two_markers_doc) = None).
  { vm_compute. reflexivity. }
  split; [reflexivity|]. split; [exact Ht|]. split; [exact Hs|].
  exact (proj1 (file_account_failures two_markers_doc fresh_importer "DividendeBourse"
                  account_cash eq_refl Ht eq_refl) Hs).
Defined.

(** A card statement whose card is not in the directory, and a trade
    confirmation without ISIN label. *)
Example file_account_failure_examples :
  fst (file_account cb_doc (__init__ ∅ false)) = Raise KeyError
  /\ fst (file_account
            (pdf "operation.pdf"
               ("OPERATION DE BOURSE" +:+ nl +:+ "40618 00001 00099999999 " +:+ nl))
            fresh_importer) = Ok None.
Proof. split; vm_compute; reflexivity. Qed.

(** ** file_date *)


Section FileDate.
Context `{DateParser}.

Lemma file_date_run f self :
  file_date f self
  = match re_search reference_date (f_text f) with
    | None => (Ok None, self)
    | Some m =>
        match group m 1 with
        | None => (Raise TypeError, self)
        | Some g =>
            match parse_datetime g with
            | Some dt => (Ok (Some dt), self)
            | None => (Raise ParserError, self)
            end
        end
    end.
Proof.
  unfold file_date. destruct (re_search reference_date (f_text f)) as [m|]; [|reflexivity].
  unfold bind, expect, parse_date, expect. destruct (group m 1) as [g|]; [|reflexivity].
  simpl. destruct (parse_datetime g); reflexivity.
Qed.


End FileDate.

(** The reference dates of the example documents. *)
Example file_date_examples :
  fst (file_date (H := parse_dmy) cb_doc fresh_importer) = Ok (Some (Date 2023 3 31))
  /\ fst (file_date (H := parse_dmy) amortissement_doc fresh_importer)
     = Ok (Some (Date 2023 1 5))
  /\ fst (file_date (H := parse_dmy) unmarked_doc fresh_importer) = Ok None
  /\ fst (file_date (H := parse_dmy) (pdf "x.pdf" "Solde au 31/02/2023") fresh_importer)
     = Raise ParserError
  /\ fst (file_date (H := parse_dmy) (pdf "x.pdf" "le //") fresh_importer)
     = Raise ParserError.
Proof. repeat split; vm_compute; reflexivity. Qed.

(** * extract as a whole *)

Section ExtractWhole.
Context `{DateParser}.

Lemma file_date_fst f s1 s2 : fst (file_date f s1) = fst (file_date f s2).
Proof.
  rewrite !file_date_run. destruct (re_search reference_date (f_text f)) as [m|];
    [|reflexivity].
  destruct (group m 1) as [g|]; [|reflexivity]. destruct (parse_datetime g); reflexivity.
Qed.

Lemma file_date_snd f s : snd (file_date f s) = s.
Proof. apply file_date_keeps. Qed.

(** [extract] on an instance that has no type once [identify] has run. *)
Lemma extract_untyped f self :
  type (snd (identify f self)) = None ->
  extract f self
  = match fst (file_date f self) with
    | Ok _ => (Raise AttributeError, self)
    | Raise e => (Raise e, self)
    end.
Proof.
  intros Ht. unfold extract. unfold bind at 1.
  pose proof (file_date_snd f self) as Hs.
  destruct (file_date f self) as [[dt|e] s0]; simpl in Hs |- *; subst s0; [|reflexivity].
  unfold bind at 1. rewrite (file_name_untyped f self Ht). reflexivity.
Qed.


End ExtractWhole.


Section ExtractInstance.
Context `{DateParser}.

(** [extract], whatever the type the instance has once [identify] has run. *)
Lemma extract_run f self :
  extract f self
  = match fst (file_date f self) with
    | Raise e => (Raise e, self)
    | Ok dt =>
        match type (snd (identify f self)) with
        | None => (Raise AttributeError, self)
        | Some t =>
            dialect t f (str_of_date dt +:+ " " +:+ label t) (snd (identify f self))
        end
    end.
Proof.
  destruct (type (snd (identify f self))) as [t|] eqn:Ht.
  - rewrite (extract_dispatch f self t Ht).
    pose proof (file_date_snd f self) as Hs.
    destruct (file_date f self) as [[dt|e] s0]; simpl in Hs |- *; subst; reflexivity.
  - rewrite (extract_untyped f self Ht). destruct (fst (file_date f self)); reflexivity.
Qed.

Lemma extract_snd f self :
  snd (extract f self) = self \/ snd (extract f self) = snd (identify f self).
Proof.
  rewrite extract_run. destruct (fst (file_date f self)) as [dt|e]; [|left; reflexivity].
  destruct (type (snd (identify f self))) as [t|] eqn:Ht; [|left; reflexivity].
  right. apply dialect_keeps, identify_settled.
Qed.

(** [extract] changes the instance as [identify] does and no further: the
    directory and the debug flag are never modified, and the instance it
    leaves is the one [identify] leaves, or the one it was given when
    [extract] raises before it reaches [identify].  After a successful
    [extract] the instance is the one [identify] leaves. *)
Theorem extract_instance (f : file) (self : importer) :
  accountList (snd (extract f self)) = accountList self
  /\ debug (snd (extract f self)) = debug self
  /\ (snd (extract f self) = self \/ snd (extract f self) = snd (identify f self))
  /\ (forall entries, fst (extract f self) = Ok entries ->
        snd (extract f self) = snd (identify f self)
        /\ is_Some (type (snd (extract f self)))).
Proof.
  destruct (identify_accountList f self) as [Ha Hd].
  split; [|split; [|split]].
  - destruct (extract_snd f self) as [-> | ->]; auto.
  - destruct (extract_snd f self) as [-> | ->]; auto.
  - apply extract_snd.
  - intros entries. rewrite extract_run.
    destruct (fst (file_date f self)) as [dt|e]; [|discriminate].
    destruct (type (snd (identify f self))) as [t|] eqn:Ht; [|discriminate].
    intros _.
    pose proof (dialect_keeps t f (str_of_date dt +:+ " " +:+ label t) _
                  (identify_settled f self)) as Hk.
    unfold keeps in Hk. rewrite Hk. split; [reflexivity|]. rewrite Ht. eauto.
Qed.

Lemma identify_twice f self :
  snd (identify f (snd (identify f self))) = snd (identify f self).
Proof. apply identify_settled. Qed.

Lemma extract_after_identify f self :
  fst (extract f (snd (identify f self))) = fst (extract f self).
Proof.
  rewrite !extract_run, identify_twice.
  rewrite (file_date_fst f (snd (identify f self)) self).
  destruct (fst (file_date f self)); [|reflexivity].
  destruct (type (snd (identify f self))); reflexivity.
Qed.

(** What [extract] returns or raises for a document is the same after
    [identify] as before, and the same the second time as the first. *)
Theorem extract_repeatable (f : file) (self : importer) :
  fst (extract f (snd (identify f self))) = fst (extract f self)
  /\ fst (extract f (snd (extract f self))) = fst (extract f self)
  /\ snd (extract f (snd (extract f self))) = snd (extract f self).
Proof.
  split; [apply extract_after_identify|].
  destruct (extract_snd f self) as [Hs|Hs].
  - rewrite Hs. auto.
  - rewrite Hs. split; [apply extract_after_identify|].
    rewrite <- Hs at 2.
    revert Hs. rewrite !extract_run, identify_twice.
    rewrite (file_date_fst f (snd (identify f self)) self).
    destruct (fst (file_date f self)) as [dt|e].
    + destruct (type (snd (identify f self))) as [t|]; simpl; intros Hs.
      * reflexivity.
      * congruence.
    + simpl. congruence.
Qed.

End ExtractInstance.

(** * The records of the dialects *)

(** The iterations of a loop that leaves the instance alone, by rank. *)
Lemma for_each_inv_index {A B} (body : nat -> A -> M (list B)) (l : list A) st :
  (forall i x, keeps (body i x) st) ->
  forall index es st',
    for_each index l body st = (Ok es, st') ->
    exists ess,
      es = concat ess
      /\ length ess = length l
      /\ (forall k x e, l !! k = Some x -> ess !! k = Some e ->
            body (index + k)%nat x st = (Ok e, st))
      /\ st' = st.
Proof.
  intros Hk. induction l as [|x l IH]; intros index es st' Hf; simpl in Hf.
  - apply ret_Ok in Hf. destruct Hf as [-> ->]. exists []. repeat split; auto.
    intros k x e Hl. destruct k; discriminate.
  - apply bind_Ok_keeps in Hf; [|apply Hk]. destruct Hf as (e0 & Hb & Hf).
    apply bind_Ok_keeps in Hf; [|apply keeps_for_each; intros; apply Hk].
    destruct Hf as (es' & Hrest & Hf). apply ret_Ok in Hf. destruct Hf as [-> ->].
    destruct (IH _ _ _ Hrest) as (ess & -> & Hlen & Hall & _).
    exists (e0 :: ess). split; [reflexivity|]. split; [simpl; lia|]. split; [|reflexivity].
    intros k y e Hl He. destruct k as [|k]; simpl in Hl, He.
    + injection Hl as <-. injection He as <-. rewrite Nat.add_0_r. exact Hb.
    + replace (index + S k)%nat with (S index + k)%nat by lia. eapply Hall; eassumption.
Qed.

(** Lists of one-record lists. *)
Lemma singletons_exist {B C} (g : C -> B) (ess : list (list B)) :
  (forall k e, ess !! k = Some e -> exists x, e = [g x]) ->
  exists xs, ess = map (fun x => [g x]) xs.
Proof.
  induction ess as [|e ess IH]; intros Hall.
  - exists []. reflexivity.
  - destruct (Hall 0%nat e eq_refl) as (x & ->).
    destruct IH as (xs & ->); [intros k e He; apply (Hall (S k) e He)|].
    exists (x :: xs). reflexivity.
Qed.

Lemma concat_map_singleton {B C} (g : C -> B) (xs : list C) :
  concat (map (fun x => [g x]) xs) = map g xs.
Proof. induction xs as [|x xs IH]; simpl; [reflexivity|]. rewrite IH. reflexivity. Qed.

Section CB.
Context `{DateParser}.

Lemma cb_transaction_keeps f document compte i chunk st :
  keeps (cb_transaction f document compte i chunk) st.
Proof. unfold cb_transaction. keeps_auto. Qed.

Lemma cb_operation_amount text chunk :
  In chunk (re_findall cb_operation text) ->
  head_is is_digit (normalize_fr (item chunk 2)) = true
  /\ str_forall plain_char (normalize_fr (item chunk 2)) = true.
Proof.
  intros Hin.
  assert (Hc : groups_check french_amount (Nat.eqb 3) (p_regex cb_operation) = true).
  { vm_compute. reflexivity. }
  pose proof (re_findall_item _ cb_operation
                (groups_check_sound french_amount _ (Nat.eqb 3) _ french_amount_sound Hc)
                text chunk 2 Hin eq_refl ltac:(simpl; lia) eq_refl) as [Hh Ha].
  apply normalize_fr_plain; assumption.
Qed.

(** The closing balance, when [solde_final] returns. *)
Lemma solde_final_Ok f document compte longueur g st entries st' :
  head_is is_digit (normalize_fr g) = true ->
  str_forall plain_char (normalize_fr g) = true ->
  solde_final f document compte (signed_balance longueur (normalize_fr g)) st
  = (Ok entries, st') ->
  (entries = [] /\ re_search date_solde_final (f_text f) = None)
  \/ (exists b c a,
        entries = [EBalance b]
        /\ compte = Some c /\ accountList st !! c = Some a
        /\ closing_balance (f_text f) a g (longueur <? 84)%nat b
        /\ b_meta b = metadata f 0 document).
Proof.
  intros Hh Hp Hs. unfold solde_final in Hs.
  destruct (re_search date_solde_final (f_text f)) as [m|] eqn:Hm.
  - right. inv_pure Hs as gd Hgd. apply expect_Ok in Hgd. destruct Hgd as [Hgd _].
    inv_pure Hs as dt Hdt. apply expect_Ok in Hdt. destruct Hdt as [Hdt _].
    inv_pure Hs as c Hc. apply expect_Ok in Hc. destruct Hc as [Hc _].
    inv_pure Hs as a Ha. apply lookup_account_Ok in Ha. destruct Ha as [Ha _].
    inv_pure Hs as n Hn. apply lift_Ok in Hn. destruct Hn as [Hn _].
    apply ret_Ok in Hs. destruct Hs as [-> _].
    destruct (D_signed_balance _ _ _ Hh Hp Hn) as (c0 & e0 & HD & ->).
    eexists _, c, a. split; [reflexivity|]. split; [exact Hc|]. split; [exact Ha|].
    split; [|reflexivity].
    exists c0, e0, m, gd, dt. simpl. repeat split; auto.
  - left. apply ret_Ok in Hs. destruct Hs as [-> _]. auto.
Qed.

(** The records of a card statement: a transaction for each payment line,
    in the order of the lines and numbered from 1, then the closing
    balance if the text has both the debit line and the line that dates
    it.  Every amount is negated.  All the records are on the account
    that the directory gives for the card number of the document. *)
Theorem cb_records (f : file) (self self' : importer) (entries : list entry) :
  classified f self "CB" ->
  extract f self = (Ok entries, self') ->
  exists (txs : list Transaction) (final : list Balance),
    entries = (map ETransaction txs ++ map EBalance final)%list
    /\ length txs = length (re_findall cb_operation (f_text f))
    /\ (length final <= 1)%nat
    /\ (final = [] <->
        re_search cb_debit (f_text f) = None
        \/ re_search date_solde_final (f_text f) = None)
    /\ (entries <> [] ->
        exists m card a,
          re_search account_cb (f_text f) = Some m
          /\ group m 1 = Some card
          /\ accountList self !! card = Some a
          /\ (forall k chunk tx,
                re_findall cb_operation (f_text f) !! k = Some chunk ->
                txs !! k = Some tx -> cb_payment a k chunk tx)
          /\ Forall (fun b =>
                       exists m2 g,
                         re_search cb_debit (f_text f) = Some m2
                         /\ group m2 2 = Some g
                         /\ closing_balance (f_text f) a g true b) final).
Proof.
  intros Ht He. destruct (extract_Ok f self _ entries self' Ht He) as (dt & Hd & _).
  change (dialect "CB" f ?doc) with (extract_cb f doc) in Hd.
  unfold extract_cb in Hd.
  destruct (identify_accountList f self) as [Hacc _].
  set (st := snd (identify f self)) in *. set (text := f_text f) in *.
  set (compte := match re_search account_cb text with
                 | Some m => group m 1
                 | None => None
                 end) in *.
  inv_pure Hd as u Hdebug. clear Hdebug.
  apply bind_Ok_keeps in Hd;
    [|apply keeps_for_each; intros; apply cb_transaction_keeps].
  destruct Hd as (tentries & Htransactions & Hd).
  inv_bind Hd as fentries Hfinal. apply ret_Ok in Hd. destruct Hd as [-> _].
  destruct (for_each_inv_index _ _ st
              (fun i chunk => cb_transaction_keeps f _ compte i chunk st)
              _ _ _ Htransactions)
    as (ess & -> & Hlen & Hall & _).
  (* each payment line *)
  assert (Hline : forall k chunk e,
             re_findall cb_operation text !! k = Some chunk -> ess !! k = Some e ->
             exists tx card a,
               e = [ETransaction tx] /\ compte = Some card
               /\ accountList st !! card = Some a /\ cb_payment a k chunk tx).
  { intros k chunk e Hk He0. pose proof (Hall k chunk e Hk He0) as Hb.
    unfold cb_transaction in Hb.
    inv_pure Hb as c0 Hc0. apply expect_Ok in Hc0. destruct Hc0 as [Hc0 _].
    inv_pure Hb as a0 Ha0. apply lookup_account_Ok in Ha0. destruct Ha0 as [Ha0 _].
    inv_pure Hb as n0 Hn0. apply lift_Ok in Hn0. destruct Hn0 as [Hn0 _].
    inv_pure Hb as dt0 Hdt0. apply expect_Ok in Hdt0. destruct Hdt0 as [Hdt0 _].
    apply ret_Ok in Hb. destruct Hb as [-> _].
    apply list_elem_of_lookup_2, list_elem_of_In in Hk.
    destruct (cb_operation_amount text chunk Hk) as [Hh Hp].
    destruct (Decimal_signed_montant 0 _ _ Hh Hp Hn0) as (c1 & e1 & Hdec & ->).
    eexists _, c0, a0. split; [reflexivity|]. split; [exact Hc0|]. split; [exact Ha0|].
    exists c1, e1. simpl. repeat split; auto. }
  destruct (singletons_exist ETransaction ess) as (txs & ->).
  { intros k e He0. destruct (lookup_lt_is_Some_2 (re_findall cb_operation text) k)
      as [chunk Hk]; [rewrite <- Hlen; eapply lookup_lt_Some; exact He0|].
    destruct (Hline k chunk e Hk He0) as (tx & _ & _ & -> & _). eauto. }
  rewrite concat_map_singleton. rewrite length_map in Hlen.
  (* the closing balance *)
  assert (Hfin : exists final,
             fentries = map EBalance final /\ (length final <= 1)%nat
             /\ (final = [] <->
                 re_search cb_debit text = None \/ re_search date_solde_final text = None)
             /\ Forall (fun b =>
                          exists card a m2 g,
                            compte = Some card /\ accountList st !! card = Some a
                            /\ re_search cb_debit text = Some m2
                            /\ group m2 2 = Some g
                            /\ closing_balance text a g true b) final).
  { destruct (re_search cb_debit text) as [m2|] eqn:Hm2.
    - inv_bind Hfinal as g2 Hg2. apply expect_Ok in Hg2. destruct Hg2 as [Hg2 ->].
      destruct (group_french cb_debit text m2 2 g2 eq_refl ltac:(lia) Hm2 Hg2) as [Hh Hp].
      change ("-" +:+ normalize_fr g2) with (signed_balance 0 (normalize_fr g2)) in Hfinal.
      destruct (solde_final_Ok _ _ _ _ _ _ _ _ Hh Hp Hfinal)
        as [[-> Hnone]|(b & card & a & -> & Hc & Ha & Hb & _)].
      + exists []. split; [reflexivity|]. split; [simpl; lia|]. split; [tauto|constructor].
      + exists [b]. split; [reflexivity|]. split; [simpl; lia|]. split.
        * split; [discriminate|]. intros [Hn|Hn]; [discriminate|].
          destruct Hb as (? & ? & ? & ? & ? & _ & _ & _ & Hs & _). fold text in Hs. congruence.
        * constructor; [|constructor]. exists card, a, m2, g2. auto 10.
    - apply ret_Ok in Hfinal. destruct Hfinal as [-> _].
      exists []. split; [reflexivity|]. split; [simpl; lia|]. split; [tauto|constructor]. }
  destruct Hfin as (final & -> & Hflen & Hfiff & Hfin).
  exists txs, final. split; [reflexivity|]. split; [exact Hlen|]. split; [exact Hflen|].
  split; [exact Hfiff|]. intros Hne.
  (* the account *)
  assert (Hacct : exists card a, compte = Some card /\ accountList st !! card = Some a).
  { destruct txs as [|tx txs].
    - destruct final as [|b final]; [contradiction|].
      apply Forall_inv in Hfin. destruct Hfin as (card & a & _ & _ & Hc & Ha & _). eauto.
    - destruct (lookup_lt_is_Some_2 (re_findall cb_operation text) 0)
        as [chunk Hk]; [rewrite <- Hlen; simpl; lia|].
      destruct (Hline 0%nat chunk [ETransaction tx] Hk eq_refl)
        as (tx' & card & a & _ & Hc & Ha & _). eauto. }
  destruct Hacct as (card & a & Hc & Ha).
  assert (Hm : exists m, re_search account_cb text = Some m /\ group m 1 = Some card).
  { subst compte. destruct (re_search account_cb text) as [m|]; [eauto|discriminate]. }
  destruct Hm as (m & Hm & Hg).
  exists m, card, a. split; [exact Hm|]. split; [exact Hg|].
  split; [rewrite <- Hacc; exact Ha|]. split.
  - intros k chunk tx Hk Htx.
    destruct (Hline k chunk [ETransaction tx] Hk) as (tx' & card' & a' & Hx & Hc' & Ha' & Hpay).
    { rewrite list_lookup_fmap, Htx. reflexivity. }
    injection Hx as <-. congruence.
  - eapply Forall_impl; [exact Hfin|]. intros b (card' & a' & m2 & g & Hc' & Ha' & Hm2 & Hg2 & Hb).
    exists m2, g. split; [exact Hm2|]. split; [exact Hg2|]. congruence.
Qed.

End CB.

Lemma cb_records_witness :
  classified cb_doc fresh_importer "CB"
  /\ exists entries self',
       extract (H := parse_dmy) cb_doc fresh_importer = (Ok entries, self')
       /\ length entries = 2%nat
       /\ exists txs final,
            entries = (map ETransaction txs ++ map EBalance final)%list
            /\ length txs = length (re_findall cb_operation (f_text cb_doc))
            /\ (length final <= 1)%nat.
Proof.
  assert (Ht : classified cb_doc fresh_importer "CB") by (vm_compute; reflexivity).
  split; [exact Ht|].
  destruct (extract (H := parse_dmy) cb_doc fresh_importer) as [[entries|e] self'] eqn:He.
  - exists entries, self'. split; [reflexivity|].
    split; [vm_compute in He; injection He as <- _; reflexivity|].
    destruct (cb_records (H := parse_dmy) _ _ _ _ Ht He)
      as (txs & final & Hentries & Hlen & Hfl & _).
    exists txs, final. auto.
  - vm_compute in He. discriminate He.
Defined.

(** The card statement of the examples: the payment of 45,30 and the
    closing balance, both negated. *)
Example cb_records_example :
  exists tx b self',
    extract (H := parse_dmy) cb_doc fresh_importer
    = (Ok [ETransaction tx; EBalance b], self')
    /\ t_date tx = Date 2023 3 5
    /\ payee tx = "SUPERMARCHE PARIS "
    /\ postings tx
       = [simple_posting (Some "Passif:Boursorama:CB") (Fin true 4530 (-2)) "EUR"]
    /\ t_meta tx !! "lineno" = Some (MInt 1)
    /\ b_date b = IsDate (Date 2023 3 28)
    /\ b_account b = "Passif:Boursorama:CB"
    /\ b_amount b = mkAmount (Fin true 4530 (-2)) "EUR".
Proof.
  do 3 eexists. split; [vm_compute; reflexivity|]. repeat split.
Qed.

Section CompteStatement.
Context `{DateParser}.


End CompteStatement.


(** The statement of the examples: the opening balance is dated the day
    after the 31/01/2023 of its line, the transaction is dated by the
    second date of its line. *)
Example compte_records_example :
  exists initial tx final self',
    extract (H := parse_dmy) (compte_doc 117) fresh_importer
    = (Ok [EBalance initial; ETransaction tx; EBalance final], self')
    /\ b_date initial = IsDate (Date 2023 2 1)
    /\ b_account initial = "Actif:Boursorama:CC"
    /\ t_date tx = Date 2023 2 1
    /\ payee tx = "VIR SEPA LOYER"
    /\ narration tx = Some ""
    /\ t_meta tx !! "lineno" = Some (MInt 1)
    /\ b_date final = IsDate (Date 2023 2 28)
    /\ b_meta final !! "lineno" = Some (MInt 0).
Proof.
  do 4 eexists. split; [vm_compute; reflexivity|]. repeat split.
Qed.

(** ** The key of the account directory *)

Lemma split_on_cons sep s : exists w ws, split_on sep s = w :: ws.
Proof.
  induction s as [|c s IH]; simpl; [eauto|].
  destruct (Ascii.eqb c sep); [eauto|]. destruct IH as (w & ws & ->). eauto.
Qed.

Lemma split_on_no_sep sep s :
  str_forall (fun c => negb (Ascii.eqb c sep)) s = true -> split_on sep s = [s].
Proof.
  induction s as [|c s IH]; simpl; [reflexivity|].
  intros Hs. apply andb_true_iff in Hs. destruct Hs as [Hc Hs].
  apply negb_true_iff in Hc. rewrite Hc, (IH Hs). reflexivity.
Qed.

Lemma last_str_cons w w' ws : last_str (w :: w' :: ws) = last_str (w' :: ws).
Proof. reflexivity. Qed.

(** [(w1 + w2).split(sep)[-1]] when [sep] does not occur in [w2]: what
    follows the last [sep] of [w1], and [w2]. *)
Lemma last_split_app sep (q : ascii -> bool) w2 :
  str_forall (fun c => negb (Ascii.eqb c sep)) w2 = true ->
  forall w1,
    str_forall q w1 = true ->
    exists ws,
      last_str (split_on sep (w1 +:+ w2)) = ws +:+ w2
      /\ str_forall (fun c => q c && negb (Ascii.eqb c sep)) ws = true
      /\ (str_forall (fun c => negb (Ascii.eqb c sep)) w1 = true -> ws = w1).
Proof.
  intros H2. induction w1 as [|c w1 IH]; intros Hq.
  - exists "". rewrite str_app_nil_l, (split_on_no_sep _ _ H2). auto.
  - simpl in Hq. apply andb_true_iff in Hq. destruct Hq as [Hc Hq].
    destruct (IH Hq) as (ws & Hlast & Hws & Hall).
    rewrite str_app_cons. simpl split_on.
    destruct (Ascii.eqb c sep) eqn:Hsep.
    + destruct (split_on_cons sep (w1 +:+ w2)) as (w & wss & Hsp). rewrite Hsp in Hlast |- *.
      rewrite last_str_cons. exists ws. split; [exact Hlast|]. split; [exact Hws|].
      simpl. rewrite Hsep. discriminate.
    + destruct (split_on_cons sep (w1 +:+ w2)) as (w & wss & Hsp). rewrite Hsp in Hlast |- *.
      destruct wss as [|w' wss].
      * exists (String c ws). unfold last_str in Hlast |- *. simpl in Hlast |- *.
        rewrite Hlast. split; [reflexivity|]. rewrite Hc, Hsep, Hws. split; [reflexivity|].
        intros Hn. apply andb_true_iff in Hn. destruct Hn as [_ Hn].
        rewrite (Hall Hn). reflexivity.
      * rewrite last_str_cons. rewrite last_str_cons in Hlast.
        exists ws. split; [exact Hlast|]. split; [exact Hws|].
        simpl. rewrite Hsep. simpl. intros Hn.
        assert (Hnn : str_forall (fun c0 => negb (Ascii.eqb c0 sep)) (w1 +:+ w2) = true)
          by (rewrite str_forall_app, Hn, H2; reflexivity).
        rewrite (split_on_no_sep _ _ Hnn) in Hsp. discriminate.
Qed.

(** The key under which [extract] looks a checking account up in the
    directory is the 11 digits of the account number behind the white
    space, other than ordinary spaces, that comes right in front of them
    in the text.  It is the 11 digits alone, the key of [file_account],
    exactly when there is no such white space. *)
Theorem compte_account_key (text : string) (m : match_obj) :
  re_search compte_numero text = Some m ->
  exists g0 ws ds,
    group m 0 = Some g0
    /\ last_str (split_on " " g0) = ws +:+ ds
    /\ String.length ds = 11%nat
    /\ str_forall is_digit ds = true
    /\ str_forall is_other_space ws = true
    /\ (ws = "" <-> String.length (last_str (split_on " " g0)) = 11%nat).
Proof.
  intros Hm.
  apply (re_search_sound (fun _ _ => True) compte_numero) in Hm;
    [|simpl; tauto].
  destruct Hm as ((g0 & Hg0 & Hlang) & _).
  simpl in Hlang. destruct Hlang as (w1 & w' & -> & H1 & w2 & w3 & -> & H2 & ->).
  rewrite str_app_nil_r in Hg0.
  assert (Hsp : str_forall is_space w1 = true).
  { apply (alphabet_within_sound is_space (star sp)); [vm_compute; reflexivity|exact H1]. }
  destruct (shaped_sound is_digit 11 11 (exactly 11 d) w2 eq_refl H2) as [Hd Hlen].
  assert (Hns : str_forall (fun c => negb (Ascii.eqb c " ")) w2 = true).
  { eapply str_forall_impl; [|exact Hd]. apply implb_all. vm_compute. reflexivity. }
  destruct (last_split_app " " is_space w2 Hns w1 Hsp) as (ws & Hlast & Hws & _).
  exists (w1 +:+ w2), ws, w2. split; [exact Hg0|]. split; [exact Hlast|].
  split; [lia|]. split; [exact Hd|]. split; [exact Hws|].
  rewrite Hlast, str_length_app. split.
  - intros ->. simpl. lia.
  - intros Hl. destruct ws; [reflexivity|simpl in Hl; lia].
Qed.

Lemma compte_account_key_witness :
  exists m g0,
    re_search compte_numero (f_text (compte_doc 116)) = Some m
    /\ group m 0 = Some g0
    /\ last_str (split_on " " g0) = "12345678901".
Proof.
  destruct (re_search compte_numero (f_text (compte_doc 116))) as [m|] eqn:Hm.
  - destruct (compte_account_key _ m Hm) as (g0 & ws & ds & Hg0 & _).
    exists m, g0. split; [reflexivity|]. split; [exact Hg0|].
    vm_compute in Hm. injection Hm as <-. vm_compute in Hg0. injection Hg0 as <-.
    vm_compute. reflexivity.
  - vm_compute in Hm. discriminate Hm.
Defined.

(** An account number at the start of a line: [file_account] finds the
    account, and [extract] looks up the number with the line break in
    front of it. *)
Example compte_account_at_line_start :
  let f := pdf "compte.pdf"
             ("BOURSORAMA BANQUE" +:+ nl +:+ "12345678901 du 01/02/2023 page 1" +:+ nl) in
  fst (file_account f fresh_importer) = Ok (Some "Actif:Boursorama:CC")
  /\ fst (extract (H := parse_dmy) f fresh_importer) = Raise KeyError
  /\ exists m, re_search compte_numero (f_text f) = Some m
               /\ group m 0 = Some (nl +:+ "12345678901").
Proof.
  cbv zeta. split; [vm_compute; reflexivity|]. split; [vm_compute; reflexivity|].
  eexists. split; vm_compute; reflexivity.
Qed.

Lemma dec_add_unsigned c1 e1 c2 e2 :
  exists c e, dec_add (Fin false c1 e1) (Fin false c2 e2) = Ok (Fin false c e).
Proof. unfold dec_add. simpl. eauto. Qed.

Section Trade.
Context `{DateParser}.

(** The transaction that [trade_transaction] builds from the dictionary. *)
Lemma trade_transaction_Ok f document compte (ope : gmap string pyval) frais st
    achat entries st' :
  keeps frais st ->
  ope !! "Achat" = Some (PBool achat) ->
  trade_transaction f document compte ope frais st = (Ok entries, st') ->
  exists c a isin q nq cours np curp total nt cur2 fees cur3 dstr dt tx,
    compte = Some c /\ accountList st !! c = Some a
    /\ ope !! "ISIN" = Some (PStr isin)
    /\ ope !! key_quantite = Some (PStr q) /\ amount_of q = Ok nq
    /\ ope !! "Cours" = Some (PStr cours) /\ amount_of cours = Ok np
    /\ ope !! "currency Cours" = Some (PStr curp)
    /\ ope !! "Montant Total" = Some (PStr total) /\ amount_of total = Ok nt
    /\ ope !! "currency Total" = Some (PStr cur2)
    /\ frais st = (Ok fees, st)
    /\ ope !! "currency Frais" = Some (PStr cur3)
    /\ ope !! "Date" = Some (PStr dstr) /\ parse_datetime dstr = Some dt
    /\ entries = [ETransaction tx]
    /\ t_date tx = dt
    /\ narration tx = Some isin
    /\ t_meta tx = metadata f 0 document
    /\ (exists u1 u2,
          dec_mul nq (if achat then Decimal_one else Decimal_minus_one) = Ok u1
          /\ dec_mul nt (if achat then Decimal_minus_one else Decimal_one) = Ok u2
          /\ postings tx
             = [mkPosting (Some (a +:+ ":" +:+ isin)) (mkAmount u1 isin)
                  (if achat then Some (mkCost np curp) else None)
                  (Some (mkAmount np curp));
                simple_posting (Some (a +:+ ":Cash")) u2 cur2;
                simple_posting (Some "Depenses:Banque:Frais") fees cur3]).
Proof.
  intros Hkf Hachat Hd. unfold trade_transaction in Hd.
  inv_pure Hd as c Hc. apply expect_Ok in Hc. destruct Hc as [Hc _].
  inv_pure Hd as a Ha. apply lookup_account_Ok in Ha. destruct Ha as [Ha _].
  inv_pure Hd as isin Hisin. apply ope_str_Ok in Hisin. destruct Hisin as [Hisin _].
  inv_pure Hd as q Hq. apply ope_str_Ok in Hq. destruct Hq as [Hq _].
  inv_pure Hd as nq Hnq. apply lift_Ok in Hnq. destruct Hnq as [Hnq _].
  inv_pure Hd as achat1 Hachat1. apply ope_true_Ok in Hachat1.
  destruct Hachat1 as (v1 & Hv1 & -> & _).
  rewrite Hachat in Hv1. injection Hv1 as <-.
  inv_pure Hd as un1 Hu1. apply lift_Ok in Hu1. destruct Hu1 as [Hu1 _].
  inv_pure Hd as cur1 Hcur1. apply ope_str_Ok in Hcur1. destruct Hcur1 as [Hcur1 _].
  inv_pure Hd as achat2 Hachat2. apply ope_true_Ok in Hachat2.
  destruct Hachat2 as (v2 & Hv2 & -> & _).
  rewrite Hachat in Hv2. injection Hv2 as <-.
  inv_pure Hd as cost1 Hcost1.
  inv_pure Hd as cours Hcours. apply ope_str_Ok in Hcours. destruct Hcours as [Hcours _].
  inv_pure Hd as np Hnp. apply lift_Ok in Hnp. destruct Hnp as [Hnp _].
  inv_pure Hd as curp Hcurp. apply ope_str_Ok in Hcurp. destruct Hcurp as [Hcurp _].
  inv_pure Hd as c' Hc'. apply expect_Ok in Hc'. destruct Hc' as [Hc' _].
  inv_pure Hd as a2 Ha2. apply lookup_account_Ok in Ha2. destruct Ha2 as [Ha2 _].
  inv_pure Hd as total Htot. apply ope_str_Ok in Htot. destruct Htot as [Htot _].
  inv_pure Hd as nt Hnt. apply lift_Ok in Hnt. destruct Hnt as [Hnt _].
  inv_pure Hd as achat3 Hachat3. apply ope_true_Ok in Hachat3.
  destruct Hachat3 as (v3 & Hv3 & -> & _).
  rewrite Hachat in Hv3. injection Hv3 as <-.
  inv_pure Hd as un2 Hu2. apply lift_Ok in Hu2. destruct Hu2 as [Hu2 _].
  inv_pure Hd as cur2 Hcur2. apply ope_str_Ok in Hcur2. destruct Hcur2 as [Hcur2 _].
  apply bind_Ok_keeps in Hd; [|exact Hkf]. destruct Hd as (un3 & Hu3 & Hd).
  inv_pure Hd as cur3 Hcur3. apply ope_str_Ok in Hcur3. destruct Hcur3 as [Hcur3 _].
  inv_pure Hd as dstr Hdstr. apply ope_str_Ok in Hdstr. destruct Hdstr as [Hdstr _].
  inv_pure Hd as dt' Hdt. apply expect_Ok in Hdt. destruct Hdt as [Hdt _].
  inv_pure Hd as designation Hdes.
  inv_pure Hd as narr Hnarr. apply ope_str_Ok in Hnarr. destruct Hnarr as [Hnarr _].
  apply ret_Ok in Hd. destruct Hd as [-> _].
  assert (a2 = a) as -> by (assert (c' = c) by congruence; subst c'; congruence).
  assert (cur1 = isin) as -> by congruence.
  assert (narr = isin) as -> by congruence.
  assert (Hcost : cost1 = if achat then Some (mkCost np curp) else None).
  { destruct achat.
    - inv_bind Hcost1 as cours1 Hcours1. apply ope_str_Ok in Hcours1.
      destruct Hcours1 as [Hcours1 ->].
      inv_bind Hcost1 as n1 Hn1. apply lift_Ok in Hn1. destruct Hn1 as [Hn1 ->].
      inv_bind Hcost1 as curc Hcurc. apply ope_str_Ok in Hcurc. destruct Hcurc as [Hcurc ->].
      apply ret_Ok in Hcost1. destruct Hcost1 as [-> _].
      assert (cours1 = cours) as -> by congruence.
      assert (curc = curp) as -> by congruence.
      assert (n1 = np) as -> by congruence. reflexivity.
    - apply ret_Ok in Hcost1. destruct Hcost1 as [-> _]. reflexivity. }
  subst cost1.
  exists c, a, isin, q, nq, cours, np, curp, total, nt, cur2, un3, cur3, dstr, dt'.
  eexists. repeat (split; [eassumption || reflexivity|]).
  exists un1, un2. repeat (split; [eassumption|]). reflexivity.
Qed.

End Trade.

Section Opcvm.
Context `{DateParser}.

(** The records of a fund operation: one transaction with three postings.
    The quantity, the net total, the fees and the entry rights are read
    from their patterns as decimals without sign.  With the subscription
    marker in the text, the posting on the fund sub-account carries the
    quantity as read, with a cost, and the cash posting the negated
    total; without the marker the fund posting carries the negated
    quantity, without cost, and the cash posting the total as read.  The
    fee posting carries the sum of the fees and the entry rights. *)
Theorem opcvm_subscription_redemption (f : file) (self self' : importer)
    (entries : list entry) :
  classified f self "OPCVM" ->
  extract f self = (Ok entries, self') ->
  exists q total frais droits (qc tc fc dc sc : N) (qe te fe de se : Z),
    (exists m, re_search opcvm_execution (f_text f) = Some m /\ group m 2 = Some q)
    /\ (exists m, re_search opcvm_montant (f_text f) = Some m
                  /\ group m 7 = Some total /\ group m 5 = Some frais
                  /\ group m 3 = Some droits)
    /\ amount_of q = Ok (Fin false qc qe)
    /\ amount_of total = Ok (Fin false tc te)
    /\ amount_of frais = Ok (Fin false fc fe)
    /\ amount_of droits = Ok (Fin false dc de)
    /\ dec_add (Fin false fc fe) (Fin false dc de) = Ok (Fin false sc se)
    /\ purchase_sale (found souscription (f_text f)) entries
         (Fin false qc qe) (Fin false tc te) (Fin false sc se).
Proof.
  intros Ht He. destruct (extract_Ok f self _ entries self' Ht He) as (dt & Hd & _).
  change (dialect "OPCVM" f ?doc) with (extract_opcvm f doc) in Hd.
  unfold extract_opcvm in Hd.
  inv_bind Hd as u1 Hdebug1. inv_bind Hd as u2 Hdebug2. inv_bind Hd as u3 Hdebug3.
  clear Hdebug1 Hdebug2 Hdebug3.
  set (text := f_text f) in *.
  set (ope1 := ope_set ∅ (re_search opcvm_montant text) _) in Hd.
  set (ope2 := ope_set ope1 (re_search code_isin text) _) in Hd.
  set (ope3 := ope_set ope2 (re_search opcvm_execution text) _) in Hd.
  set (ope4 := ope_set ope3 (re_search opcvm_cours text) _) in Hd.
  set (ope := <["Achat" := PBool (found souscription text)]> ope4) in Hd.
  assert (Hachat : ope !! "Achat" = Some (PBool (found souscription text))).
  { apply lookup_insert_eq. }
  assert (Hquantite : ope !! key_quantite
            = match re_search opcvm_execution text with
              | Some m => Some (of_group (group m 2))
              | None => None
              end).
  { unfold ope. rewrite lookup_insert_ne by (vm_compute; discriminate).
    unfold ope4. rewrite ope_set_out by reflexivity.
    unfold ope3. rewrite (ope_set_in ope2 _ [("Date", 1%nat)] [("Designation", 3%nat)]
                            key_quantite 2) by reflexivity.
    destruct (re_search opcvm_execution text); [reflexivity|].
    unfold ope2. rewrite ope_set_out by reflexivity.
    unfold ope1. rewrite ope_set_out by reflexivity. reflexivity. }
  assert (Hmontant : forall key i pre post,
            [("Montant Total", 7%nat); ("currency Total", 8%nat); ("Frais", 5%nat);
             ("currency Frais", 6%nat); ("Droits", 3%nat); ("currency Droits", 4%nat)]
            = (pre ++ (key, i) :: post)%list ->
            forallb (fun kf : string * nat => negb (String.eqb key kf.1)) post = true ->
            forallb (fun kf : string * nat => negb (String.eqb key kf.1))
              [("ISIN", 1%nat)] = true ->
            forallb (fun kf : string * nat => negb (String.eqb key kf.1))
              [("Date", 1%nat); (key_quantite, 2%nat); ("Designation", 3%nat)] = true ->
            forallb (fun kf : string * nat => negb (String.eqb key kf.1))
              [("Cours", 1%nat); ("currency Cours", 2%nat)] = true ->
            key <> "Achat" ->
            ope !! key
            = match re_search opcvm_montant text with
              | Some m => Some (of_group (group m i))
              | None => None
              end).
  { intros key i pre post Hfields Hpost H2 H3 H4 Hna.
    unfold ope. rewrite lookup_insert_ne by congruence.
    unfold ope4. rewrite ope_set_out by exact H4.
    unfold ope3. rewrite ope_set_out by exact H3.
    unfold ope2. rewrite ope_set_out by exact H2.
    unfold ope1. rewrite Hfields. rewrite (ope_set_in ∅ _ pre post key i) by exact Hpost.
    destruct (re_search opcvm_montant text); reflexivity. }
  pose proof (Hmontant "Montant Total" 7%nat [] _ eq_refl eq_refl eq_refl eq_refl eq_refl
                ltac:(discriminate)) as Htotal.
  pose proof (Hmontant "Frais" 5%nat [_; _] _ eq_refl eq_refl eq_refl eq_refl eq_refl
                ltac:(discriminate)) as Hfrais.
  pose proof (Hmontant "Droits" 3%nat [_; _; _; _] _ eq_refl eq_refl eq_refl eq_refl eq_refl
                ltac:(discriminate)) as Hdroits.
  clear Hmontant. clearbody ope. clear ope1 ope2 ope3 ope4.
  apply trade_transaction_Ok with (achat := found souscription text) in Hd;
    [|solve [keeps_auto]|exact Hachat].
  destruct Hd as (c & a & isin & q & nq & cours & np & curp & total & nt & cur2 & fees
                  & cur3 & dstr & dt' & tx & Hc & Ha & Hisin & Hq & Hnq & Hcours & Hnp
                  & Hcurp & Htot & Hnt & Hcur2 & Hfees & Hcur3 & Hdstr & Hdt & -> & _ & _
                  & _ & un1 & un2 & Hu1 & Hu2 & Hpost).
  inv_pure Hfees as frais Hfr. apply ope_str_Ok in Hfr. destruct Hfr as [Hfr _].
  inv_pure Hfees as nf Hnf. apply lift_Ok in Hnf. destruct Hnf as [Hnf _].
  inv_pure Hfees as droits Hdr. apply ope_str_Ok in Hdr. destruct Hdr as [Hdr _].
  inv_pure Hfees as nd Hnd. apply lift_Ok in Hnd. destruct Hnd as [Hnd _].
  apply lift_Ok in Hfees. destruct Hfees as [Hsum _].
  rewrite Hquantite in Hq. rewrite Htotal in Htot. rewrite Hfrais in Hfr.
  rewrite Hdroits in Hdr.
  destruct (re_search opcvm_execution text) as [me|] eqn:Hme; [|discriminate].
  destruct (re_search opcvm_montant text) as [mm|] eqn:Hmm; [|discriminate].
  injection Hq as Hq. injection Htot as Htot. injection Hfr as Hfr. injection Hdr as Hdr.
  apply of_group_PStr in Hq, Htot, Hfr, Hdr.
  pose proof (group_numeric opcvm_execution _ _ 2 _ eq_refl ltac:(lia) Hme Hq) as Hqn.
  pose proof (group_numeric opcvm_montant _ _ 7 _ eq_refl ltac:(lia) Hmm Htot) as Htn.
  pose proof (group_numeric opcvm_montant _ _ 5 _ eq_refl ltac:(lia) Hmm Hfr) as Hfn.
  pose proof (group_numeric opcvm_montant _ _ 3 _ eq_refl ltac:(lia) Hmm Hdr) as Hdn.
  destruct (amount_of_numeric _ _ Hqn Hnq) as (qc & qe & ->).
  destruct (amount_of_numeric _ _ Htn Hnt) as (tc & te & ->).
  destruct (amount_of_numeric _ _ Hfn Hnf) as (fc & fe & ->).
  destruct (amount_of_numeric _ _ Hdn Hnd) as (dc & de & ->).
  destruct (dec_add_unsigned fc fe dc de) as (sc & se & Hs).
  assert (fees = Fin false sc se) as -> by congruence.
  exists q, total, frais, droits, qc, tc, fc, dc, sc, qe, te, fe, de, se.
  split; [eauto|]. split; [exists mm; auto|].
  split; [exact Hnq|]. split; [exact Hnt|]. split; [exact Hnf|]. split; [exact Hnd|].
  split; [exact Hs|].
  unfold purchase_sale. exists tx. do 3 eexists. exists a, isin.
  split; [reflexivity|]. split; [exact Hpost|].
  split; [reflexivity|]. split; [reflexivity|]. split; [reflexivity|].
  split; [reflexivity|]. split; [reflexivity|]. split; [reflexivity|].
  simpl. destruct (found souscription text).
  - rewrite dec_mul_one in Hu1. rewrite dec_mul_minus_one in Hu2.
    injection Hu1 as <-. injection Hu2 as <-. repeat split. eauto.
  - rewrite dec_mul_minus_one in Hu1. rewrite dec_mul_one in Hu2.
    injection Hu1 as <-. injection Hu2 as <-. repeat split.
Qed.

End Opcvm.

Lemma opcvm_subscription_redemption_witness :
  classified (opcvm_doc "SOUSCRIPTION") fresh_importer "OPCVM"
  /\ exists entries self',
       extract (H := parse_dmy) (opcvm_doc "SOUSCRIPTION") fresh_importer
       = (Ok entries, self')
       /\ purchase_sale true entries
            (Fin false 10 0) (Fin false 50600 (-2)) (Fin false 600 (-2)).
Proof.
  assert (Ht : classified (opcvm_doc "SOUSCRIPTION") fresh_importer "OPCVM").
  { vm_compute. reflexivity. }
  split; [exact Ht|].
  destruct (extract (H := parse_dmy) (opcvm_doc "SOUSCRIPTION") fresh_importer)
    as [[entries|e] self'] eqn:He.
  - exists entries, self'. split; [reflexivity|].
    destruct (opcvm_subscription_redemption (H := parse_dmy) _ _ _ _ Ht He)
      as (q & total & frais & droits & qc & tc & fc & dc & sc & qe & te & fe & de & se
          & _ & _ & _ & _ & _ & _ & _ & Hps).
    vm_compute in He. injection He as <- _.
    destruct Hps as (tx & p1 & p2 & p3 & a & isin & Hent & Hpost & Ha1 & Ha2 & Ha3
                     & Hfees & Hc2 & Hc3 & Hq & Hcost & Htot).
    injection Hent as <-. simpl in Hpost. injection Hpost as <- <- <-.
    simpl in Hfees, Hq, Htot.
    do 4 eexists. exists a, isin.
    split; [reflexivity|]. split; [reflexivity|].
    split; [exact Ha1|]. split; [exact Ha2|]. split; [exact Ha3|].
    split; [reflexivity|]. split; [reflexivity|]. split; [reflexivity|].
    split; [reflexivity|]. split; [exact Hcost|reflexivity].
  - vm_compute in He. discriminate He.
Defined.

(** A redemption: the quantity is negated, the total is not. *)
Example opcvm_redemption_example :
  exists tx self',
    extract (H := parse_dmy) (opcvm_doc "RACHAT") fresh_importer
    = (Ok [ETransaction tx], self')
    /\ postings tx
       = [mkPosting (Some "Actif:Bourse:PEA:FR0010315770")
            (mkAmount (Fin true 10 0) "FR0010315770") None
            (Some (mkAmount (Fin false 5000 (-2)) "EUR"));
          simple_posting (Some "Actif:Bourse:PEA:Cash") (Fin false 50600 (-2)) "EUR";
          simple_posting (Some "Depenses:Banque:Frais") (Fin false 600 (-2)) "EUR"].
Proof.
  do 2 eexists. split; [vm_compute; reflexivity|]. reflexivity.
Qed.

(** A component of a tuple of [findall]: empty when its group took no
    part in the match, and what the group holds otherwise. *)
Lemma re_findall_item_opt (P : nat -> string -> Prop) p text chunk j :
  groups_ok P (p_regex p) ->
  In chunk (re_findall p text) ->
  item chunk j = "" \/ P (S j) (item chunk j).
Proof.
  unfold re_findall. intros Hok Hin.
  apply in_map_iff in Hin. destruct Hin as (m & <- & Hin).
  apply (finditer_sound P p Hok) in Hin. destruct Hin as (_ & Hg & _).
  rewrite item_groups_tuple. destruct (group m (S j)) as [g|] eqn:Heq; [|left; reflexivity].
  right. apply (Hg (S j) g); [lia|exact Heq].
Qed.

Lemma re_findall_numeric p text chunk j :
  groups_check (alphabet_within numeric_char) (Nat.eqb (S j)) (p_regex p) = true ->
  In chunk (re_findall p text) ->
  str_forall numeric_char (item chunk j) = true.
Proof.
  intros Hc Hin.
  destruct (re_findall_item_opt
              (fun i w => Nat.eqb (S j) i = true -> str_forall numeric_char w = true)
              p text chunk j) as [-> | Hq]; auto.
  - apply (groups_check_sound (alphabet_within numeric_char)
             (fun w => str_forall numeric_char w = true) (Nat.eqb (S j))).
    + intros r' w. apply alphabet_within_sound.
    + exact Hc.
  - apply Hq, Nat.eqb_refl.
Qed.

Lemma amount_or_zero_numeric s x :
  str_forall numeric_char s = true -> amount_or_zero s = Ok x ->
  exists c e, x = Fin false c e.
Proof.
  intros Hs. unfold amount_or_zero. destruct (truthy (normalize s)).
  - intros Hx. eapply Decimal_numeric; [|exact Hx]. apply normalize_numeric, Hs.
  - intros [= <-]. unfold Decimal_zero. eauto.
Qed.

Section Dividende.
Context `{DateParser}.

(** [file_account] on the instance [identify] leaves. *)
Lemma file_account_after_identify f self :
  is_Some (type (snd (identify f self))) ->
  fst (file_account f (snd (identify f self))) = fst (file_account f self).
Proof.
  intros [t Ht].
  destruct (account_control t) as [control|] eqn:Hc.
  - rewrite (file_account_run f self t control Ht Hc).
    rewrite (file_account_run f (snd (identify f self)) t control); [|idtac|exact Hc].
    + rewrite identify_twice. reflexivity.
    + rewrite identify_twice. exact Ht.
  - unfold file_account.
    destruct (identify_total f self) as [r Hr].
    destruct (identify_total f (snd (identify f self))) as [r' Hr'].
    rewrite identify_twice in Hr'.
    rewrite (bind_eq _ _ _ _ _ Hr), (bind_eq _ _ _ _ _ Hr').
    unfold bind, get_type. rewrite Ht, Hc. reflexivity.
Qed.

(** The records of a dividend statement: a transaction of three postings
    for each line, in the order of the lines.  The cash posting is on the
    account [file_account] returns for the document. *)
Theorem dividende_records (f : file) (self self' : importer) (entries : list entry) :
  classified f self "DividendeBourse" ->
  extract f self = (Ok entries, self') ->
  exists (compte : option string) (txs : list Transaction),
    fst (file_account f self) = Ok compte
    /\ entries = map ETransaction txs
    /\ Forall2 (dividende_ok compte) (re_findall dividende_line (f_text f)) txs.
Proof.
  intros Ht He. destruct (extract_Ok f self _ entries self' Ht He) as (dt & Hd & _).
  change (dialect "DividendeBourse" f ?doc) with (extract_dividende f doc) in Hd.
  unfold extract_dividende in Hd.
  set (st := snd (identify f self)) in *. set (text := f_text f) in *.
  apply bind_Ok_keeps in Hd; [|apply file_account_keeps, identify_settled].
  destruct Hd as (compte & Hcompte & Hd).
  assert (Hfa : fst (file_account f self) = Ok compte).
  { rewrite <- file_account_after_identify by (rewrite Ht; eauto).
    fold st. rewrite Hcompte. reflexivity. }
  apply for_each_inv_keeps in Hd;
    [|intros; keeps_auto; apply keeps_parse_date].
  destruct Hd as (ess & -> & Hall & _).
  exists compte.
  cut (exists txs,
         concat ess = flat_map (fun t => [ETransaction t]) txs
         /\ Forall2 (dividende_ok compte) (re_findall dividende_line text) txs).
  { intros (txs & Hc0 & Hf0). exists txs. rewrite Hc0, flat_map_singleton. auto. }
  apply Forall2_pairs.
  eapply Forall2_impl_In; [exact Hall|]. clear Hall.
  intros chunk e0 Hin (i & Hb).
  inv_pure Hb as brut Hbrut. apply lift_Ok in Hbrut. destruct Hbrut as [Hbrut _].
  inv_pure Hb as u1 Hu1. apply lift_Ok in Hu1. destruct Hu1 as [Hu1 _].
  inv_pure Hb as w Hw. apply lift_Ok in Hw. destruct Hw as [Hw _].
  inv_pure Hb as sc Hsc. apply lift_Ok in Hsc. destruct Hsc as [Hsc _].
  inv_pure Hb as u2 Hu2. apply lift_Ok in Hu2. destruct Hu2 as [Hu2 _].
  inv_pure Hb as u3 Hu3. apply lift_Ok in Hu3. destruct Hu3 as [Hu3 _].
  inv_pure Hb as dt0 Hdt0. apply expect_Ok in Hdt0. destruct Hdt0 as [Hdt0 _].
  apply ret_Ok in Hb. destruct Hb as [-> _].
  pose proof (re_findall_numeric dividende_line text chunk 4 eq_refl Hin) as H4.
  pose proof (re_findall_numeric dividende_line text chunk 5 eq_refl Hin) as H5.
  pose proof (re_findall_numeric dividende_line text chunk 6 eq_refl Hin) as H6.
  pose proof (re_findall_numeric dividende_line text chunk 7 eq_refl Hin) as H7.
  destruct (amount_of_numeric _ _ H4 Hbrut) as (c4 & e4 & ->).
  destruct (amount_or_zero_numeric _ _ H5 Hw) as (c5 & e5 & ->).
  destruct (amount_of_numeric _ _ H6 Hsc) as (c6 & e6 & ->).
  destruct (amount_of_numeric _ _ H7 Hu3) as (c7 & e7 & ->).
  destruct (dec_add_unsigned c5 e5 c6 e6) as (ct & et & Ht').
  assert (u2 = Fin false ct et) as -> by congruence.
  rewrite dec_mul_minus_one in Hu1. injection Hu1 as <-.
  eexists. split; [reflexivity|].
  exists (Fin false c4 e4), (Fin false c5 e5), (Fin false c6 e6), (Fin false ct et),
    (Fin false c7 e7).
  simpl. repeat split; auto.
Qed.

End Dividende.

Lemma dividende_records_witness :
  classified dividende_doc fresh_importer "DividendeBourse"
  /\ exists entries self',
       extract (H := parse_dmy) dividende_doc fresh_importer = (Ok entries, self')
       /\ length entries = 1%nat
       /\ exists txs,
            entries = map ETransaction txs
            /\ Forall2 (dividende_ok (H := parse_dmy) (Some "Actif:Bourse:PEA:Cash"))
                 (re_findall dividende_line (f_text dividende_doc)) txs.
Proof.
  assert (Ht : classified dividende_doc fresh_importer "DividendeBourse")
    by (vm_compute; reflexivity).
  split; [exact Ht|].
  destruct (extract (H := parse_dmy) dividende_doc fresh_importer)
    as [[entries|e] self'] eqn:He.
  - exists entries, self'. split; [reflexivity|].
    split; [vm_compute in He; injection He as <- _; reflexivity|].
    destruct (dividende_records (H := parse_dmy) _ _ _ _ Ht He)
      as (compte & txs & Hfa & Hentries & Hall).
    assert (Hc : fst (file_account dividende_doc fresh_importer)
                 = Ok (Some "Actif:Bourse:PEA:Cash")) by (vm_compute; reflexivity).
    rewrite Hc in Hfa. injection Hfa as <-.
    exists txs. auto.
  - vm_compute in He. discriminate He.
Defined.

(** The line of the example: 25,00 of dividend, no first withholding,
    7,50 of tax and 17,50 paid. *)
Example dividende_records_example :
  exists tx self',
    extract (H := parse_dmy) dividende_doc fresh_importer = (Ok [ETransaction tx], self')
    /\ t_date tx = Date 2023 3 15
    /\ payee tx = "Dividende pour 10 titres TOTAL SA"
    /\ tags tx = {[ "FR0000120271" ]}
    /\ postings tx
       = [simple_posting (Some "Revenus:Dividendes") (Fin true 2500 (-2)) "EUR";
          simple_posting (Some "Depenses:Impots:IR") (Fin false 750 (-2)) "EUR";
          simple_posting (Some "Actif:Bourse:PEA:Cash") (Fin false 1750 (-2)) "EUR"].
Proof.
  do 2 eexists. split; [vm_compute; reflexivity|]. repeat split.
Qed.

Lemma clean_number_forall q s :
  str_forall q s = true -> str_forall q (clean_number s) = true.
Proof.
  induction s as [|a s IH]; [reflexivity|]. simpl.
  intros [Ha Hs]%andb_true_iff.
  destruct (Ascii.eqb a "," || Ascii.eqb a " "); [apply IH, Hs|].
  simpl. rewrite Ha, (IH Hs). reflexivity.
Qed.

Lemma D_numeric s x :
  str_forall numeric_char s = true -> D s = Ok x -> exists c e, x = Fin false c e.
Proof.
  intros Hs. unfold D. destruct (String.eqb s "").
  - intros [= <-]. unfold Decimal_zero. eauto.
  - destruct (Decimal (clean_number s)) as [y|] eqn:Hd; [|discriminate].
    intros [= <-]. eapply Decimal_numeric; [|exact Hd]. apply clean_number_forall, Hs.
Qed.

Section Espece.
Context `{DateParser}.

(** The records of a cash statement: a balance for each balance line, in
    the order of the lines, on the account [file_account] returns for
    the document with the suffix [:Cash]. *)
Theorem espece_records (f : file) (self self' : importer) (entries : list entry) :
  classified f self "EspeceBourse" ->
  extract f self = (Ok entries, self') ->
  exists (compte : option string) (balances : list Balance),
    fst (file_account f self) = Ok compte
    /\ entries = map EBalance balances
    /\ Forall2 (fun chunk b => exists a, compte = Some a /\ espece_ok a chunk b)
         (re_findall espece_line (f_text f)) balances.
Proof.
  intros Ht He. destruct (extract_Ok f self _ entries self' Ht He) as (dt & Hd & _).
  change (dialect "EspeceBourse" f ?doc) with (extract_espece f doc) in Hd.
  unfold extract_espece in Hd.
  set (st := snd (identify f self)) in *. set (text := f_text f) in *.
  apply bind_Ok_keeps in Hd; [|apply file_account_keeps, identify_settled].
  destruct Hd as (compte & Hcompte & Hd).
  assert (Hfa : fst (file_account f self) = Ok compte).
  { rewrite <- file_account_after_identify by (rewrite Ht; eauto).
    fold st. rewrite Hcompte. reflexivity. }
  apply for_each_inv_keeps in Hd;
    [|intros; keeps_auto; try apply keeps_parse_date;
      apply file_account_keeps, identify_settled].
  destruct Hd as (ess & -> & Hall & _).
  exists compte.
  cut (exists bs,
         concat ess = flat_map (fun b => [EBalance b]) bs
         /\ Forall2 (fun chunk b => exists a, compte = Some a /\ espece_ok a chunk b)
              (re_findall espece_line text) bs).
  { intros (bs & Hc0 & Hf0). exists bs. rewrite Hc0, flat_map_singleton. auto. }
  apply Forall2_pairs.
  eapply Forall2_impl_In; [exact Hall|]. clear Hall.
  intros chunk e0 Hin (i & Hb).
  inv_pure Hb as dt0 Hdt0. apply expect_Ok in Hdt0. destruct Hdt0 as [Hdt0 _].
  apply bind_Ok_keeps in Hb; [|apply file_account_keeps, identify_settled].
  destruct Hb as (compte' & Hcompte' & Hb).
  assert (compte' = compte) as -> by congruence.
  inv_pure Hb as a Ha. apply expect_Ok in Ha. destruct Ha as [Ha _].
  inv_pure Hb as n Hn. apply lift_Ok in Hn. destruct Hn as [Hn _].
  apply ret_Ok in Hb. destruct Hb as [-> _].
  pose proof (re_findall_numeric espece_line text chunk 1 eq_refl Hin) as H1.
  assert (H1' : str_forall numeric_char (replace "," "." (replace " " "" (item chunk 1)))
                = true).
  { apply (replace_chr_forall numeric_char "," "."); [reflexivity|].
    apply (replace_chr_forall numeric_char " " ""); [reflexivity|exact H1]. }
  destruct (D_numeric _ _ H1' Hn) as (c & e & ->).
  eexists. split; [reflexivity|]. exists a. split; [exact Ha|].
  exists c, e. simpl. repeat split; eauto.
Qed.

End Espece.

Lemma espece_records_witness :
  classified espece_doc fresh_importer "EspeceBourse"
  /\ exists entries self',
       extract (H := parse_dmy) espece_doc fresh_importer = (Ok entries, self')
       /\ length entries = 1%nat
       /\ exists balances,
            entries = map EBalance balances
            /\ Forall2 (fun chunk b => espece_ok (H := parse_dmy) "Actif:Bourse:PEA" chunk b)
                 (re_findall espece_line (f_text espece_doc)) balances.
Proof.
  assert (Ht : classified espece_doc fresh_importer "EspeceBourse")
    by (vm_compute; reflexivity).
  split; [exact Ht|].
  destruct (extract (H := parse_dmy) espece_doc fresh_importer)
    as [[entries|e] self'] eqn:He.
  - exists entries, self'. split; [reflexivity|].
    split; [vm_compute in He; injection He as <- _; reflexivity|].
    destruct (espece_records (H := parse_dmy) _ _ _ _ Ht He)
      as (compte & bs & Hfa & Hentries & Hall).
    assert (Hc : fst (file_account espece_doc fresh_importer)
                 = Ok (Some "Actif:Bourse:PEA")) by (vm_compute; reflexivity).
    rewrite Hc in Hfa. injection Hfa as <-.
    exists bs. split; [exact Hentries|].
    eapply Forall2_impl_In; [exact Hall|].
    intros chunk b _ (a & [= <-] & Hok). exact Hok.
  - vm_compute in He. discriminate He.
Defined.

(** The balance of the example: 1 234,56 on the cash sub-account. *)
Example espece_records_example :
  exists b self',
    extract (H := parse_dmy) espece_doc fresh_importer = (Ok [EBalance b], self')
    /\ b_date b = IsDate (Date 2023 1 31)
    /\ b_account b = "Actif:Bourse:PEA:Cash"
    /\ b_amount b = mkAmount (Fin false 123456 (-2)) "EUR".
Proof.
  do 2 eexists. split; [vm_compute; reflexivity|]. repeat split.
Qed.

(** * The metadata of the records *)

Section Metadata.
Context `{DateParser}.

Lemma trade_transaction_stamped f document compte ope frais st entries st' :
  trade_transaction f document compte ope frais st = (Ok entries, st') ->
  Forall (stamped f document) entries.
Proof.
  intros Ht. unfold trade_transaction in Ht. repeat inv_step Ht.
  repeat constructor.
Qed.

Lemma solde_final_stamped f document compte balance st entries st' :
  solde_final f document compte balance st = (Ok entries, st') ->
  Forall (stamped f document) entries.
Proof.
  intros Hs. unfold solde_final in Hs.
  destruct (re_search date_solde_final (f_text f)).
  - repeat inv_step Hs. repeat constructor.
  - inv_step Hs. constructor.
Qed.

(** The records of a branch other than the amortization one carry the
    document name the branch is given. *)
Lemma dialect_stamped t f document st entries st' :
  t <> "Amortissement" ->
  dialect t f document st = (Ok entries, st') ->
  Forall (stamped f document) entries.
Proof.
  intros Hna Hd. unfold dialect in Hd.
  destruct (String.eqb t "DividendeBourse").
  { unfold extract_dividende in Hd. inv_bind Hd as Hcompte. revert Hd. apply for_each_Forall.
    intros i chunk s0 e s' _ Hb. repeat inv_step Hb. repeat constructor. }
  destruct (String.eqb t "EspeceBourse").
  { unfold extract_espece in Hd. inv_bind Hd as Hcompte. revert Hd. apply for_each_Forall.
    intros i chunk s0 e s' _ Hb. repeat inv_step Hb. repeat constructor. }
  destruct (String.eqb t "Bourse").
  { unfold extract_bourse in Hd.
    inv_bind Hd as Hdebug. inv_bind Hd as Hdebug2. inv_bind Hd as Hdebug3.
    apply trade_transaction_stamped in Hd. exact Hd. }
  destruct (String.eqb t "OPCVM").
  { unfold extract_opcvm in Hd.
    inv_bind Hd as Hdebug. inv_bind Hd as Hdebug2. inv_bind Hd as Hdebug3.
    apply trade_transaction_stamped in Hd. exact Hd. }
  destruct (String.eqb t "Compte").
  { unfold extract_compte in Hd.
    inv_bind Hd as Hdebug. inv_bind Hd as Hinitial. destruct a0 as [datebalance balance].
    inv_bind Hd as Hcompte. inv_bind Hd as Haccount. inv_bind Hd as Hnumber.
    inv_bind Hd as Htransactions. inv_bind Hd as Hfinal. inv_step Hd.
    constructor; [repeat split|]. apply Forall_app. split.
    - revert Htransactions. apply for_each_Forall. intros i chunk s6 e s' _ Hb.
      unfold compte_transaction in Hb. repeat inv_step Hb. repeat constructor.
    - destruct (re_search compte_nouveau_solde (f_text f)).
      + inv_bind Hfinal as Hg2. inv_bind Hfinal as Hg1.
        apply solde_final_stamped in Hfinal. exact Hfinal.
      + inv_step Hfinal. constructor. }
  destruct (String.eqb_spec t "Amortissement") as [Heq|_]; [contradiction|].
  destruct (String.eqb t "CB").
  { unfold extract_cb in Hd.
    inv_bind Hd as Hdebug. inv_bind Hd as Htransactions. inv_bind Hd as Hfinal.
    inv_step Hd. apply Forall_app. split.
    - revert Htransactions. apply for_each_Forall. intros i chunk s6 e s' _ Hb.
      unfold cb_transaction in Hb. repeat inv_step Hb. repeat constructor.
    - destruct (re_search cb_debit (f_text f)).
      + inv_bind Hfinal as Hg2. apply solde_final_stamped in Hfinal. exact Hfinal.
      + inv_step Hfinal. constructor. }
  inv_step Hd. constructor.
Qed.

(** Every record of a dialect other than the amortization one carries
    the name of the file it comes from, the origin [pdfbourso], and as
    document name the reference date of the document, a space, and the
    name [file_name] returns.  When the text has no reference date, the
    document name starts with [None]. *)
Theorem document_name (f : file) (self self' : importer) (t : string)
    (entries : list entry) :
  classified f self t ->
  t <> "Amortissement" ->
  extract f self = (Ok entries, self') ->
  exists d name,
    fst (file_date f self) = Ok d
    /\ fst (file_name f self) = Ok name
    /\ Forall (fun e =>
                 entry_meta e !! "filename" = Some (MStr (f_name f))
                 /\ entry_meta e !! "source" = Some (MStr "pdfbourso")
                 /\ entry_meta e !! "document"
                    = Some (MStr (str_of_date d +:+ " " +:+ name))) entries
    /\ (re_search reference_date (f_text f) = None ->
        Forall (fun e => entry_meta e !! "document" = Some (MStr ("None " +:+ name)))
          entries).
Proof.
  intros Ht Hna He. rewrite extract_run in He. unfold classified in Ht. rewrite Ht in He.
  destruct (fst (file_date f self)) as [d|e] eqn:Hd; [|discriminate].
  exists d, (label t). split; [reflexivity|].
  split; [rewrite (file_name_eq f self t Ht); reflexivity|].
  pose proof (dialect_stamped t f _ _ _ _ Hna He) as Hall.
  split; [exact Hall|].
  intros Hno. rewrite file_date_run, Hno in Hd. injection Hd as <-.
  eapply Forall_impl; [exact Hall|]. intros e (_ & _ & Hdoc). exact Hdoc.
Qed.

End Metadata.

Lemma document_name_witness :
  classified cb_sans_date_doc fresh_importer "CB"
  /\ re_search reference_date (f_text cb_sans_date_doc) = None
  /\ exists entries self',
       extract (H := parse_dmy) cb_sans_date_doc fresh_importer = (Ok entries, self')
       /\ length entries = 1%nat
       /\ Forall (fun e =>
                    entry_meta e !! "document"
                    = Some (MStr ("None Relev" +:+ chr e_acute +:+ " CB.pdf"))) entries.
Proof.
  assert (Ht : classified cb_sans_date_doc fresh_importer "CB")
    by (vm_compute; reflexivity).
  assert (Hno : re_search reference_date (f_text cb_sans_date_doc) = None)
    by (vm_compute; reflexivity).
  split; [exact Ht|]. split; [exact Hno|].
  destruct (extract (H := parse_dmy) cb_sans_date_doc fresh_importer)
    as [[entries|e] self'] eqn:He.
  - exists entries, self'. split; [reflexivity|].
    split; [vm_compute in He; injection He as <- _; reflexivity|].
    destruct (document_name (H := parse_dmy) _ _ _ "CB" _ Ht ltac:(discriminate) He)
      as (d & name & _ & Hname & _ & Hnone).
    assert (Hn : fst (file_name cb_sans_date_doc fresh_importer)
                 = Ok ("Relev" +:+ chr e_acute +:+ " CB.pdf")) by (vm_compute; reflexivity).
    rewrite Hn in Hname. injection Hname as <-. exact (Hnone Hno).
  - vm_compute in He. discriminate He.
Defined.

(** A dated document: the ISO date of the reference date comes first. *)
Example document_name_example :
  exists tx b self',
    extract (H := parse_dmy) cb_doc fresh_importer
    = (Ok [ETransaction tx; EBalance b], self')
    /\ t_meta tx !! "document"
       = Some (MStr ("2023-03-31 Relev" +:+ chr e_acute +:+ " CB.pdf"))
    /\ t_meta tx !! "filename" = Some (MStr "carte.pdf").
Proof.
  do 3 eexists. split; [vm_compute; reflexivity|]. split; reflexivity.
Qed.

(** * Documents without an account number *)

Section NoAccount.
Context `{DateParser}.

(** When the text of a document has no account number, [extract] builds
    no record on an instance whose debug flag is set (as [__init__] sets
    it): in the five branches that search the number themselves, the
    debug print of the variable that was never bound raises
    [UnboundLocalError]; in the dividend and cash branches, which call
    [file_account], its debug print raises [AttributeError]. *)
Theorem extract_without_account (f : file) (self : importer) (t : string)
    (d : option date) :
  debug self = true ->
  classified f self t ->
  fst (file_date f self) = Ok d ->
  (forall p,
     In (t, p) [("Bourse", account_bourse); ("OPCVM", account_bourse);
                ("Compte", compte_numero); ("Amortissement", account_amortissement);
                ("CB", account_cb)] ->
     re_search p (f_text f) = None ->
     extract f self = (Raise UnboundLocalError, snd (identify f self)))
  /\ (t = "DividendeBourse" \/ t = "EspeceBourse" ->
      re_search account_cash (f_text f) = None ->
      extract f self = (Raise AttributeError, snd (identify f self))).
Proof.
  intros Hdbg Ht Hd. rewrite extract_run, Hd. unfold classified in Ht. rewrite Ht.
  destruct (identify_accountList f self) as [_ Hdbg']. rewrite Hdbg in Hdbg'.
  set (st := snd (identify f self)) in *.
  split.
  - intros p Hin Hno. simpl in Hin.
    destruct Hin as [[= <- <-]|[[= <- <-]|[[= <- <-]|[[= <- <-]|[[= <- <-]|[]]]]]];
      unfold dialect; simpl;
      [unfold extract_bourse|unfold extract_opcvm|unfold extract_compte
      |unfold extract_amortissement|unfold extract_cb];
      rewrite Hno; unfold bind at 1; unfold when_debug; rewrite Hdbg'; reflexivity.
  - intros Hty Hno.
    assert (Hfa : file_account f st = (Raise AttributeError, st)).
    { assert (Hc : account_control t = Some account_cash)
        by (destruct Hty as [-> | ->]; reflexivity).
      rewrite (file_account_run f st t account_cash); [|subst st; rewrite identify_twice; exact Ht|exact Hc].
      cbv zeta. subst st. rewrite identify_twice, Hno, Hdbg'. reflexivity. }
    destruct Hty as [-> | ->]; unfold dialect; simpl;
      [unfold extract_dividende|unfold extract_espece];
      unfold bind at 1; rewrite Hfa; reflexivity.
Qed.

End NoAccount.

Lemma extract_without_account_witness :
  debug fresh_importer = true
  /\ classified two_markers_doc fresh_importer "DividendeBourse"
  /\ fst (file_date (H := parse_dmy) two_markers_doc fresh_importer) = Ok None
  /\ re_search account_cash (f_text two_markers_doc) = None
  /\ extract (H := parse_dmy) two_markers_doc fresh_importer
     = (Raise AttributeError, with_type fresh_importer "DividendeBourse").
Proof.
  assert (Ht : classified two_markers_doc fresh_importer "DividendeBourse")
    by (vm_compute; reflexivity).
  assert (Hd : fst (file_date (H := parse_dmy) two_markers_doc fresh_importer) = Ok None)
    by (vm_compute; reflexivity).
  assert (Hno : re_search account_cash (f_text two_markers_doc) = None)
    by (vm_compute; reflexivity).
  split; [reflexivity|]. split; [exact Ht|]. split; [exact Hd|]. split; [exact Hno|].
  exact (proj2 (extract_without_account (H := parse_dmy) two_markers_doc fresh_importer
                  "DividendeBourse" None eq_refl Ht Hd) (or_introl eq_refl) Hno).
Defined.

(** A card statement without card number, and a checking-account
    statement whose number is not in the directory. *)
Example extract_without_account_examples :
  fst (extract (H := parse_dmy)
         (pdf "carte.pdf" ("Relev" +:+ chr e_acute +:+ " de Carte" +:+ nl)) fresh_importer)
  = Raise UnboundLocalError
  /\ fst (extract (H := parse_dmy) (compte_doc 116) (__init__ ∅ false)) = Raise KeyError.
Proof. split; vm_compute; reflexivity. Qed.

(** * The account of the records and [file_account] *)

Lemma for_each_Forall_keeps {A B} (P : B -> Prop) (body : nat -> A -> M (list B))
    (l : list A) st :
  (forall i x, keeps (body i x) st) ->
  (forall i x e, In x l -> body i x st = (Ok e, st) -> Forall P e) ->
  forall index es st',
    for_each index l body st = (Ok es, st') -> Forall P es.
Proof.
  intros Hk HP index es st' Hf.
  destruct (for_each_inv_keeps _ _ _ Hk _ _ _ Hf) as (ess & -> & Hall & _).
  clear Hf. induction Hall as [|x e l ess (i & Hb) _ IH]; simpl; [constructor|].
  apply Forall_app. split.
  - apply (HP i x e); [left; reflexivity|exact Hb].
  - apply IH. intros j y e' Hin. apply HP. right. exact Hin.
Qed.

Section Accounts.
Context `{DateParser}.

Lemma solde_final_account f document compte balance st entries st' :
  solde_final f document compte balance st = (Ok entries, st') ->
  Forall (fun e => exists c a, compte = Some c /\ accountList st !! c = Some a
                               /\ entry_accounts e = [Some a]) entries.
Proof.
  intros Hs. unfold solde_final in Hs.
  destruct (re_search date_solde_final (f_text f)).
  - inv_pure Hs as gd Hgd. inv_pure Hs as dt Hdt.
    inv_pure Hs as c Hc. apply expect_Ok in Hc. destruct Hc as [Hc _].
    inv_pure Hs as a Ha. apply lookup_account_Ok in Ha. destruct Ha as [Ha _].
    inv_pure Hs as n Hn. apply ret_Ok in Hs. destruct Hs as [-> _].
    constructor; [|constructor]. exists c, a. auto.
  - apply ret_Ok in Hs. destruct Hs as [-> _]. constructor.
Qed.

(** The account of a branch: the entry of the directory for group 1 of
    the account pattern [p]. *)
Lemma compte_found p text (c : string) :
  match re_search p text with
  | Some m => group m 1
  | None => None
  end = Some c ->
  exists m, re_search p text = Some m /\ group m 1 = Some c.
Proof. destruct (re_search p text) as [m|]; [eauto|discriminate]. Qed.

Lemma cb_accounts f document st entries st' :
  extract_cb f document st = (Ok entries, st') ->
  Forall (fun e =>
            exists m c a,
              re_search account_cb (f_text f) = Some m /\ group m 1 = Some c
              /\ accountList st !! c = Some a
              /\ entry_accounts e = [Some a]) entries.
Proof.
  unfold extract_cb. intros Hd.
  inv_pure Hd as u Hdebug. clear Hdebug.
  apply bind_Ok_keeps in Hd;
    [|apply keeps_for_each; intros; apply cb_transaction_keeps].
  destruct Hd as (tentries & Htransactions & Hd).
  inv_bind Hd as fentries Hfinal. apply ret_Ok in Hd. destruct Hd as [-> _].
  apply Forall_app. split.
  - revert Htransactions. apply for_each_Forall_keeps.
    { intros; apply cb_transaction_keeps. }
    intros i chunk e _ Hb. unfold cb_transaction in Hb.
    inv_pure Hb as c0 Hc0. apply expect_Ok in Hc0. destruct Hc0 as [Hc0 _].
    inv_pure Hb as a0 Ha0. apply lookup_account_Ok in Ha0. destruct Ha0 as [Ha0 _].
    inv_pure Hb as n0 Hn0. inv_pure Hb as dt0 Hdt0.
    apply ret_Ok in Hb. destruct Hb as [-> _].
    constructor; [|constructor].
    destruct (compte_found _ _ _ Hc0) as (mc & Hm & Hg). exists mc, c0, a0. auto.
  - destruct (re_search cb_debit (f_text f)).
    + inv_bind Hfinal as g2 Hg2. apply expect_Ok in Hg2. destruct Hg2 as [Hg2 ->].
      apply solde_final_account in Hfinal.
      eapply Forall_impl; [exact Hfinal|]. intros e (c & a & Hc & Ha & He).
      destruct (compte_found _ _ _ Hc) as (mc & Hm & Hg). exists mc, c, a. auto.
    + apply ret_Ok in Hfinal. destruct Hfinal as [-> _]. constructor.
Qed.

Lemma amortissement_accounts f st entries st' :
  extract_amortissement f st = (Ok entries, st') ->
  Forall (fun e =>
            exists m c a,
              re_search account_amortissement (f_text f) = Some m
              /\ group m 1 = Some c
              /\ accountList st !! c = Some a
              /\ In (Some a) (entry_accounts e)) entries.
Proof.
  unfold extract_amortissement. intros Hd.
  inv_pure Hd as u Hdebug. clear Hdebug.
  revert Hd. apply for_each_Forall_keeps.
  { intros. unfold amortissement_echeance. keeps_auto; apply keeps_parse_date. }
  intros i chunk e _ Hb. unfold amortissement_echeance in Hb.
  inv_pure Hb as d0 Hd0. inv_pure Hb as n1 Hn1. inv_pure Hb as n2 Hn2.
  inv_pure Hb as n3 Hn3. inv_pure Hb as n4 Hn4. inv_pure Hb as n5 Hn5.
  inv_pure Hb as c0 Hc0. apply expect_Ok in Hc0. destruct Hc0 as [Hc0 _].
  inv_pure Hb as a0 Ha0. apply lookup_account_Ok in Ha0. destruct Ha0 as [Ha0 _].
  inv_pure Hb as d1 Hd1.
  inv_pure Hb as c1 Hc1. apply expect_Ok in Hc1. destruct Hc1 as [Hc1 _].
  inv_pure Hb as a1 Ha1. apply lookup_account_Ok in Ha1. destruct Ha1 as [Ha1 _].
  apply ret_Ok in Hb. destruct Hb as [-> _].
  assert (c1 = c0) as -> by congruence. assert (a1 = a0) as -> by congruence.
  destruct (compte_found _ _ _ Hc0) as (mc & Hm & Hg).
  constructor; [|constructor; [|constructor]]; exists mc, c0, a0;
    (split; [exact Hm|]); (split; [exact Hg|]); (split; [exact Ha0|]); simpl; tauto.
Qed.

(** The key [ISIN] of the dictionary of the two trade branches. *)
Lemma bourse_isin f document st entries st' :
  extract_bourse f document st = (Ok entries, st') ->
  exists m c a m2 isin tx,
    re_search account_bourse (f_text f) = Some m /\ group m 1 = Some c
    /\ accountList st !! c = Some a
    /\ re_search code_isin (f_text f) = Some m2 /\ group m2 1 = Some isin
    /\ entries = [ETransaction tx]
    /\ map account (postings tx)
       = [Some (a +:+ ":" +:+ isin); Some (a +:+ ":Cash"); Some "Depenses:Banque:Frais"].
Proof.
  unfold extract_bourse. intros Hd.
  inv_pure Hd as u1 Hdebug1. inv_pure Hd as u2 Hdebug2. inv_pure Hd as u3 Hdebug3.
  clear Hdebug1 Hdebug2 Hdebug3.
  set (text := f_text f) in *.
  set (ope1 := ope_set ∅ (re_search bourse_montant text) _) in Hd.
  set (ope2 := ope_set ope1 (re_search bourse_frais text) _) in Hd.
  set (ope3 := ope_set ope2 (re_search code_isin text) _) in Hd.
  set (ope4 := ope_set ope3 (re_search bourse_execution text) _) in Hd.
  set (ope5 := ope_set ope4 (re_search bourse_cours text) _) in Hd.
  set (ope := <["Achat" := PBool (found achat_comptant text)]> ope5) in Hd.
  assert (Hachat : ope !! "Achat" = Some (PBool (found achat_comptant text))).
  { apply lookup_insert_eq. }
  assert (Hisin : ope !! "ISIN"
            = match re_search code_isin text with
              | Some m => Some (of_group (group m 1))
              | None => None
              end).
  { unfold ope. rewrite lookup_insert_ne by (vm_compute; discriminate).
    unfold ope5. rewrite ope_set_out by reflexivity.
    unfold ope4. rewrite ope_set_out by reflexivity.
    unfold ope3. rewrite (ope_set_in ope2 _ [] [] "ISIN" 1) by reflexivity.
    destruct (re_search code_isin text); [reflexivity|].
    unfold ope2. rewrite ope_set_out by reflexivity.
    unfold ope1. rewrite ope_set_out by reflexivity. reflexivity. }
  clearbody ope. clear ope1 ope2 ope3 ope4 ope5.
  apply trade_transaction_Ok with (achat := found achat_comptant text) in Hd;
    [|solve [keeps_auto]|exact Hachat].
  destruct Hd as (c & a & isin & q & nq & cours & np & curp & total & nt & cur2 & fees
                  & cur3 & dstr & dt' & tx & Hc & Ha & Hi & _ & _ & _ & _
                  & _ & _ & _ & _ & _ & _ & _ & _ & -> & _ & _
                  & _ & un1 & un2 & _ & _ & Hpost).
  rewrite Hisin in Hi.
  destruct (re_search code_isin text) as [m2|] eqn:Hm2; [|discriminate].
  injection Hi as Hi. apply of_group_PStr in Hi.
  destruct (compte_found _ _ _ Hc) as (mc & Hm & Hg).
  exists mc, c, a, m2, isin, tx. rewrite Hpost. auto 10.
Qed.

Lemma opcvm_isin f document st entries st' :
  extract_opcvm f document st = (Ok entries, st') ->
  exists m c a m2 isin tx,
    re_search account_bourse (f_text f) = Some m /\ group m 1 = Some c
    /\ accountList st !! c = Some a
    /\ re_search code_isin (f_text f) = Some m2 /\ group m2 1 = Some isin
    /\ entries = [ETransaction tx]
    /\ map account (postings tx)
       = [Some (a +:+ ":" +:+ isin); Some (a +:+ ":Cash"); Some "Depenses:Banque:Frais"].
Proof.
  unfold extract_opcvm. intros Hd.
  inv_pure Hd as u1 Hdebug1. inv_pure Hd as u2 Hdebug2. inv_pure Hd as u3 Hdebug3.
  clear Hdebug1 Hdebug2 Hdebug3.
  set (text := f_text f) in *.
  set (ope1 := ope_set ∅ (re_search opcvm_montant text) _) in Hd.
  set (ope2 := ope_set ope1 (re_search code_isin text) _) in Hd.
  set (ope3 := ope_set ope2 (re_search opcvm_execution text) _) in Hd.
  set (ope4 := ope_set ope3 (re_search opcvm_cours text) _) in Hd.
  set (ope := <["Achat" := PBool (found souscription text)]> ope4) in Hd.
  assert (Hachat : ope !! "Achat" = Some (PBool (found souscription text))).
  { apply lookup_insert_eq. }
  assert (Hisin : ope !! "ISIN"
            = match re_search code_isin text with
              | Some m => Some (of_group (group m 1))
              | None => None
              end).
  { unfold ope. rewrite lookup_insert_ne by (vm_compute; discriminate).
    unfold ope4. rewrite ope_set_out by reflexivity.
    unfold ope3. rewrite ope_set_out by reflexivity.
    unfold ope2. rewrite (ope_set_in ope1 _ [] [] "ISIN" 1) by reflexivity.
    destruct (re_search code_isin text); [reflexivity|].
    unfold ope1. rewrite ope_set_out by reflexivity. reflexivity. }
  clearbody ope. clear ope1 ope2 ope3 ope4.
  apply trade_transaction_Ok with (achat := found souscription text) in Hd;
    [|solve [keeps_auto]|exact Hachat].
  destruct Hd as (c & a & isin & q & nq & cours & np & curp & total & nt & cur2 & fees
                  & cur3 & dstr & dt' & tx & Hc & Ha & Hi & _ & _ & _ & _
                  & _ & _ & _ & _ & _ & _ & _ & _ & -> & _ & _
                  & _ & un1 & un2 & _ & _ & Hpost).
  rewrite Hisin in Hi.
  destruct (re_search code_isin text) as [m2|] eqn:Hm2; [|discriminate].
  injection Hi as Hi. apply of_group_PStr in Hi.
  destruct (compte_found _ _ _ Hc) as (mc & Hm & Hg).
  exists mc, c, a, m2, isin, tx. rewrite Hpost. auto 10.
Qed.

(** For a trade, a fund operation, an amortization table and a card
    statement, the records of a successful [extract] are on the account
    that [file_account] returns for the document: it is the account of
    the single posting of a card payment and of the card balance, the
    account of the principal posting and of the balance of an
    amortization line, and the account of the security posting of a
    trade. *)
Theorem records_on_file_account (f : file) (self self' : importer) (t : string)
    (entries : list entry) :
  classified f self t ->
  In t ["Bourse"; "OPCVM"; "Amortissement"; "CB"] ->
  extract f self = (Ok entries, self') ->
  entries <> [] ->
  exists a,
    fst (file_account f self) = Ok (Some a)
    /\ Forall (fun e => In (Some a) (entry_accounts e)) entries
    /\ (t = "CB" -> Forall (fun e => entry_accounts e = [Some a]) entries).
Proof.
  intros Ht Hin He Hne. rewrite extract_run in He. unfold classified in Ht.
  rewrite Ht in He. destruct (fst (file_date f self)) as [d|]; [|discriminate].
  destruct (identify_accountList f self) as [Hacc _].
  set (st := snd (identify f self)) in *.
  simpl in Hin. destruct Hin as [<-|[<-|[<-|[<-|[]]]]].
  - change (dialect "Bourse" f ?doc) with (extract_bourse f doc) in He.
    destruct (bourse_isin _ _ _ _ _ He)
      as (m & c & a & m2 & isin & tx & Hm & Hg & Ha & Hm2 & Hg2 & -> & Hpost).
    exists (a +:+ ":" +:+ isin). split.
    + rewrite (file_account_run f self "Bourse" account_bourse Ht eq_refl). cbv zeta.
      fold st. rewrite Hm, Hg. simpl. rewrite Hm2, Ha, Hg2. reflexivity.
    + split; [|discriminate]. constructor; [|constructor]. simpl. rewrite Hpost. left. reflexivity.
  - change (dialect "OPCVM" f ?doc) with (extract_opcvm f doc) in He.
    destruct (opcvm_isin _ _ _ _ _ He)
      as (m & c & a & m2 & isin & tx & Hm & Hg & Ha & Hm2 & Hg2 & -> & Hpost).
    exists (a +:+ ":" +:+ isin). split.
    + rewrite (file_account_run f self "OPCVM" account_bourse Ht eq_refl). cbv zeta.
      fold st. rewrite Hm, Hg. simpl. rewrite Hm2, Ha, Hg2. reflexivity.
    + split; [|discriminate]. constructor; [|constructor]. simpl. rewrite Hpost. left. reflexivity.
  - change (dialect "Amortissement" f ?doc) with (extract_amortissement f) in He.
    pose proof (amortissement_accounts _ _ _ _ He) as Hall.
    destruct entries as [|e0 entries]; [contradiction|].
    pose proof (Forall_inv Hall) as (m & c & a & Hm & Hg & Ha & _).
    exists a. split.
    + rewrite (file_account_run f self "Amortissement" account_amortissement Ht eq_refl).
      cbv zeta. fold st. rewrite Hm, Hg. simpl. rewrite Ha. reflexivity.
    + split; [|discriminate]. eapply Forall_impl; [exact Hall|].
      intros e (m' & c' & a' & Hm' & Hg' & Ha' & He'). congruence.
  - change (dialect "CB" f ?doc) with (extract_cb f doc) in He.
    pose proof (cb_accounts _ _ _ _ _ He) as Hall.
    destruct entries as [|e0 entries]; [contradiction|].
    pose proof (Forall_inv Hall) as (m & c & a & Hm & Hg & Ha & _).
    exists a. split.
    + rewrite (file_account_run f self "CB" account_cb Ht eq_refl).
      cbv zeta. fold st. rewrite Hm, Hg. simpl. rewrite Ha. reflexivity.
    + assert (Hall' : Forall (fun e => entry_accounts e = [Some a]) (e0 :: entries)).
      { eapply Forall_impl; [exact Hall|].
        intros e (m' & c' & a' & Hm' & Hg' & Ha' & He'). congruence. }
      split; [|intros _; exact Hall'].
      eapply Forall_impl; [exact Hall'|]. intros e ->. left. reflexivity.
Qed.

End Accounts.

Lemma records_on_file_account_witness :
  classified (bourse_doc "ACHAT COMPTANT") fresh_importer "Bourse"
  /\ exists entries self',
       extract (H := parse_dmy) (bourse_doc "ACHAT COMPTANT") fresh_importer
       = (Ok entries, self')
       /\ entries <> []
       /\ fst (file_account (bourse_doc "ACHAT COMPTANT") fresh_importer)
          = Ok (Some "Actif:Bourse:PEA:FR0000120271")
       /\ Forall (fun e => In (Some "Actif:Bourse:PEA:FR0000120271") (entry_accounts e))
            entries.
Proof.
  assert (Ht : classified (bourse_doc "ACHAT COMPTANT") fresh_importer "Bourse")
    by (vm_compute; reflexivity).
  split; [exact Ht|].
  destruct (extract (H := parse_dmy) (bourse_doc "ACHAT COMPTANT") fresh_importer)
    as [[entries|e] self'] eqn:He.
  - exists entries, self'. split; [reflexivity|].
    assert (Hne : entries <> []).
    { vm_compute in He. injection He as <- _. discriminate. }
    split; [exact Hne|].
    destruct (records_on_file_account (H := parse_dmy) _ _ _ "Bourse" _ Ht
                ltac:(simpl; tauto) He Hne) as (a & Hfa & Hall & _).
    assert (Hc : fst (file_account (bourse_doc "ACHAT COMPTANT") fresh_importer)
                 = Ok (Some "Actif:Bourse:PEA:FR0000120271")) by (vm_compute; reflexivity).
    split; [exact Hc|]. rewrite Hc in Hfa. injection Hfa as <-. exact Hall.
  - vm_compute in He. discriminate He.
Defined.

(** * The white space of payees and narrations *)

Lemma lstrip_length s : (String.length (lstrip s) <= String.length s)%nat.
Proof.
  induction s as [|c s IH]; simpl; [lia|]. destruct (is_space c); simpl; lia.
Qed.

(** A greedy run of white space takes all of it. *)
Lemma rmatch_spaces {R} c s' caps (k : string -> captures -> option R) x :
  is_space c = true ->
  k (lstrip s') caps = Some x ->
  rmatch (plus sp) (String c s') caps k = Some x.
Proof.
  intros Hc Hk. generalize (eq_refl (String c s')).
  generalize (String c s') at 1 3. intros s Hs.
  cbv beta iota delta [rmatch plus sp].
  match goal with
  | |- (fix loop (fuel n : nat) (s : string) (caps : captures) {struct fuel} :=
          @?body loop fuel n s caps) ?f0 ?n0 _ _ = _ =>
      set (loop := fix loop (fuel n : nat) (s : string) (caps : captures)
                     {struct fuel} := body loop fuel n s caps)
  end.
  assert (Hloop : forall fuel n s0,
             (String.length s0 <= fuel)%nat ->
             (1 <= n)%nat \/ head_is is_space s0 = true ->
             k (lstrip s0) caps = Some x -> loop fuel n s0 caps = Some x).
  { induction fuel as [|fuel IHf]; intros n s0 Hlen Hn Hk0.
    - destruct s0; [|simpl in Hlen; lia]. simpl in Hk0 |- *.
      destruct Hn as [Hn|Hn]; [|discriminate].
      destruct n; [lia|]. simpl. exact Hk0.
    - destruct s0 as [|c0 s0].
      + simpl in Hk0 |- *. destruct Hn as [Hn|Hn]; [|discriminate].
        destruct n; [lia|]. simpl. exact Hk0.
      + simpl in Hk0. simpl. fold loop.
        destruct (is_space c0) eqn:Hc0.
        * assert (Hlt : (String.length s0 <? S (String.length s0))%nat = true)
            by (apply Nat.ltb_lt; lia).
          rewrite Hlt, orb_true_r.
          rewrite (IHf (S n) s0 ltac:(simpl in Hlen; lia) ltac:(left; lia) Hk0).
          reflexivity.
        * simpl in Hn. rewrite Hc0 in Hn. destruct Hn as [Hn|Hn]; [|discriminate].
          destruct n; [lia|]. simpl. exact Hk0. }
  apply Hloop; [lia| |].
  - right. subst s. simpl. exact Hc.
  - subst s. simpl. rewrite Hc. exact Hk.
Qed.

Lemma rmatch_spaces_none {R} s caps (k : string -> captures -> option R) :
  head_is is_space s = false -> rmatch (plus sp) s caps k = None.
Proof.
  intros Hh. destruct s as [|c s']; [reflexivity|]. simpl in Hh.
  unfold plus, sp. simpl. rewrite Hh. reflexivity.
Qed.

Lemma match_here_spaces ma start c s' :
  is_space c = true ->
  exists m, match_here (plus sp) 0 ma start (String c s') = Some m
            /\ m_start m = start /\ m_rest m = lstrip s'.
Proof.
  intros Hc. unfold match_here. eexists. split.
  - apply rmatch_spaces; [exact Hc|].
    assert (Hne : (String.length (lstrip s') =? String.length (String c s'))%nat = false).
    { apply Nat.eqb_neq. pose proof (lstrip_length s'). simpl. lia. }
    rewrite Hne, andb_false_r. reflexivity.
  - split; reflexivity.
Qed.

Lemma match_here_spaces_none ma start s :
  head_is is_space s = false -> match_here (plus sp) 0 ma start s = None.
Proof. intros Hh. unfold match_here. apply rmatch_spaces_none, Hh. Qed.

Lemma search_spaces_none s : forall ma start,
  str_forall (fun c => negb (is_space c)) s = true ->
  search_from (plus sp) 0 ma start s = None.
Proof.
  induction s as [|c s IH]; intros ma start Hs; cbn [search_from].
  - rewrite match_here_spaces_none by reflexivity. reflexivity.
  - simpl in Hs. apply andb_true_iff in Hs. destruct Hs as [Hc Hs].
    apply negb_true_iff in Hc.
    rewrite match_here_spaces_none by (simpl; exact Hc). apply IH, Hs.
Qed.

Lemma search_spaces pre c s' : forall ma start,
  str_forall (fun c => negb (is_space c)) pre = true ->
  is_space c = true ->
  exists m, search_from (plus sp) 0 ma start (pre +:+ String c s') = Some m
            /\ m_start m = (start + String.length pre)%nat /\ m_rest m = lstrip s'.
Proof.
  induction pre as [|a pre IH]; intros ma start Hp Hc.
  - rewrite str_app_nil_l. cbn [search_from].
    destruct (match_here_spaces ma start c s' Hc) as (m & -> & Hst & Hr).
    exists m. split; [reflexivity|]. split; [simpl; lia|exact Hr].
  - simpl in Hp. apply andb_true_iff in Hp. destruct Hp as [Ha Hp].
    apply negb_true_iff in Ha. rewrite str_app_cons. cbn [search_from].
    rewrite match_here_spaces_none by (simpl; exact Ha).
    destruct (IH false (S start) Hp Hc) as (m & -> & Hst & Hr).
    exists m. split; [reflexivity|]. split; [simpl; lia|exact Hr].
Qed.

Lemma space_split s :
  str_forall (fun c => negb (is_space c)) s = true
  \/ exists pre c s', s = pre +:+ String c s'
                      /\ str_forall (fun c => negb (is_space c)) pre = true
                      /\ is_space c = true.
Proof.
  induction s as [|a s IH]; [left; reflexivity|].
  destruct (is_space a) eqn:Ha.
  - right. exists "", a, s. rewrite str_app_nil_l. auto.
  - destruct IH as [IH|(pre & c & s' & -> & Hp & Hc)].
    + left. simpl. rewrite Ha, IH. reflexivity.
    + right. exists (String a pre), c, s'. rewrite str_app_cons. split; [reflexivity|].
      split; [simpl; rewrite Ha, Hp; reflexivity|exact Hc].
Qed.

Lemma collapse_nospace s b :
  str_forall (fun c => negb (is_space c)) s = true -> collapse_from b s = s.
Proof.
  revert b. induction s as [|a s IH]; intros b Hs; [reflexivity|].
  simpl in Hs |- *. apply andb_true_iff in Hs. destruct Hs as [Ha Hs].
  apply negb_true_iff in Ha. rewrite Ha, (IH false Hs). reflexivity.
Qed.

Lemma collapse_app pre c s' :
  str_forall (fun c => negb (is_space c)) pre = true ->
  is_space c = true ->
  collapse_from false (pre +:+ String c s') = pre +:+ " " +:+ collapse_from true s'.
Proof.
  intros Hp Hc. induction pre as [|a pre IH].
  - rewrite !str_app_nil_l. simpl. rewrite Hc. reflexivity.
  - simpl in Hp. apply andb_true_iff in Hp. destruct Hp as [Ha Hp].
    apply negb_true_iff in Ha. rewrite !str_app_cons. simpl. rewrite Ha, (IH Hp).
    reflexivity.
Qed.

Lemma collapse_true_lstrip s : collapse_from true s = collapse_from false (lstrip s).
Proof.
  induction s as [|a s IH]; [reflexivity|]. simpl.
  destruct (is_space a) eqn:Ha; [exact IH|]. simpl. rewrite Ha. reflexivity.
Qed.

Lemma str_take_app_exact pre s : str_take (String.length pre) (pre +:+ s) = pre.
Proof.
  induction pre as [|a pre IH].
  - rewrite str_app_nil_l. destruct s; reflexivity.
  - rewrite str_app_cons. simpl. rewrite IH. reflexivity.
Qed.

(** The scan of [re.sub] over the runs of white space. *)
Lemma scan_spaces fuel : forall ma s,
  (String.length s < fuel)%nat ->
  (let '(ms, tl) := scan fuel spaces ma s in
   fold_right (fun '(pre, _) acc => pre +:+ " " +:+ acc) tl ms) = collapse s.
Proof.
  induction fuel as [|fuel IH]; intros ma s Hlen; [lia|].
  cbn [scan]. change (p_regex spaces) with (plus sp). change (p_groups spaces) with 0%nat.
  destruct (space_split s) as [Hs|(pre & c & s' & -> & Hp & Hc)].
  - rewrite (search_spaces_none s ma 0 Hs). simpl. unfold collapse.
    rewrite collapse_nospace by exact Hs. reflexivity.
  - destruct (search_spaces pre c s' ma 0 Hp Hc) as (m & -> & Hst & Hr).
    simpl in Hst. rewrite Hst, Hr.
    specialize (IH (String.length (lstrip s') =?
                    String.length (pre +:+ String c s') - String.length pre)%nat
                  (lstrip s')).
    destruct (scan fuel spaces _ (lstrip s')) as [ms tl].
    simpl. rewrite str_take_app_exact.
    rewrite IH.
    + unfold collapse. rewrite collapse_app by assumption.
      rewrite collapse_true_lstrip. reflexivity.
    + pose proof (lstrip_length s'). rewrite str_length_app in Hlen. simpl in Hlen. lia.
Qed.

Lemma collapse_plain_spaced s : forall b, plain_spaced (collapse_from b s) = true.
Proof.
  unfold plain_spaced. induction s as [|a s IH]; intros b; [reflexivity|]. simpl.
  destruct (is_space a) eqn:Ha.
  - destruct b; [apply IH|]. simpl. rewrite IH. reflexivity.
  - simpl. rewrite Ha, IH. reflexivity.
Qed.

Lemma space_is_space : is_space " " = true.
Proof. reflexivity. Qed.

Lemma collapse_separated s :
  separated (collapse_from false s) = true
  /\ separated (collapse_from true s) = true
  /\ head_is (Ascii.eqb " ") (collapse_from true s) = false.
Proof.
  induction s as [|a s (IH1 & IH2 & IH3)]; [repeat split|]. simpl.
  destruct (is_space a) eqn:Ha.
  - split; [|split; assumption].
    destruct (collapse_from true s) as [|b t] eqn:Hc; [reflexivity|].
    change (Ascii.eqb " " b = false) in IH3.
    change (separated (String " " (String b t)))
      with (negb (Ascii.eqb " " " " && Ascii.eqb b " ") && separated (String b t)).
    rewrite IH2. rewrite (Ascii.eqb_sym b " "), IH3, andb_false_r. reflexivity.
  - assert (Hne : Ascii.eqb a " " = false).
    { destruct (Ascii.eqb_spec a " ") as [->|]; [|reflexivity].
      rewrite space_is_space in Ha. discriminate. }
    assert (Hs : separated (String a (collapse_from false s)) = true).
    { destruct (collapse_from false s) as [|b t]; [reflexivity|].
      change (separated (String a (String b t)))
        with (negb (Ascii.eqb a " " && Ascii.eqb b " ") && separated (String b t)).
      rewrite Hne, IH1. reflexivity. }
    split; [exact Hs|]. split; [exact Hs|].
    change (Ascii.eqb " " a = false). rewrite Ascii.eqb_sym. exact Hne.
Qed.

Lemma collapse_fixed s :
  plain_spaced s = true -> separated s = true -> collapse_from false s = s.
Proof.
  unfold plain_spaced. induction s as [|a s IH]; intros Hp Hs; [reflexivity|].
  change (str_forall ?q (String a s)) with (q a && str_forall q s) in Hp.
  cbv beta in Hp. apply andb_true_iff in Hp. destruct Hp as [Ha Hp].
  assert (Hs' : separated s = true).
  { destruct s as [|b t]; [reflexivity|].
    change (separated (String a (String b t)))
      with (negb (Ascii.eqb a " " && Ascii.eqb b " ") && separated (String b t)) in Hs.
    apply andb_true_iff in Hs. tauto. }
  simpl. destruct (is_space a) eqn:Hsp.
  - cbn [negb orb] in Ha. apply Ascii.eqb_eq in Ha. subst a. f_equal.
    rewrite collapse_true_lstrip.
    assert (Hl : lstrip s = s).
    { destruct s as [|b t]; [reflexivity|].
      change (separated (String " " (String b t)))
        with (negb (Ascii.eqb " " " " && Ascii.eqb b " ") && separated (String b t)) in Hs.
      apply andb_true_iff in Hs. destruct Hs as [Hb _].
      rewrite Ascii.eqb_refl in Hb. cbn [andb] in Hb. apply negb_true_iff in Hb.
      change (str_forall ?q (String b t)) with (q b && str_forall q t) in Hp.
      cbv beta in Hp. apply andb_true_iff in Hp. destruct Hp as [Hpb _].
      rewrite Hb, orb_false_r in Hpb. apply negb_true_iff in Hpb.
      cbn [lstrip]. rewrite Hpb. reflexivity. }
    rewrite Hl. apply IH; assumption.
  - f_equal. apply IH; assumption.
Qed.

Lemma re_sub_spaces s : re_sub spaces " " s = collapse s.
Proof.
  unfold re_sub.
  pose proof (scan_spaces (2 * String.length s + 2) false s ltac:(lia)) as Hs.
  destruct (scan _ spaces false s) as [ms tl]. exact Hs.
Qed.

(** The payees and narrations of the card and checking-account
    statements go through [re.sub] with the pattern of a run of white
    space: every run of white space becomes one ordinary space.  The
    result has no other white space and no two spaces side by side, a
    second pass changes nothing, and a string that is already so is
    returned as it is.  The payee, which falls back on [inconnu], is
    never empty. *)
Theorem whitespace_collapsed (s : string) :
  re_sub spaces " " s = collapse s
  /\ plain_spaced (re_sub spaces " " s) = true
  /\ separated (re_sub spaces " " s) = true
  /\ re_sub spaces " " (re_sub spaces " " s) = re_sub spaces " " s
  /\ (plain_spaced s = true -> separated s = true -> re_sub spaces " " s = s)
  /\ or_inconnu (re_sub spaces " " s) <> ""
  /\ plain_spaced (or_inconnu (re_sub spaces " " s)) = true
  /\ separated (or_inconnu (re_sub spaces " " s)) = true.
Proof.
  rewrite !re_sub_spaces. unfold collapse.
  pose proof (collapse_plain_spaced s false) as Hp.
  destruct (collapse_separated s) as (Hs & _).
  split; [reflexivity|]. split; [exact Hp|]. split; [exact Hs|].
  split; [apply collapse_fixed; assumption|].
  split; [intros H1 H2; apply collapse_fixed; assumption|].
  unfold or_inconnu. destruct (collapse_from false s) as [|a t]; simpl truthy; cbv iota.
  - split; [discriminate|]. split; reflexivity.
  - split; [discriminate|]. split; assumption.
Qed.

Lemma whitespace_collapsed_witness :
  plain_spaced "VIR SEPA LOYER" = true
  /\ separated "VIR SEPA LOYER" = true
  /\ re_sub spaces " " "VIR SEPA LOYER" = "VIR SEPA LOYER".
Proof.
  split; [reflexivity|]. split; [reflexivity|].
  exact (proj1 (proj2 (proj2 (proj2 (proj2 (whitespace_collapsed "VIR SEPA LOYER")))))
           eq_refl eq_refl).
Defined.

(** A description over two lines with a tab and a run of spaces. *)
Example whitespace_collapsed_example :
  re_sub spaces " " ("PRLV  SEPA" +:+ nl +:+ chr "009" +:+ "EDF   PARIS ")
  = "PRLV SEPA EDF PARIS "
  /\ or_inconnu (re_sub spaces " " "") = "inconnu"
  /\ or_inconnu (re_sub spaces " " "   ") = " ".
Proof. repeat split; vm_compute; reflexivity. Qed.

(** * Amounts written the French way *)

Lemma span_digits_all ds :
  str_forall is_digit ds = true -> span_digits ds = (ds, "").
Proof.
  induction ds as [|c ds IH]; [reflexivity|]. simpl.
  intros [Hc Hd]%andb_true_iff. rewrite Hc, (IH Hd). reflexivity.
Qed.

Lemma span_digits_app ds r :
  str_forall is_digit ds = true -> head_is is_digit r = false ->
  span_digits (ds +:+ r) = (ds, r).
Proof.
  intros Hd Hr. induction ds as [|c ds IH].
  - rewrite str_app_nil_l. destruct r as [|a r]; [reflexivity|].
    simpl in Hr |- *. rewrite Hr. reflexivity.
  - simpl in Hd. apply andb_true_iff in Hd. destruct Hd as [Hc Hd].
    rewrite str_app_cons. simpl. rewrite Hc, (IH Hd). reflexivity.
Qed.

Lemma digits_nospace s :
  str_forall is_digit s = true -> str_forall (fun c => negb (is_space c)) s = true.
Proof.
  apply str_forall_impl. apply (implb_all is_digit). vm_compute. reflexivity.
Qed.

Lemma digits_without c0 s :
  is_digit c0 = false ->
  str_forall is_digit s = true -> str_forall (fun a => negb (Ascii.eqb c0 a)) s = true.
Proof.
  intros Hc. apply str_forall_impl. intros a Ha.
  destruct (Ascii.eqb_spec c0 a) as [->|]; [congruence|reflexivity].
Qed.

(** [Decimal] on digits, a period and digits. *)
Lemma Decimal_fixed ip fp :
  str_forall is_digit ip = true -> ip <> "" -> str_forall is_digit fp = true ->
  Decimal (ip +:+ "." +:+ fp)
  = Ok (Fin false (digits_value (ip +:+ fp)) (- Z.of_nat (String.length fp))).
Proof.
  intros Hi Hne Hf. unfold Decimal.
  assert (Hns : str_forall (fun c => negb (is_space c)) (ip +:+ "." +:+ fp) = true).
  { rewrite !str_forall_app, (digits_nospace ip Hi), (digits_nospace fp Hf). reflexivity. }
  rewrite (strip_id _ Hns).
  assert (Hnu : str_forall (fun a => negb (Ascii.eqb "_" a)) (ip +:+ "." +:+ fp) = true).
  { rewrite !str_forall_app, (digits_without "_" ip eq_refl Hi),
      (digits_without "_" fp eq_refl Hf). reflexivity. }
  change "_" with (String "_" "") at 1. rewrite (replace_chr_id _ _ _ Hnu).
  destruct ip as [|c ip]; [contradiction|].
  assert (Hc : is_digit c = true) by (simpl in Hi; apply andb_true_iff in Hi; tauto).
  rewrite str_app_cons. rewrite (proj2 (is_digit_plain c Hc)).
  rewrite <- str_app_cons. unfold parse_unsigned.
  rewrite (span_digits_app (String c ip) ("." +:+ fp) Hi eq_refl).
  change ("." +:+ fp) with (String "." fp). cbv iota beta.
  rewrite (span_digits_all _ Hf). simpl truthy. cbv iota. simpl parse_exponent. cbv iota.
  rewrite Z.sub_0_l. reflexivity.
Qed.

Lemma digits_of_app s t : digits_of (s +:+ t) = digits_of s +:+ digits_of t.
Proof.
  induction s as [|c s IH]; [rewrite !str_app_nil_l; reflexivity|].
  rewrite str_app_cons. simpl. destruct (is_digit c); [|exact IH].
  rewrite str_app_cons, IH. reflexivity.
Qed.

Lemma digits_of_digits s : str_forall is_digit s = true -> digits_of s = s.
Proof.
  induction s as [|c s IH]; [reflexivity|]. simpl.
  intros [Hc Hs]%andb_true_iff. rewrite Hc, (IH Hs). reflexivity.
Qed.

Lemma digits_of_forall s : str_forall is_digit (digits_of s) = true.
Proof.
  induction s as [|c s IH]; [reflexivity|]. simpl.
  destruct (is_digit c) eqn:Hc; [|exact IH]. simpl. rewrite Hc, IH. reflexivity.
Qed.

(** Dropping the periods of digits and periods leaves the digits. *)
Lemma replace_period_plain u :
  str_forall plain_char u = true -> replace "." "" u = digits_of u.
Proof.
  induction u as [|c u IH]; [reflexivity|].
  change (str_forall plain_char (String c u)) with (plain_char c && str_forall plain_char u).
  intros [Hc Hu]%andb_true_iff.
  rewrite replace_chr_cons, (IH Hu).
  unfold plain_char in Hc. simpl digits_of.
  destruct (Ascii.eqb_spec "." c) as [<-|Hne].
  - rewrite str_app_nil_l. reflexivity.
  - destruct (is_digit c); [reflexivity|]. simpl in Hc.
    apply Ascii.eqb_eq in Hc. congruence.
Qed.

(** What the normalizer of the bank statements makes of digits and
    periods, a comma and digits. *)
Lemma normalize_fr_value u fp :
  str_forall plain_char u = true -> str_forall is_digit fp = true ->
  normalize_fr (u +:+ "," +:+ fp) = digits_of u +:+ "." +:+ fp
  /\ digits_of (u +:+ "," +:+ fp) = digits_of u +:+ fp.
Proof.
  intros Hu Hf. split.
  - unfold normalize_fr. rewrite !replace_chr_app.
    rewrite (replace_period_plain u Hu).
    rewrite (replace_chr_id "." "" fp (digits_without "." fp eq_refl Hf)).
    change (replace "." "" ",") with ",". change (replace "," "." ",") with ".".
    rewrite (replace_chr_id "," "." _ (digits_without "," _ eq_refl (digits_of_forall u))).
    rewrite (replace_chr_id "," "." fp (digits_without "," fp eq_refl Hf)).
    reflexivity.
  - rewrite !digits_of_app, (digits_of_digits fp Hf). reflexivity.
Qed.

Lemma plain_numeric_digits s :
  str_forall is_digit s = true -> str_forall plain_char s = true.
Proof.
  apply str_forall_impl. intros c Hc. unfold plain_char. rewrite Hc. reflexivity.
Qed.

(** The words of the two amount patterns of the bank statements. *)
Lemma lang_amount_fr2 g :
  lang amount_fr2 g ->
  exists u fp, g = u +:+ "," +:+ fp
               /\ str_forall plain_char u = true /\ digits_of u <> ""
               /\ str_forall is_digit fp = true /\ String.length fp = 2%nat.
Proof.
  intros Hg. unfold amount_fr2, seq in Hg. cbn [fold_right] in Hg.
  destruct Hg as (w1 & r1 & -> & H1 & w2 & r2 & -> & H2 & w3 & r3 & -> & H3
                  & w4 & r4 & -> & H4 & w5 & r5 & -> & H5 & ->).
  apply lang_lit in H4. subst w4.
  pose proof (alphabet_within_sound plain_char
                (opt (Seq (times 1 3 d) (Seq (lit ".") Eps))) w1 eq_refl H1) as P1.
  pose proof (alphabet_within_sound plain_char
                (opt (Seq (times 1 3 d) (Seq (lit ".") Eps))) w2 eq_refl H2) as P2.
  destruct (shaped_sound is_digit 1 3 (times 1 3 d) w3 eq_refl H3) as [D3 L3].
  destruct (shaped_sound is_digit 2 2 (exactly 2 d) w5 eq_refl H5) as [D5 L5].
  exists (w1 +:+ w2 +:+ w3), w5. rewrite str_app_nil_r, !str_app_assoc.
  split; [reflexivity|]. split.
  - rewrite !str_forall_app, P1, P2, (plain_numeric_digits w3 D3). reflexivity.
  - split; [|split; [exact D5|lia]].
    rewrite !digits_of_app, (digits_of_digits w3 D3).
    destruct w3 as [|c w3]; [simpl in L3; lia|].
    destruct (digits_of w1); destruct (digits_of w2); discriminate.
Qed.

Lemma lang_amount_fr g : lang amount_fr g -> lang amount_fr2 g.
Proof.
  unfold amount_fr, amount_fr2, seq. cbn [fold_right].
  intros (w1 & r1 & -> & H1 & Hrest).
  exists "", (w1 +:+ r1). split; [rewrite str_app_nil_l; reflexivity|]. split.
  - exists 0%nat. split; [lia|]. split; [intros h [= <-]; lia|constructor].
  - exists w1, r1. auto.
Qed.

(** The amount of the bank statements: the number whose digits are those
    read, with two decimals. *)
Lemma french_amount_value g :
  lang amount_fr2 g ->
  Decimal (normalize_fr g) = Ok (Fin false (digits_value (digits_of g)) (-2))
  /\ head_is is_digit (normalize_fr g) = true
  /\ str_forall plain_char (normalize_fr g) = true.
Proof.
  intros Hg. destruct (lang_amount_fr2 g Hg) as (u & fp & -> & Hu & Hne & Hf & Hlen).
  destruct (normalize_fr_value u fp Hu Hf) as [-> ->].
  split; [|split].
  - rewrite (Decimal_fixed _ _ (digits_of_forall u) Hne Hf), Hlen. reflexivity.
  - destruct (digits_of u) as [|c t] eqn:Hd; [contradiction|].
    pose proof (digits_of_forall u) as Hall. rewrite Hd in Hall. simpl in Hall.
    apply andb_true_iff in Hall. rewrite str_app_cons. simpl. tauto.
  - rewrite !str_forall_app, (plain_numeric_digits _ (digits_of_forall u)),
      (plain_numeric_digits _ Hf). reflexivity.
Qed.

Ltac amount_groups pat amt Hsub :=
  match goal with
  | |- groups_ok ?P _ =>
      let Hin := fresh "Hin" in
      assert (Hin : groups_ok P amt) by (unfold amt, seq; simpl; tauto);
      unfold pat, p_regex, seq, fold_right; revert Hsub Hin; generalize amt;
      intros r Hsub Hin; simpl; repeat split; try exact Hin;
      intros w Hw Hi; try discriminate Hi; auto
  end.

Lemma amount_groups_cb_operation :
  groups_ok (fun i w => i = 3%nat -> lang amount_fr2 w) (p_regex cb_operation).
Proof.
  remember (lang amount_fr2) as Q eqn:HQ.
  assert (Hsub : forall w, lang amount_fr w -> Q w)
    by (subst Q; exact lang_amount_fr).
  clear HQ. amount_groups cb_operation amount_fr Hsub.
Qed.

Lemma amount_groups_compte_operation :
  groups_ok (fun i w => i = 4%nat -> lang amount_fr2 w) (p_regex compte_operation).
Proof.
  remember (lang amount_fr2) as Q eqn:HQ.
  assert (Hsub : forall w, lang amount_fr w -> Q w)
    by (subst Q; exact lang_amount_fr).
  clear HQ. amount_groups compte_operation amount_fr Hsub.
Qed.

Lemma amount_groups_compte_solde :
  groups_ok (fun i w => i = 4%nat -> lang amount_fr2 w) (p_regex compte_solde).
Proof.
  remember (lang amount_fr2) as Q eqn:HQ.
  assert (Hsub : forall w, lang amount_fr w -> Q w)
    by (subst Q; exact lang_amount_fr).
  clear HQ. amount_groups compte_solde amount_fr Hsub.
Qed.

Lemma amount_groups_cb_debit :
  groups_ok (fun i w => i = 2%nat -> lang amount_fr2 w) (p_regex cb_debit).
Proof.
  remember (lang amount_fr2) as Q eqn:HQ.
  assert (Hsub : forall w, lang amount_fr2 w -> Q w) by (subst Q; auto).
  clear HQ. amount_groups cb_debit amount_fr2 Hsub.
Qed.

Lemma amount_groups_compte_nouveau_solde :
  groups_ok (fun i w => i = 2%nat -> lang amount_fr2 w) (p_regex compte_nouveau_solde).
Proof.
  remember (lang amount_fr2) as Q eqn:HQ.
  assert (Hsub : forall w, lang amount_fr2 w -> Q w) by (subst Q; auto).
  clear HQ. amount_groups compte_nouveau_solde amount_fr2 Hsub.
Qed.

Lemma french_amount_conversions g :
  lang amount_fr2 g ->
  let v := digits_value (digits_of g) in
  Decimal (normalize_fr g) = Ok (Fin false v (-2))
  /\ Decimal ("-" +:+ normalize_fr g) = Ok (Fin true v (-2))
  /\ D (normalize_fr g) = Ok (Fin false v (-2))
  /\ D ("-" +:+ normalize_fr g) = Ok (Fin true v (-2)).
Proof.
  intros Hg v. destruct (french_amount_value g Hg) as (Hd & Hh & Hp).
  destruct (D_plain _ Hh Hp) as [HD HDm]. fold v in Hd.
  rewrite (Decimal_minus _ Hh), HD, HDm, Hd. repeat split.
Qed.

(** The amount of an operation line of a card or checking-account
    statement always converts: the conversion of the source, [Decimal]
    after the periods are dropped and the comma made a period, gives the
    number whose digits are those of the amount, with two decimals, and
    its opposite when the source puts a minus sign in front. *)
Theorem operation_amounts (p : pattern) (j : nat) (text : string) (chunk : list string) :
  In (p, j) [(cb_operation, 2%nat); (compte_operation, 3%nat)] ->
  In chunk (re_findall p text) ->
  Decimal (normalize_fr (item chunk j))
  = Ok (Fin false (digits_value (digits_of (item chunk j))) (-2))
  /\ Decimal ("-" +:+ normalize_fr (item chunk j))
     = Ok (Fin true (digits_value (digits_of (item chunk j))) (-2))
  /\ (forall longueur,
        Decimal (signed_montant longueur (normalize_fr (item chunk j)))
        = Ok (Fin (longueur <=? 148)%nat (digits_value (digits_of (item chunk j))) (-2))).
Proof.
  intros Hp Hin.
  assert (Hg : lang amount_fr2 (item chunk j)).
  { simpl in Hp. destruct Hp as [[= <- <-]|[[= <- <-]|[]]].
    - apply (re_findall_item _ cb_operation amount_groups_cb_operation text chunk 2 Hin);
        [reflexivity|simpl; lia|reflexivity].
    - apply (re_findall_item _ compte_operation amount_groups_compte_operation
               text chunk 3 Hin); [reflexivity|simpl; lia|reflexivity]. }
  destruct (french_amount_conversions _ Hg) as (H1 & H2 & _).
  split; [exact H1|]. split; [exact H2|].
  intros longueur. unfold signed_montant.
  destruct (Nat.ltb_spec 148 longueur) as [Hl|Hl].
  - rewrite H1. f_equal. f_equal. symmetry. apply Nat.leb_gt. lia.
  - rewrite H2. f_equal. f_equal. symmetry. apply Nat.leb_le. lia.
Qed.

Lemma operation_amounts_witness :
  exists chunk,
    re_findall cb_operation (f_text cb_doc) = [chunk]
    /\ item chunk 2 = "45,30"
    /\ Decimal ("-" +:+ normalize_fr (item chunk 2)) = Ok (Fin true 4530 (-2)).
Proof.
  destruct (re_findall cb_operation (f_text cb_doc)) as [|chunk [|c2 l]] eqn:Hf;
    try (vm_compute in Hf; discriminate Hf).
  exists chunk. split; [reflexivity|].
  assert (Hin : In chunk (re_findall cb_operation (f_text cb_doc)))
    by (rewrite Hf; left; reflexivity).
  destruct (operation_amounts cb_operation 2 _ chunk ltac:(left; reflexivity) Hin)
    as (_ & Hm & _).
  vm_compute in Hf. injection Hf as <-. split; [reflexivity|exact Hm].
Defined.

(** The amount of a balance line always converts in the same way:
    [D] gives the number whose digits are those of the amount, with two
    decimals, negated when the source puts a minus sign in front. *)
Theorem balance_amounts (p : pattern) (i : nat) (text : string) (m : match_obj) :
  In (p, i) [(compte_solde, 4%nat); (compte_nouveau_solde, 2%nat); (cb_debit, 2%nat)] ->
  re_search p text = Some m ->
  exists g,
    group m i = Some g
    /\ D (normalize_fr g) = Ok (Fin false (digits_value (digits_of g)) (-2))
    /\ D ("-" +:+ normalize_fr g) = Ok (Fin true (digits_value (digits_of g)) (-2))
    /\ (forall longueur,
          D (signed_balance longueur (normalize_fr g))
          = Ok (Fin (longueur <? 84)%nat (digits_value (digits_of g)) (-2))).
Proof.
  intros Hp Hm.
  assert (Hg : exists g, group m i = Some g /\ lang amount_fr2 g).
  { simpl in Hp. destruct Hp as [[= <- <-]|[[= <- <-]|[[= <- <-]|[]]]].
    - apply (re_search_sound _ compte_solde amount_groups_compte_solde) in Hm.
      destruct Hm as (_ & _ & Hall).
      destruct (Hall 4%nat eq_refl ltac:(simpl; lia)) as (g & Hg & HQ). eauto.
    - apply (re_search_sound _ compte_nouveau_solde amount_groups_compte_nouveau_solde) in Hm.
      destruct Hm as (_ & _ & Hall).
      destruct (Hall 2%nat eq_refl ltac:(simpl; lia)) as (g & Hg & HQ). eauto.
    - apply (re_search_sound _ cb_debit amount_groups_cb_debit) in Hm.
      destruct Hm as (_ & _ & Hall).
      destruct (Hall 2%nat eq_refl ltac:(simpl; lia)) as (g & Hg & HQ). eauto. }
  destruct Hg as (g & Hgi & Hg). exists g. split; [exact Hgi|].
  destruct (french_amount_conversions _ Hg) as (_ & _ & H3 & H4).
  split; [exact H3|]. split; [exact H4|].
  intros longueur. unfold signed_balance.
  destruct (longueur <? 84)%nat; assumption.
Qed.

Lemma balance_amounts_witness :
  exists m g,
    re_search compte_solde (f_text (compte_doc 116)) = Some m
    /\ group m 4 = Some g
    /\ g = "1.000,00"
    /\ D (normalize_fr g) = Ok (Fin false 100000 (-2)).
Proof.
  destruct (re_search compte_solde (f_text (compte_doc 116))) as [m|] eqn:Hm;
    [|vm_compute in Hm; discriminate Hm].
  destruct (balance_amounts compte_solde 4 _ m ltac:(left; reflexivity) Hm)
    as (g & Hg & HD & _).
  exists m, g. split; [reflexivity|]. split; [exact Hg|].
  assert (Hv : g = "1.000,00").
  { vm_compute in Hm. injection Hm as <-. vm_compute in Hg. injection Hg as <-.
    reflexivity. }
  split; [exact Hv|]. subst g. exact HD.
Defined.

(** * How the bank-statement branches fail *)














Section Failures.
Context `{DateParser}.







End Failures.



Section CompteFailures.
Context `{DateParser}.





End CompteFailures.


(** The opening balance of a statement dated 31/12/9999. *)
Example compte_overflow_example :
  fst (extract (H := parse_dmy)
         (pdf "compte.pdf"
            ("BOURSORAMA BANQUE" +:+ nl +:+ " 12345678901" +:+ nl
             +:+ "SOLDE AU : 31/12/9999 1.000,00" +:+ nl))
         fresh_importer) = Raise OverflowError.
Proof. vm_compute. reflexivity. Qed.
